(** * CLIProxyAPIPlus: static model registry and quota handlers

    A shallow embedding of
    - [internal/registry/model_definitions.go]: the channel dispatch
      [GetStaticModelDefinitionsByChannel] and the global lookup
      [LookupStaticModelInfo];
    - the management handlers [GetKiroQuota] and [GetCopilotQuota] with
      their helpers [makeKiroRequest], [listProfiles], [getUsageLimits] and
      [fetchCopilotUsage]. There are two versions of [GetKiroQuota] at
      hand: [Quota.GetKiroQuota] is the one that calls the CodeWhisperer
      endpoint itself, [KiroAuthVersion.GetKiroQuota] the one that hands
      the call to the [kiroauth] package;
    - the tables [GetGitHubCopilotModels], [GetKiroModels] and
      [GetAmazonQModels] of [model_definitions.go];
    - the command-line tools: the search for a token file, the choice
      of the token in the usage tool, the token exchange, and of
      [tools/update_copilot_models/main.go] the fetching of the model
      list, the generator [generateGoCode] and the rewriting of the file
      by [updateModelDefinitions].

    Go strings are byte strings ([string]), [int]/[int64] are [Z], a
    [float64] is a binary64 primitive float, a pointer that may be [nil] is
    an [option], a Go [map] is a [gmap]. *)

From Stdlib Require Import PrimFloat ZArith Ascii String Sorted Permutation.
From stdpp Require Import gmap strings list fin_maps sorting pretty.

Local Open Scope string_scope.

(** ** The fragment of Go's [strings] package the registry uses

    Strings are modelled byte by byte on the ASCII range, where the
    library works byte by byte too. On other input the library decodes
    UTF-8: it lowers letters outside ASCII and trims the white space
    outside ASCII as well; no statement below depends on what happens
    there beyond [ToLower] and [TrimSpace] being functions. *)
Module GoStrings.

(** [unicode.ToLower] on one byte of the ASCII range; bytes from 128 on
    (parts of multi-byte runes) are left alone. *)
Definition lower_byte (c : ascii) : ascii :=
  let n := Ascii.N_of_ascii c in
  if ((65 <=? n) && (n <=? 90))%N then Ascii.ascii_of_N (n + 32) else c.

(** [strings.ToLower]. *)
Fixpoint ToLower (s : string) : string :=
  match s with
  | EmptyString => EmptyString
  | String c s' => String (lower_byte c) (ToLower s')
  end.

(** The ASCII white space of [strings.TrimSpace]: tab, line feed, vertical
    tab, form feed, carriage return and space. *)
Definition isSpace (c : ascii) : bool :=
  let n := Ascii.N_of_ascii c in
  ((9 <=? n) && (n <=? 13) || (n =? 32))%N.

Fixpoint TrimLeft (s : string) : string :=
  match s with
  | EmptyString => EmptyString
  | String c s' => if isSpace c then TrimLeft s' else s
  end.

(** Drops the white space at the end: a space is kept exactly when
    something that is not a space follows it. *)
Fixpoint TrimRight (s : string) : string :=
  match s with
  | EmptyString => EmptyString
  | String c s' =>
      match TrimRight s' with
      | EmptyString => if isSpace c then EmptyString else String c EmptyString
      | t => String c t
      end
  end.

(** [strings.TrimSpace]. *)
Definition TrimSpace (s : string) : string := TrimRight (TrimLeft s).

(** [a < b] on Go strings: byte-wise lexicographic. *)
Definition less (a b : string) : bool := String.ltb a b.


End GoStrings.

(** ** [sort.Slice]

    The library sorts a slice of fewer than 12 elements by insertion and a
    longer one by pattern-defeating quicksort; neither is promised to be
    stable. The insertion sort is the one modelled. What is proved about
    the result is that it is a permutation of the input in which no
    element is [less] than the one before it, which is all the library
    promises for either algorithm. *)
Module GoSort.
Section Slice.
Context {A : Type} (less : A → A → bool).

(** One pass of the inner loop of the insertion sort behind [sort.Slice]
    (the algorithm the library runs on slices shorter than 12): the new
    element [x] moves towards the front while [less x y] holds for the
    element [y] just before it. The already sorted prefix is kept
    reversed, so that "just before" is the head. *)
Fixpoint bubble (x : A) (r : list A) : list A :=
  match r with
  | [] => [x]
  | y :: r' => if less x y then y :: bubble x r' else x :: r
  end.

Definition Slice (l : list A) : list A :=
  reverse (foldl (λ r x, bubble x r) [] l).

(** The order of the sorted prefix while it is kept reversed. *)
Definition notLess (u v : A) : Prop := less u v = false.

End Slice.
End GoSort.

(** ** The registry: [internal/registry/model_definitions.go] *)
Module Registry.
Import GoStrings.

(** [ThinkingSupport]: a numeric budget range or a list of effort levels. *)
Record ThinkingSupport := {
  Min : Z;
  Max : Z;
  ZeroAllowed : bool;
  DynamicAllowed : bool;
  Levels : list string
}.

(** [ModelInfo] with the fields the table literals of the file assign. The
    type is declared in another file of the package; a field left out of a
    literal holds Go's zero value. *)
Record ModelInfo := {
  ID : string;
  Object : string;
  Created : Z;
  OwnedBy : string;
  Type_ : string;
  DisplayName : string;
  Description : string;
  ContextLength : Z;
  MaxCompletionTokens : Z;
  SupportedEndpoints : list string;
  Thinking : option ThinkingSupport
}.

(** [AntigravityModelConfig], by the two fields the registry reads. *)
Record AntigravityModelConfig := {
  cfgThinking : option ThinkingSupport;
  cfgMaxCompletionTokens : Z
}.

(** The tables of [model_definitions_static_data.go], which the functions
    below take as given: eight slices of [*ModelInfo] and the keyed
    antigravity configuration [map[string]*AntigravityModelConfig]. *)
Record StaticData := {
  GetClaudeModels : list (option ModelInfo);
  GetGeminiModels : list (option ModelInfo);
  GetGeminiVertexModels : list (option ModelInfo);
  GetGeminiCLIModels : list (option ModelInfo);
  GetAIStudioModels : list (option ModelInfo);
  GetOpenAIModels : list (option ModelInfo);
  GetQwenModels : list (option ModelInfo);
  GetIFlowModels : list (option ModelInfo);
  GetAntigravityModelConfig : gmap string (option AntigravityModelConfig)
}.

(** A [range] over a Go map yields every entry once, in an order the
    language leaves open and that may change from one loop to the next.
    [visit] is the order one execution of the loop takes. *)
Definition range_of (cfg : gmap string (option AntigravityModelConfig))
    (visit : list (string * option AntigravityModelConfig)) : Prop :=
  visit ≡ₚ map_to_list cfg.

(** The descriptor appended at lines 52-59. *)
Definition antigravityModel (modelID : string)
    (entry : AntigravityModelConfig) : ModelInfo :=
  {| ID := modelID;
     Object := "model";
     Created := 0;
     OwnedBy := "antigravity";
     Type_ := "antigravity";
     DisplayName := "";
     Description := "";
     ContextLength := 0;
     MaxCompletionTokens := cfgMaxCompletionTokens entry;
     SupportedEndpoints := [];
     Thinking := cfgThinking entry |}.

(** The body of the loop at lines 48-60: [None] stands for [continue]. *)
Definition antigravityEntry (kv : string * option AntigravityModelConfig)
    : option (option ModelInfo) :=
  match kv with
  | (modelID, Some entry) =>
      if decide (modelID = "") then None
      else Some (Some (antigravityModel modelID entry))
  | (_, None) => None
  end.

(** The comparison handed to [sort.Slice] at lines 61-63. A [nil] element
    never reaches it; it is read as the empty identifier. *)
Definition idOf (m : option ModelInfo) : string := from_option ID "" m.

Definition lessByLowerID (a b : option ModelInfo) : bool :=
  less (ToLower (idOf a)) (ToLower (idOf b)).

(** [GetStaticModelDefinitionsByChannel]. A [nil] slice and an empty one
    are both the empty list. [visit] is the order in which the [range] of
    this call walks the configuration. *)
Definition GetStaticModelDefinitionsByChannel (d : StaticData)
    (visit : list (string * option AntigravityModelConfig))
    (channel : string) : list (option ModelInfo) :=
  let key := ToLower (TrimSpace channel) in
  if decide (key = "claude") then GetClaudeModels d
  else if decide (key = "gemini") then GetGeminiModels d
  else if decide (key = "vertex") then GetGeminiVertexModels d
  else if decide (key = "gemini-cli") then GetGeminiCLIModels d
  else if decide (key = "aistudio") then GetAIStudioModels d
  else if decide (key = "codex") then GetOpenAIModels d
  else if decide (key = "qwen") then GetQwenModels d
  else if decide (key = "iflow") then GetIFlowModels d
  else if decide (key = "antigravity") then
    let cfg := GetAntigravityModelConfig d in
    if decide (size cfg = 0%nat) then []
    else GoSort.Slice lessByLowerID (omap antigravityEntry visit)
  else [].

(** The inner loop of [LookupStaticModelInfo], lines 88-92. *)
Fixpoint scanModels (modelID : string) (models : list (option ModelInfo))
    : option ModelInfo :=
  match models with
  | [] => None
  | Some m :: rest =>
      if decide (ID m = modelID) then Some m else scanModels modelID rest
  | None :: rest => scanModels modelID rest
  end.

(** The outer loop, lines 87-93. *)
Fixpoint scanTables (modelID : string)
    (tables : list (list (option ModelInfo))) : option ModelInfo :=
  match tables with
  | [] => None
  | models :: rest =>
      match scanModels modelID models with
      | Some m => Some m
      | None => scanTables modelID rest
      end
  end.

(** The slice [allModels] of lines 77-86. *)
Definition allModels (d : StaticData) : list (list (option ModelInfo)) :=
  [ GetClaudeModels d; GetGeminiModels d; GetGeminiVertexModels d;
    GetGeminiCLIModels d; GetAIStudioModels d; GetOpenAIModels d;
    GetQwenModels d; GetIFlowModels d ].

(** Indexing the configuration map: a missing key reads as [nil]. *)
Definition cfgIndex (cfg : gmap string (option AntigravityModelConfig))
    (modelID : string) : option AntigravityModelConfig :=
  mjoin (cfg !! modelID).

(** The descriptor built at lines 97-101. *)
Definition antigravityFallback (modelID : string)
    (cfg : AntigravityModelConfig) : ModelInfo :=
  {| ID := modelID;
     Object := "";
     Created := 0;
     OwnedBy := "";
     Type_ := "";
     DisplayName := "";
     Description := "";
     ContextLength := 0;
     MaxCompletionTokens := cfgMaxCompletionTokens cfg;
     SupportedEndpoints := [];
     Thinking := cfgThinking cfg |}.

(** [LookupStaticModelInfo]. *)
Definition LookupStaticModelInfo (d : StaticData) (modelID : string)
    : option ModelInfo :=
  if decide (modelID = "") then None
  else
    match scanTables modelID (allModels d) with
    | Some m => Some m
    | None =>
        match cfgIndex (GetAntigravityModelConfig d) modelID with
        | Some cfg => Some (antigravityFallback modelID cfg)
        | None => None
        end
    end.


(** *** Vocabulary of the statements *)

(** The order [sort.Slice] is asked for: identifiers compared in lower
    case. *)
Definition lowerLe (a b : option ModelInfo) : Prop :=
  String.le (ToLower (idOf a)) (ToLower (idOf b)).


(** A test that no table defines [modelID]. *)
Definition definesNowhere (modelID : string)
    (tables : list (list (option ModelInfo))) : bool :=
  forallb (forallb (λ om, match om with
                          | Some m => negb (String.eqb (ID m) modelID)
                          | None => true
                          end)) tables.

(** *** Sample tables, to run the functions on *)

Definition sampleModel (id owner : string) : ModelInfo :=
  {| ID := id;
     Object := "model";
     Created := 1732752000;
     OwnedBy := owner;
     Type_ := owner;
     DisplayName := id;
     Description := "";
     ContextLength := 200000;
     MaxCompletionTokens := 64000;
     SupportedEndpoints := ["/chat/completions"];
     Thinking := None |}.

Definition sampleEntry (cap : Z) : AntigravityModelConfig :=
  {| cfgThinking :=
       Some {| Min := 1024; Max := 32000; ZeroAllowed := false;
               DynamicAllowed := true; Levels := [] |};
     cfgMaxCompletionTokens := cap |}.

(** The identifier [shared] is in the Claude and in the Gemini table; the
    configuration has an empty key and a [nil] entry. *)
Definition sampleData : StaticData :=
  {| GetClaudeModels :=
       [ Some (sampleModel "claude-x" "anthropic"); None;
         Some (sampleModel "shared" "anthropic") ];
     GetGeminiModels := [ Some (sampleModel "shared" "google") ];
     GetGeminiVertexModels := [];
     GetGeminiCLIModels := [];
     GetAIStudioModels := [];
     GetOpenAIModels := [];
     GetQwenModels := [ Some (sampleModel "qwen-y" "qwen") ];
     GetIFlowModels := [];
     GetAntigravityModelConfig :=
       {[ "Gemini-B" := Some (sampleEntry 100);
          "gemini-a" := Some (sampleEntry 200);
          "" := Some (sampleEntry 300);
          "ghost" := None ]} |}.

(** A configuration with two keys that differ by case only. *)
Definition collidingData : StaticData :=
  {| GetClaudeModels := [];
     GetGeminiModels := [];
     GetGeminiVertexModels := [];
     GetGeminiCLIModels := [];
     GetAIStudioModels := [];
     GetOpenAIModels := [];
     GetQwenModels := [];
     GetIFlowModels := [];
     GetAntigravityModelConfig :=
       {[ "A" := Some (sampleEntry 1); "a" := Some (sampleEntry 2) ]} |}.

(** Two orders in which a [range] may walk the sample configuration. *)
Definition sampleVisit : list (string * option AntigravityModelConfig) :=
  [ ("ghost", None); ("Gemini-B", Some (sampleEntry 100));
    ("", Some (sampleEntry 300)); ("gemini-a", Some (sampleEntry 200)) ].


(** The two orders in which a [range] may walk the colliding one. *)
Definition upperFirst : list (string * option AntigravityModelConfig) :=
  [ ("A", Some (sampleEntry 1)); ("a", Some (sampleEntry 2)) ].


End Registry.

(** ** The quota handlers of the management API *)
Module Quota.

(** *** The world outside: contexts, HTTP, the credential store *)

(** A [context.Context], by where it comes from: [context.Background()],
    the context of inbound request number [request]
    ([c.Request.Context()]), or [context.WithTimeout parent seconds]. *)
Inductive Context :=
| Background
| RequestContext (request : nat)
| WithTimeout (parent : Context) (seconds : Z).

#[global] Instance Context_eq_dec : EqDecision Context.
Proof. solve_decision. Defined.

(** Cancelling [root] cancels [ctx]: [ctx] is [root] or descends from it. *)
Fixpoint derivedFrom (root ctx : Context) : bool :=
  bool_decide (ctx = root) ||
  match ctx with
  | WithTimeout parent _ => derivedFrom root parent
  | _ => false
  end.

(** An outbound request as [http.Client.Do] receives it. [reqBody] is the
    value handed to [json.Marshal] (a map of strings, which always
    encodes); [reqTimeout] is the [Timeout] of the client, in seconds. *)
Record HttpRequest := {
  reqContext : Context;
  reqMethod : string;
  reqURL : string;
  reqHeaders : list (string * string);
  reqBody : option (gmap string string);
  reqTimeout : Z
}.

(** What reading the body of a response gives ([io.ReadAll]). *)
Inductive ReadResult :=
| ReadError (err : string)
| ReadOK (body : string).

(** What [client.Do] gives: a transport error or a response. *)
Inductive RoundTrip :=
| TransportError (err : string)
| Response (StatusCode : Z) (Body : ReadResult).

(** The network answers a request, possibly differently according to the
    requests made before it. *)
Definition Network : Type := list HttpRequest → HttpRequest → RoundTrip.

(** An [interface{}] value of the credential metadata; [VOther] stands
    for a slice, a map or any other dynamic type. *)
Inductive Value :=
| VNil
| VBool (b : bool)
| VNumber (f : float)
| VString (s : string)
| VOther.

(** The type assertion [v.(string)] on the result of indexing a map. *)
Definition assertString (v : option Value) : string * bool :=
  match v with
  | Some (VString s) => (s, true)
  | _ => ("", false)
  end.

(** A credential record: [Metadata] is a [map[string]any], possibly [nil]. *)
Record Auth := {
  AuthID : string;
  Metadata : option (gmap string Value)
}.

(** [auth.Metadata[key]]: indexing a [nil] map gives the zero value. *)
Definition metadataIndex (auth : Auth) (key : string) : option Value :=
  Metadata auth ≫= (λ m, m !! key).

(** The credential store, by its [GetByID] method. *)
Definition AuthManager : Type := string → option Auth * bool.

Record Handler := {
  authManager : option AuthManager;
  ProxyURL : string
}.

(** The inbound [*gin.Context]: the query parameters and the request. *)
Record GinContext := {
  queryParams : gmap string string;
  requestID : nat
}.

Definition Query (c : GinContext) (key : string) : string :=
  default "" (queryParams c !! key).

Inductive LogEntry :=
| Warnf (msg : string)
| Debugf (msg : string).

(** What a handler does besides answering: the identifiers it looked up in
    the store, the requests it sent, the lines it logged, in order. *)
Record Effects := {
  lookups : list string;
  calls : list HttpRequest;
  logs : list LogEntry
}.

Definition noEffects : Effects := {| lookups := []; calls := []; logs := [] |}.

(** A Go [error], by its message, or a value. *)
Inductive result (A : Type) :=
| Ok (a : A)
| Err (msg : string).
Arguments Ok {A} a.
Arguments Err {A} msg.

(** *** A small monad: the network is read, the effects are threaded *)

Definition IO (A : Type) : Type := Network → Effects → A * Effects.

Definition ret {A} (a : A) : IO A := λ _ e, (a, e).

Definition bind {A B} (m : IO A) (k : A → IO B) : IO B :=
  λ net e, let '(a, e') := m net e in k a net e'.

Notation "'do' x <- m ; k" := (bind m (λ x, k))
  (at level 10, x name, m at level 100, k at level 200).
Notation "'run' m ; k" := (bind m (λ _, k))
  (at level 10, m at level 100, k at level 200).

Definition exec {A} (net : Network) (m : IO A) : A * Effects := m net noEffects.

(** [client.Do(req)] followed by [io.ReadAll(resp.Body)]. *)
Definition roundTrip (req : HttpRequest) : IO RoundTrip :=
  λ net e, (net (calls e) req,
            {| lookups := lookups e; calls := calls e ++ [req]; logs := logs e |}).

Definition GetByID (mgr : AuthManager) (id : string) : IO (option Auth * bool) :=
  λ _ e, (mgr id,
          {| lookups := lookups e ++ [id]; calls := calls e; logs := logs e |}).

Definition log (entry : LogEntry) : IO unit :=
  λ _ e, (tt, {| lookups := lookups e; calls := calls e; logs := logs e ++ [entry] |}).

(** *** Wire formats *)

Record usageBreakdown := {
  CurrentUsageWithPrecision : float;
  UsageLimitWithPrecision : float
}.

(** [kiroUsageResult]; [SubscriptionTitle] is the one field of the nested
    [SubscriptionInfo]. *)
Record kiroUsageResult := {
  SubscriptionTitle : string;
  UsageBreakdownList : list usageBreakdown;
  NextDateReset : float
}.

Record kiroProfile := { ProfileArn : string }.

Record kiroProfilesResult := { Profiles : list kiroProfile }.

Record QuotaDetail := {
  Entitlement : float;
  OverageCount : float;
  OveragePermitted : bool;
  PercentRemaining : float;
  QuotaID : string;
  QuotaRemaining : float;
  Remaining : float;
  Unlimited : bool
}.

Record QuotaSnapshots := {
  Chat : QuotaDetail;
  Completions : QuotaDetail;
  PremiumInteractions : QuotaDetail
}.

Record CopilotUsageResponse := {
  AccessTypeSKU : string;
  AnalyticsTrackingID : string;
  AssignedDate : string;
  CanSignupForLimited : bool;
  ChatEnabled : bool;
  CopilotPlan : string;
  OrganizationLoginList : list Value;
  OrganizationList : list Value;
  QuotaResetDate : string;
  quotaSnapshots : QuotaSnapshots
}.

(** [json.Unmarshal] into each of the three result types, taken as given:
    the bytes either decode or give an error. *)
Record Codec := {
  unmarshalProfiles : string → result kiroProfilesResult;
  unmarshalUsage : string → result kiroUsageResult;
  unmarshalCopilot : string → result CopilotUsageResponse
}.

(** What [c.JSON(code, obj)] writes: a [gin.H] or [map[string]interface{}]
    of strings and numbers, or the Copilot structure as it was decoded. *)
Inductive JSONValue :=
| JString (s : string)
| JNumber (f : float).

Inductive JSONBody :=
| JMap (m : gmap string JSONValue)
| JCopilot (usage : CopilotUsageResponse).

Record HttpResponse := {
  code : Z;
  payload : JSONBody
}.

Definition JSON (status : Z) (obj : JSONBody) : HttpResponse :=
  {| code := status; payload := obj |}.

(** [gin.H{"error": msg}]. *)
Definition errorH (msg : string) : JSONBody := JMap {[ "error" := JString msg ]}.

Definition StatusOK : Z := 200.
Definition StatusBadRequest : Z := 400.
Definition StatusNotFound : Z := 404.
Definition StatusInternalServerError : Z := 500.

(** The verb [%d] of [fmt] on an [int]. *)
Definition fmt_d (n : Z) : string := pretty n.

(** *** The Kiro adapter *)

Definition awsKiroEndpoint : string :=
  "https://codewhisperer.us-east-1.amazonaws.com".
Definition targetGetUsage : string :=
  "AmazonCodeWhispererService.GetUsageLimits".
Definition targetListProfiles : string :=
  "AmazonCodeWhispererService.ListProfiles".

(** The request [makeKiroRequest] builds. *)
Definition kiroRequest (ctx : Context) (target accessToken : string)
    (payload : gmap string string) : HttpRequest :=
  {| reqContext := ctx;
     reqMethod := "POST";
     reqURL := awsKiroEndpoint;
     reqHeaders := [ ("Content-Type", "application/x-amz-json-1.0");
                     ("x-amz-target", target);
                     ("Authorization", "Bearer " +:+ accessToken);
                     ("Accept", "application/json") ];
     reqBody := Some payload;
     reqTimeout := 30 |}.

(** [makeKiroRequest]. Encoding a map of strings and building a request
    for the constant endpoint cannot fail, so the first two error returns
    are never taken; [proxyURL] is read by an empty [if] only. *)
Definition makeKiroRequest (ctx : Context)
    (proxyURL target accessToken : string) (payload : gmap string string)
    : IO (result string) :=
  do resp <- roundTrip (kiroRequest ctx target accessToken payload);
  match resp with
  | TransportError err => ret (Err ("request failed: " +:+ err))
  | Response _ (ReadError err) =>
      ret (Err ("failed to read response: " +:+ err))
  | Response StatusCode (ReadOK body) =>
      if decide (StatusCode ≠ StatusOK)
      then ret (Err ("API error (status " +:+ fmt_d StatusCode +:+ "): " +:+ body))
      else ret (Ok body)
  end.

(** [listProfiles]. *)
Definition listProfiles (codec : Codec) (ctx : Context)
    (proxyURL accessToken : string) : IO (result (list string)) :=
  let payload : gmap string string := ∅ in
  do r <- makeKiroRequest ctx proxyURL targetListProfiles accessToken payload;
  match r with
  | Err err => ret (Err err)
  | Ok body =>
      match unmarshalProfiles codec body with
      | Err err => ret (Err ("failed to parse profiles response: " +:+ err))
      | Ok result => ret (Ok (map ProfileArn (Profiles result)))
      end
  end.

(** The payload of [getUsageLimits], lines 190-196. *)
Definition usagePayload (profileArn : string) : gmap string string :=
  let payload : gmap string string :=
    {[ "origin" := "AI_EDITOR"; "resourceType" := "AGENTIC_REQUEST" ]} in
  if decide (profileArn ≠ "") then <[ "profileArn" := profileArn ]> payload
  else payload.

(** [getUsageLimits]. *)
Definition getUsageLimits (codec : Codec) (ctx : Context)
    (proxyURL accessToken profileArn : string) : IO (result kiroUsageResult) :=
  do r <- makeKiroRequest ctx proxyURL targetGetUsage accessToken
            (usagePayload profileArn);
  match r with
  | Err err => ret (Err err)
  | Ok body =>
      match unmarshalUsage codec body with
      | Err err => ret (Err ("failed to parse usage response: " +:+ err))
      | Ok result => ret (Ok result)
      end
  end.

(** Lines 80-89 of [GetKiroQuota]: the profile ARN the usage call gets. *)
Definition resolveProfileArn (codec : Codec) (ctx : Context)
    (proxyURL accessToken profileArn : string) : IO string :=
  if decide (profileArn = "") then
    do r <- listProfiles codec ctx proxyURL accessToken;
    match r with
    | Err err =>
        run log (Warnf ("kiro quota: failed to list profiles: " +:+ err));
        ret profileArn
    | Ok (arn :: _) =>
        run log (Debugf ("kiro quota: resolved profile ARN: " +:+ arn));
        ret arn
    | Ok [] => ret profileArn
    end
  else ret profileArn.

(** Lines 100-111: the response map. *)
Definition kiroResponse (usage : kiroUsageResult) : gmap string JSONValue :=
  let response : gmap string JSONValue :=
    {[ "subscription_title" := JString (SubscriptionTitle usage);
       "credit_usage" := JNumber 0%float;
       "context_usage_percent" := JNumber 0%float;
       "monthly_credit_limit" := JNumber 0%float;
       "monthly_context_limit" := JNumber 100%float ]} in
  match UsageBreakdownList usage with
  | first :: _ =>
      <[ "monthly_credit_limit" := JNumber (UsageLimitWithPrecision first) ]>
        (<[ "credit_usage" := JNumber (CurrentUsageWithPrecision first) ]>
           response)
  | [] => response
  end.

(** [GetKiroQuota] (the handler that talks to the CodeWhisperer endpoint
    itself). *)
Definition GetKiroQuota (codec : Codec) (h : Handler) (c : GinContext)
    : IO HttpResponse :=
  let authID := Query c "auth_id" in
  if decide (authID = "") then
    ret (JSON StatusBadRequest (errorH "auth_id is required"))
  else
  match authManager h with
  | None =>
      ret (JSON StatusInternalServerError (errorH "auth manager not available"))
  | Some mgr =>
  do found <- GetByID mgr authID;
  match found with
  | (Some auth, true) =>
      let accessToken := (assertString (metadataIndex auth "access_token")).1 in
      if decide (accessToken = "") then
        ret (JSON StatusBadRequest (errorH "access_token not found in auth data"))
      else
      let profileArn := (assertString (metadataIndex auth "profile_arn")).1 in
      let ctx := WithTimeout (RequestContext (requestID c)) 30 in
      do profileArn <- resolveProfileArn codec ctx (ProxyURL h) accessToken
                         profileArn;
      do r <- getUsageLimits codec ctx (ProxyURL h) accessToken profileArn;
      match r with
      | Err err =>
          ret (JSON StatusInternalServerError
                 (errorH ("failed to fetch usage: " +:+ err)))
      | Ok usage => ret (JSON StatusOK (JMap (kiroResponse usage)))
      end
  | _ => ret (JSON StatusNotFound (errorH "auth not found"))
  end
  end.

(** *** The Copilot adapter *)

Definition githubAPIBaseURL : string := "https://api.github.com".
Definition copilotUserEndpoint : string := "/copilot_internal/user".
Definition copilotUserAgent : string := "GitHubCopilotChat/0.26.7".
Definition copilotEditorVersion : string := "vscode/1.100.0".
Definition copilotPluginVersion : string := "copilot-chat/0.26.7".
Definition copilotAPIVersion : string := "2025-04-01".

(** The request [fetchCopilotUsage] builds: [http.NewRequest] gives it the
    background context. *)
Definition copilotRequest (token : string) : HttpRequest :=
  {| reqContext := Background;
     reqMethod := "GET";
     reqURL := githubAPIBaseURL +:+ copilotUserEndpoint;
     reqHeaders := [ ("Authorization", "token " +:+ token);
                     ("Accept", "application/json");
                     ("User-Agent", copilotUserAgent);
                     ("Editor-Version", copilotEditorVersion);
                     ("Editor-Plugin-Version", copilotPluginVersion);
                     ("X-GitHub-Api-Version", copilotAPIVersion) ];
     reqBody := None;
     reqTimeout := 30 |}.

(** [fetchCopilotUsage]. Building the request for the constant URL cannot
    fail. *)
Definition fetchCopilotUsage (codec : Codec) (token : string)
    : IO (result CopilotUsageResponse) :=
  do resp <- roundTrip (copilotRequest token);
  match resp with
  | TransportError err => ret (Err ("request failed: " +:+ err))
  | Response _ (ReadError err) =>
      ret (Err ("failed to read response: " +:+ err))
  | Response StatusCode (ReadOK body) =>
      if decide (StatusCode ≠ StatusOK)
      then ret (Err ("API returned status " +:+ fmt_d StatusCode +:+ ": " +:+ body))
      else
        match unmarshalCopilot codec body with
        | Err err => ret (Err ("failed to parse response: " +:+ err))
        | Ok usage => ret (Ok usage)
        end
  end.

(** [GetCopilotQuota]. *)
Definition GetCopilotQuota (codec : Codec) (h : Handler) (c : GinContext)
    : IO HttpResponse :=
  let authID := Query c "auth_id" in
  if decide (authID = "") then
    ret (JSON StatusBadRequest (errorH "auth_id is required"))
  else
  match authManager h with
  | None =>
      ret (JSON StatusInternalServerError (errorH "auth manager not available"))
  | Some mgr =>
  do found <- GetByID mgr authID;
  match found with
  | (Some auth, true) =>
      let token :=
        match Metadata auth with
        | Some m => (assertString (m !! "access_token")).1
        | None => ""
        end in
      if decide (token = "") then
        ret (JSON StatusBadRequest (errorH "no access token found in auth"))
      else
      do r <- fetchCopilotUsage codec token;
      match r with
      | Err err =>
          ret (JSON StatusInternalServerError
                 (errorH ("failed to fetch usage: " +:+ err)))
      | Ok usage => ret (JSON StatusOK (JCopilot usage))
      end
  | _ => ret (JSON StatusNotFound (errorH "auth not found"))
  end
  end.

(** *** Vocabulary of the statements *)

(** The effects after one more request, one more log line. *)
Definition addCall (req : HttpRequest) (e : Effects) : Effects :=
  {| lookups := lookups e; calls := calls e ++ [req]; logs := logs e |}.

Definition addLog (entry : LogEntry) (e : Effects) : Effects :=
  {| lookups := lookups e; calls := calls e; logs := logs e ++ [entry] |}.

(** The result of [makeKiroRequest] as a function of the network's answer. *)
Definition kiroOutcome (resp : RoundTrip) : result string :=
  match resp with
  | TransportError err => Err ("request failed: " +:+ err)
  | Response _ (ReadError err) => Err ("failed to read response: " +:+ err)
  | Response StatusCode (ReadOK body) =>
      if decide (StatusCode ≠ StatusOK)
      then Err ("API error (status " +:+ fmt_d StatusCode +:+ "): " +:+ body)
      else Ok body
  end.

Definition profilesOutcome (codec : Codec) (r : result string)
    : result (list string) :=
  match r with
  | Err err => Err err
  | Ok body =>
      match unmarshalProfiles codec body with
      | Err err => Err ("failed to parse profiles response: " +:+ err)
      | Ok result => Ok (map ProfileArn (Profiles result))
      end
  end.

Definition usageOutcome (codec : Codec) (r : result string)
    : result kiroUsageResult :=
  match r with
  | Err err => Err err
  | Ok body =>
      match unmarshalUsage codec body with
      | Err err => Err ("failed to parse usage response: " +:+ err)
      | Ok result => Ok result
      end
  end.

(** The effects of a handler that has asked the store about [id]. *)
Definition afterLookup (id : string) : Effects :=
  {| lookups := [id]; calls := []; logs := [] |}.

(** The token and the profile ARN that [GetKiroQuota] reads from a
    credential, lines 62-75. *)
Definition tokenOf (auth : Auth) : string :=
  (assertString (metadataIndex auth "access_token")).1.

Definition storedArn (auth : Auth) : string :=
  (assertString (metadataIndex auth "profile_arn")).1.

(** The context handed to both Kiro calls, line 77. *)
Definition kiroContext (c : GinContext) : Context :=
  WithTimeout (RequestContext (requestID c)) 30.

Definition listRequest (c : GinContext) (auth : Auth) : HttpRequest :=
  kiroRequest (kiroContext c) targetListProfiles (tokenOf auth) ∅.

Definition usageRequest (c : GinContext) (auth : Auth) (profileArn : string)
    : HttpRequest :=
  kiroRequest (kiroContext c) targetGetUsage (tokenOf auth)
    (usagePayload profileArn).

(** The answer of the handler once the usage call has returned. *)
Definition kiroAnswer (r : result kiroUsageResult) : HttpResponse :=
  match r with
  | Err err =>
      JSON StatusInternalServerError (errorH ("failed to fetch usage: " +:+ err))
  | Ok usage => JSON StatusOK (JMap (kiroResponse usage))
  end.

(** [usage] with every breakdown entry but the first dropped. *)
Definition onlyFirst (usage : kiroUsageResult) : kiroUsageResult :=
  {| SubscriptionTitle := SubscriptionTitle usage;
     UsageBreakdownList := take 1 (UsageBreakdownList usage);
     NextDateReset := NextDateReset usage |}.

(** [sub] occurs in [s]. *)
Definition contains (sub s : string) : Prop :=
  ∃ before after, s = before +:+ sub +:+ after.

(** *** A sample world, to run the handlers in *)

(** Two decoded usage results: one with two breakdown entries, one with
    none. *)
Definition proUsage : kiroUsageResult :=
  {| SubscriptionTitle := "KIRO PRO";
     UsageBreakdownList :=
       [ {| CurrentUsageWithPrecision := 12.5%float;
            UsageLimitWithPrecision := 50%float |};
         {| CurrentUsageWithPrecision := 7%float;
            UsageLimitWithPrecision := 9%float |} ];
     NextDateReset := 0%float |}.

Definition freeUsage : kiroUsageResult :=
  {| SubscriptionTitle := "KIRO FREE";
     UsageBreakdownList := [];
     NextDateReset := 0%float |}.

Definition zeroDetail (id : string) : QuotaDetail :=
  {| Entitlement := 0%float;
     OverageCount := 0%float;
     OveragePermitted := false;
     PercentRemaining := 100%float;
     QuotaID := id;
     QuotaRemaining := 0%float;
     Remaining := 0%float;
     Unlimited := true |}.

Definition individualUsage : CopilotUsageResponse :=
  {| AccessTypeSKU := "monthly_subscriber";
     AnalyticsTrackingID := "";
     AssignedDate := "";
     CanSignupForLimited := false;
     ChatEnabled := true;
     CopilotPlan := "individual";
     OrganizationLoginList := [];
     OrganizationList := [];
     QuotaResetDate := "2026-02-01";
     quotaSnapshots :=
       {| Chat := zeroDetail "chat";
          Completions := zeroDetail "completions";
          PremiumInteractions := zeroDetail "premium_interactions" |} |}.

(** A decoder that knows four bodies and rejects every other one. *)
Definition sampleCodec : Codec :=
  {| unmarshalProfiles := λ body,
       if decide (body = "profiles: arn-1, arn-2")
       then Ok {| Profiles := [ {| ProfileArn := "arn-1" |};
                                {| ProfileArn := "arn-2" |} ] |}
       else Err "invalid character";
     unmarshalUsage := λ body,
       if decide (body = "usage: 12.5 of 50.0, then 7.0 of 9.0")
       then Ok proUsage
       else if decide (body = "usage: no breakdown")
       then Ok freeUsage
       else Err "invalid character";
     unmarshalCopilot := λ body,
       if decide (body = "copilot: individual")
       then Ok individualUsage
       else Err "invalid character" |}.

(** The value of the header [key] of a request, if it is set. *)
Definition header (key : string) (req : HttpRequest) : string :=
  match list_find (λ kv, kv.1 = key) (reqHeaders req) with
  | Some (_, (_, value)) => value
  | None => ""
  end.

(** A network on which discovery, usage and the Copilot call succeed. *)
Definition sampleNet : Network := λ _ req,
  if decide (header "x-amz-target" req = targetListProfiles)
  then Response 200 (ReadOK "profiles: arn-1, arn-2")
  else if decide (header "x-amz-target" req = targetGetUsage)
  then Response 200 (ReadOK "usage: 12.5 of 50.0, then 7.0 of 9.0")
  else Response 200 (ReadOK "copilot: individual").

(** A network on which discovery meets a transport error and the usage
    call is answered without a breakdown. *)
Definition noDiscoveryNet : Network := λ _ req,
  if decide (header "x-amz-target" req = targetListProfiles)
  then TransportError "dial tcp: i/o timeout"
  else Response 200 (ReadOK "usage: no breakdown").

(** A network that turns every request down. *)
Definition rateLimitedNet : Network := λ _ _,
  Response 429 (ReadOK "rate limited").

(** Three credentials: [acct] has a token and an empty profile ARN,
    [full] has both, [bare] has no token. *)
Definition acctAuth : Auth :=
  {| AuthID := "acct";
     Metadata := Some {[ "access_token" := VString "abc";
                         "profile_arn" := VString "" ]} |}.

Definition fullAuth : Auth :=
  {| AuthID := "full";
     Metadata := Some {[ "access_token" := VString "abc";
                         "profile_arn" := VString "arn-0" ]} |}.

Definition bareAuth : Auth :=
  {| AuthID := "bare";
     Metadata := Some {[ "region" := VString "us-east-1" ]} |}.

Definition sampleStore : AuthManager := λ id,
  if decide (id = "acct") then (Some acctAuth, true)
  else if decide (id = "full") then (Some fullAuth, true)
  else if decide (id = "bare") then (Some bareAuth, true)
  else (None, false).

Definition sampleHandler : Handler :=
  {| authManager := Some sampleStore; ProxyURL := "" |}.

(** The inbound request number 7 with [auth_id] set to [id]. *)
Definition requestFor (id : string) : GinContext :=
  {| queryParams := {[ "auth_id" := id ]}; requestID := 7 |}.

Definition noQuery : GinContext := {| queryParams := ∅; requestID := 7 |}.

End Quota.

(** ** More sample worlds for the quota handlers *)
Module QuotaWorlds.
Import Quota.

(** A credential whose [access_token] is a number, and one whose
    [access_token] is the empty string. *)
Definition numericTokenAuth : Auth :=
  {| AuthID := "numeric";
     Metadata := Some {[ "access_token" := VNumber 42%float ]} |}.

Definition emptyTokenAuth : Auth :=
  {| AuthID := "empty";
     Metadata := Some {[ "access_token" := VString "" ]} |}.

Definition oddStore : AuthManager := λ id,
  if decide (id = "numeric") then (Some numericTokenAuth, true)
  else if decide (id = "empty") then (Some emptyTokenAuth, true)
  else if decide (id = "acct") then (Some acctAuth, true)
  else (None, false).

Definition oddHandler : Handler :=
  {| authManager := Some oddStore; ProxyURL := "" |}.

(** A handler that was given no auth manager. *)
Definition noManagerHandler : Handler :=
  {| authManager := None; ProxyURL := "" |}.

(** A decoder for which the one body [profiles: none] is a profile list
    without profiles. *)
Definition noProfilesCodec : Codec :=
  {| unmarshalProfiles := λ body,
       if decide (body = "profiles: none") then Ok {| Profiles := [] |}
       else Err "invalid character";
     unmarshalUsage := unmarshalUsage sampleCodec;
     unmarshalCopilot := unmarshalCopilot sampleCodec |}.

(** A network on which discovery returns no profile and the usage call
    succeeds. *)
Definition noProfilesNet : Network := λ _ req,
  if decide (header "x-amz-target" req = targetListProfiles)
  then Response 200 (ReadOK "profiles: none")
  else Response 200 (ReadOK "usage: no breakdown").

(** A network that answers every request with 200 and a body that is not
    JSON. *)
Definition garbageNet : Network := λ _ _, Response 200 (ReadOK "<html>").

(** A network whose connections fail. *)
Definition downNet : Network := λ _ _, TransportError "connection refused".

End QuotaWorlds.

(** ** The tables of [model_definitions.go]

    The three tables the file itself holds, entry by entry. A field that a
    literal leaves out has its zero value; [now] is the constant of the
    function. *)
Module Tables.
Import Registry.

(** [GetGitHubCopilotModels], 36 entries. *)
Definition GetGitHubCopilotModels : list (option ModelInfo) :=
  [
    Some {| ID := "claude-haiku-4.5";
            Object := "model";
            Created := 1768908139;
            OwnedBy := "github-copilot";
            Type_ := "github-copilot";
            DisplayName := "Claude Haiku 4.5";
            Description := "Claude Haiku 4.5 via GitHub Copilot";
            ContextLength := 144000;
            MaxCompletionTokens := 16000;
            SupportedEndpoints := ["/chat/completions"];
            Thinking := Some {| Min := 1024; Max := 32000; ZeroAllowed := false;
                     DynamicAllowed := false; Levels := [] |} |};
    Some {| ID := "claude-opus-4.5";
            Object := "model";
            Created := 1768908139;
            OwnedBy := "github-copilot";
            Type_ := "github-copilot";
            DisplayName := "Claude Opus 4.5";
            Description := "Claude Opus 4.5 via GitHub Copilot";
            ContextLength := 160000;
            MaxCompletionTokens := 16000;
            SupportedEndpoints := ["/chat/completions"];
            Thinking := Some {| Min := 1024; Max := 32000; ZeroAllowed := false;
                     DynamicAllowed := false; Levels := [] |} |};
    Some {| ID := "claude-sonnet-4";
            Object := "model";
            Created := 1768908139;
            OwnedBy := "github-copilot";
            Type_ := "github-copilot";
            DisplayName := "Claude Sonnet 4";
            Description := "Claude Sonnet 4 via GitHub Copilot";
            ContextLength := 216000;
            MaxCompletionTokens := 16000;
            SupportedEndpoints := ["/chat/completions"];
            Thinking := Some {| Min := 1024; Max := 32000; ZeroAllowed := false;
                     DynamicAllowed := false; Levels := [] |} |};
    Some {| ID := "claude-sonnet-4.5";
            Object := "model";
            Created := 1768908139;
            OwnedBy := "github-copilot";
            Type_ := "github-copilot";
            DisplayName := "Claude Sonnet 4.5";
            Description := "Claude Sonnet 4.5 via GitHub Copilot";
            ContextLength := 144000;
            MaxCompletionTokens := 16000;
            SupportedEndpoints := ["/chat/completions"];
            Thinking := Some {| Min := 1024; Max := 32000; ZeroAllowed := false;
                     DynamicAllowed := false; Levels := [] |} |};
    Some {| ID := "gemini-2.5-pro";
            Object := "model";
            Created := 1768908139;
            OwnedBy := "github-copilot";
            Type_ := "github-copilot";
            DisplayName := "Gemini 2.5 Pro";
            Description := "Gemini 2.5 Pro via GitHub Copilot";
            ContextLength := 128000;
            MaxCompletionTokens := 64000;
            SupportedEndpoints := ["/chat/completions"];
            Thinking := Some {| Min := 128; Max := 32768; ZeroAllowed := false;
                     DynamicAllowed := false; Levels := [] |} |};
    Some {| ID := "gemini-3-flash-preview";
            Object := "model";
            Created := 1768908139;
            OwnedBy := "github-copilot";
            Type_ := "github-copilot";
            DisplayName := "Gemini 3 Flash (Preview)";
            Description := "Gemini 3 Flash (Preview) via GitHub Copilot";
            ContextLength := 128000;
            MaxCompletionTokens := 64000;
            SupportedEndpoints := ["/chat/completions"];
            Thinking := Some {| Min := 256; Max := 32000; ZeroAllowed := false;
                     DynamicAllowed := false; Levels := [] |} |};
    Some {| ID := "gemini-3-pro-preview";
            Object := "model";
            Created := 1768908139;
            OwnedBy := "github-copilot";
            Type_ := "github-copilot";
            DisplayName := "Gemini 3 Pro (Preview)";
            Description := "Gemini 3 Pro (Preview) via GitHub Copilot";
            ContextLength := 128000;
            MaxCompletionTokens := 64000;
            SupportedEndpoints := ["/chat/completions"];
            Thinking := Some {| Min := 258; Max := 32000; ZeroAllowed := false;
                     DynamicAllowed := false; Levels := [] |} |};
    Some {| ID := "gpt-3.5-turbo";
            Object := "model";
            Created := 1768908139;
            OwnedBy := "github-copilot";
            Type_ := "github-copilot";
            DisplayName := "GPT 3.5 Turbo";
            Description := "GPT 3.5 Turbo via GitHub Copilot";
            ContextLength := 16384;
            MaxCompletionTokens := 4096;
            SupportedEndpoints := ["/chat/completions"];
            Thinking := Some {| Min := 0; Max := 0; ZeroAllowed := false;
                     DynamicAllowed := false; Levels := ["minimal"; "low"; "medium"; "high"] |} |};
    Some {| ID := "gpt-3.5-turbo-0613";
            Object := "model";
            Created := 1768908139;
            OwnedBy := "github-copilot";
            Type_ := "github-copilot";
            DisplayName := "GPT 3.5 Turbo";
            Description := "GPT 3.5 Turbo via GitHub Copilot";
            ContextLength := 16384;
            MaxCompletionTokens := 4096;
            SupportedEndpoints := ["/chat/completions"];
            Thinking := Some {| Min := 0; Max := 0; ZeroAllowed := false;
                     DynamicAllowed := false; Levels := ["minimal"; "low"; "medium"; "high"] |} |};
    Some {| ID := "gpt-4";
            Object := "model";
            Created := 1768908139;
            OwnedBy := "github-copilot";
            Type_ := "github-copilot";
            DisplayName := "GPT 4";
            Description := "GPT 4 via GitHub Copilot";
            ContextLength := 32768;
            MaxCompletionTokens := 4096;
            SupportedEndpoints := ["/chat/completions"];
            Thinking := Some {| Min := 0; Max := 0; ZeroAllowed := false;
                     DynamicAllowed := false; Levels := ["minimal"; "low"; "medium"; "high"] |} |};
    Some {| ID := "gpt-4";
            Object := "model";
            Created := 1768908139;
            OwnedBy := "github-copilot";
            Type_ := "github-copilot";
            DisplayName := "GPT 4";
            Description := "GPT 4 via GitHub Copilot";
            ContextLength := 32768;
            MaxCompletionTokens := 4096;
            SupportedEndpoints := ["/chat/completions"];
            Thinking := Some {| Min := 0; Max := 0; ZeroAllowed := false;
                     DynamicAllowed := false; Levels := ["minimal"; "low"; "medium"; "high"] |} |};
    Some {| ID := "gpt-4-0125-preview";
            Object := "model";
            Created := 1768908139;
            OwnedBy := "github-copilot";
            Type_ := "github-copilot";
            DisplayName := "GPT 4 Turbo";
            Description := "GPT 4 Turbo via GitHub Copilot";
            ContextLength := 128000;
            MaxCompletionTokens := 4096;
            SupportedEndpoints := ["/chat/completions"];
            Thinking := Some {| Min := 0; Max := 0; ZeroAllowed := false;
                     DynamicAllowed := false; Levels := ["minimal"; "low"; "medium"; "high"] |} |};
    Some {| ID := "gpt-4-0613";
            Object := "model";
            Created := 1768908139;
            OwnedBy := "github-copilot";
            Type_ := "github-copilot";
            DisplayName := "GPT 4";
            Description := "GPT 4 via GitHub Copilot";
            ContextLength := 32768;
            MaxCompletionTokens := 4096;
            SupportedEndpoints := ["/chat/completions"];
            Thinking := Some {| Min := 0; Max := 0; ZeroAllowed := false;
                     DynamicAllowed := false; Levels := ["minimal"; "low"; "medium"; "high"] |} |};
    Some {| ID := "gpt-4-o-preview";
            Object := "model";
            Created := 1768908139;
            OwnedBy := "github-copilot";
            Type_ := "github-copilot";
            DisplayName := "GPT-4o";
            Description := "GPT-4o via GitHub Copilot";
            ContextLength := 128000;
            MaxCompletionTokens := 4096;
            SupportedEndpoints := ["/chat/completions"];
            Thinking := Some {| Min := 0; Max := 0; ZeroAllowed := false;
                     DynamicAllowed := false; Levels := ["minimal"; "low"; "medium"; "high"] |} |};
    Some {| ID := "gpt-4-o-preview";
            Object := "model";
            Created := 1768908139;
            OwnedBy := "github-copilot";
            Type_ := "github-copilot";
            DisplayName := "GPT-4o";
            Description := "GPT-4o via GitHub Copilot";
            ContextLength := 128000;
            MaxCompletionTokens := 4096;
            SupportedEndpoints := ["/chat/completions"];
            Thinking := Some {| Min := 0; Max := 0; ZeroAllowed := false;
                     DynamicAllowed := false; Levels := ["minimal"; "low"; "medium"; "high"] |} |};
    Some {| ID := "gpt-4.1";
            Object := "model";
            Created := 1768908139;
            OwnedBy := "github-copilot";
            Type_ := "github-copilot";
            DisplayName := "GPT-4.1";
            Description := "GPT-4.1 via GitHub Copilot";
            ContextLength := 128000;
            MaxCompletionTokens := 16384;
            SupportedEndpoints := ["/chat/completions"];
            Thinking := Some {| Min := 0; Max := 0; ZeroAllowed := false;
                     DynamicAllowed := false; Levels := ["minimal"; "low"; "medium"; "high"] |} |};
    Some {| ID := "gpt-4.1-2025-04-14";
            Object := "model";
            Created := 1768908139;
            OwnedBy := "github-copilot";
            Type_ := "github-copilot";
            DisplayName := "GPT-4.1";
            Description := "GPT-4.1 via GitHub Copilot";
            ContextLength := 128000;
            MaxCompletionTokens := 16384;
            SupportedEndpoints := ["/chat/completions"];
            Thinking := Some {| Min := 0; Max := 0; ZeroAllowed := false;
                     DynamicAllowed := false; Levels := ["minimal"; "low"; "medium"; "high"] |} |};
    Some {| ID := "gpt-4o";
            Object := "model";
            Created := 1768908139;
            OwnedBy := "github-copilot";
            Type_ := "github-copilot";
            DisplayName := "GPT-4o";
            Description := "GPT-4o via GitHub Copilot";
            ContextLength := 128000;
            MaxCompletionTokens := 4096;
            SupportedEndpoints := ["/chat/completions"];
            Thinking := Some {| Min := 0; Max := 0; ZeroAllowed := false;
                     DynamicAllowed := false; Levels := ["minimal"; "low"; "medium"; "high"] |} |};
    Some {| ID := "gpt-4o-2024-05-13";
            Object := "model";
            Created := 1768908139;
            OwnedBy := "github-copilot";
            Type_ := "github-copilot";
            DisplayName := "GPT-4o";
            Description := "GPT-4o via GitHub Copilot";
            ContextLength := 128000;
            MaxCompletionTokens := 4096;
            SupportedEndpoints := ["/chat/completions"];
            Thinking := Some {| Min := 0; Max := 0; ZeroAllowed := false;
                     DynamicAllowed := false; Levels := ["minimal"; "low"; "medium"; "high"] |} |};
    Some {| ID := "gpt-4o-2024-08-06";
            Object := "model";
            Created := 1768908139;
            OwnedBy := "github-copilot";
            Type_ := "github-copilot";
            DisplayName := "GPT-4o";
            Description := "GPT-4o via GitHub Copilot";
            ContextLength := 128000;
            MaxCompletionTokens := 16384;
            SupportedEndpoints := ["/chat/completions"];
            Thinking := Some {| Min := 0; Max := 0; ZeroAllowed := false;
                     DynamicAllowed := false; Levels := ["minimal"; "low"; "medium"; "high"] |} |};
    Some {| ID := "gpt-4o-2024-11-20";
            Object := "model";
            Created := 1768908139;
            OwnedBy := "github-copilot";
            Type_ := "github-copilot";
            DisplayName := "GPT-4o";
            Description := "GPT-4o via GitHub Copilot";
            ContextLength := 128000;
            MaxCompletionTokens := 16384;
            SupportedEndpoints := ["/chat/completions"];
            Thinking := Some {| Min := 0; Max := 0; ZeroAllowed := false;
                     DynamicAllowed := false; Levels := ["minimal"; "low"; "medium"; "high"] |} |};
    Some {| ID := "gpt-4o-mini";
            Object := "model";
            Created := 1768908139;
            OwnedBy := "github-copilot";
            Type_ := "github-copilot";
            DisplayName := "GPT-4o mini";
            Description := "GPT-4o mini via GitHub Copilot";
            ContextLength := 128000;
            MaxCompletionTokens := 4096;
            SupportedEndpoints := ["/chat/completions"];
            Thinking := Some {| Min := 0; Max := 0; ZeroAllowed := false;
                     DynamicAllowed := false; Levels := ["minimal"; "low"; "medium"; "high"] |} |};
    Some {| ID := "gpt-4o-mini-2024-07-18";
            Object := "model";
            Created := 1768908139;
            OwnedBy := "github-copilot";
            Type_ := "github-copilot";
            DisplayName := "GPT-4o mini";
            Description := "GPT-4o mini via GitHub Copilot";
            ContextLength := 128000;
            MaxCompletionTokens := 4096;
            SupportedEndpoints := ["/chat/completions"];
            Thinking := Some {| Min := 0; Max := 0; ZeroAllowed := false;
                     DynamicAllowed := false; Levels := ["minimal"; "low"; "medium"; "high"] |} |};
    Some {| ID := "gpt-5";
            Object := "model";
            Created := 1768908139;
            OwnedBy := "github-copilot";
            Type_ := "github-copilot";
            DisplayName := "GPT-5";
            Description := "GPT-5 via GitHub Copilot";
            ContextLength := 400000;
            MaxCompletionTokens := 128000;
            SupportedEndpoints := ["/chat/completions"; "/responses"];
            Thinking := Some {| Min := 0; Max := 0; ZeroAllowed := false;
                     DynamicAllowed := false; Levels := ["minimal"; "low"; "medium"; "high"] |} |};
    Some {| ID := "gpt-5-codex";
            Object := "model";
            Created := 1768908139;
            OwnedBy := "github-copilot";
            Type_ := "github-copilot";
            DisplayName := "GPT-5-Codex (Preview)";
            Description := "GPT-5-Codex (Preview) via GitHub Copilot";
            ContextLength := 400000;
            MaxCompletionTokens := 128000;
            SupportedEndpoints := ["/responses"];
            Thinking := Some {| Min := 0; Max := 0; ZeroAllowed := false;
                     DynamicAllowed := false; Levels := ["minimal"; "low"; "medium"; "high"] |} |};
    Some {| ID := "gpt-5-mini";
            Object := "model";
            Created := 1768908139;
            OwnedBy := "github-copilot";
            Type_ := "github-copilot";
            DisplayName := "GPT-5 mini";
            Description := "GPT-5 mini via GitHub Copilot";
            ContextLength := 264000;
            MaxCompletionTokens := 64000;
            SupportedEndpoints := ["/chat/completions"];
            Thinking := Some {| Min := 0; Max := 0; ZeroAllowed := false;
                     DynamicAllowed := false; Levels := ["minimal"; "low"; "medium"; "high"] |} |};
    Some {| ID := "gpt-5.1";
            Object := "model";
            Created := 1768908139;
            OwnedBy := "github-copilot";
            Type_ := "github-copilot";
            DisplayName := "GPT-5.1";
            Description := "GPT-5.1 via GitHub Copilot";
            ContextLength := 264000;
            MaxCompletionTokens := 64000;
            SupportedEndpoints := ["/chat/completions"; "/responses"];
            Thinking := Some {| Min := 0; Max := 0; ZeroAllowed := false;
                     DynamicAllowed := false; Levels := ["minimal"; "low"; "medium"; "high"] |} |};
    Some {| ID := "gpt-5.1-codex";
            Object := "model";
            Created := 1768908139;
            OwnedBy := "github-copilot";
            Type_ := "github-copilot";
            DisplayName := "GPT-5.1-Codex";
            Description := "GPT-5.1-Codex via GitHub Copilot";
            ContextLength := 400000;
            MaxCompletionTokens := 128000;
            SupportedEndpoints := ["/responses"];
            Thinking := Some {| Min := 0; Max := 0; ZeroAllowed := false;
                     DynamicAllowed := false; Levels := ["minimal"; "low"; "medium"; "high"] |} |};
    Some {| ID := "gpt-5.1-codex-max";
            Object := "model";
            Created := 1768908139;
            OwnedBy := "github-copilot";
            Type_ := "github-copilot";
            DisplayName := "GPT-5.1-Codex-Max";
            Description := "GPT-5.1-Codex-Max via GitHub Copilot";
            ContextLength := 400000;
            MaxCompletionTokens := 128000;
            SupportedEndpoints := ["/responses"];
            Thinking := Some {| Min := 0; Max := 0; ZeroAllowed := false;
                     DynamicAllowed := false; Levels := ["minimal"; "low"; "medium"; "high"] |} |};
    Some {| ID := "gpt-5.1-codex-mini";
            Object := "model";
            Created := 1768908139;
            OwnedBy := "github-copilot";
            Type_ := "github-copilot";
            DisplayName := "GPT-5.1-Codex-Mini";
            Description := "GPT-5.1-Codex-Mini via GitHub Copilot";
            ContextLength := 400000;
            MaxCompletionTokens := 128000;
            SupportedEndpoints := ["/responses"];
            Thinking := Some {| Min := 0; Max := 0; ZeroAllowed := false;
                     DynamicAllowed := false; Levels := ["minimal"; "low"; "medium"; "high"] |} |};
    Some {| ID := "gpt-5.2";
            Object := "model";
            Created := 1768908139;
            OwnedBy := "github-copilot";
            Type_ := "github-copilot";
            DisplayName := "GPT-5.2";
            Description := "GPT-5.2 via GitHub Copilot";
            ContextLength := 264000;
            MaxCompletionTokens := 64000;
            SupportedEndpoints := ["/chat/completions"; "/responses"];
            Thinking := Some {| Min := 0; Max := 0; ZeroAllowed := false;
                     DynamicAllowed := false; Levels := ["minimal"; "low"; "medium"; "high"] |} |};
    Some {| ID := "gpt-5.2-codex";
            Object := "model";
            Created := 1768908139;
            OwnedBy := "github-copilot";
            Type_ := "github-copilot";
            DisplayName := "GPT-5.2-Codex";
            Description := "GPT-5.2-Codex via GitHub Copilot";
            ContextLength := 400000;
            MaxCompletionTokens := 128000;
            SupportedEndpoints := ["/responses"];
            Thinking := Some {| Min := 0; Max := 0; ZeroAllowed := false;
                     DynamicAllowed := false; Levels := ["minimal"; "low"; "medium"; "high"] |} |};
    Some {| ID := "grok-code-fast-1";
            Object := "model";
            Created := 1768908139;
            OwnedBy := "github-copilot";
            Type_ := "github-copilot";
            DisplayName := "Grok Code Fast 1";
            Description := "Grok Code Fast 1 via GitHub Copilot";
            ContextLength := 128000;
            MaxCompletionTokens := 64000;
            SupportedEndpoints := ["/chat/completions"];
            Thinking := None |};
    Some {| ID := "text-embedding-3-small";
            Object := "model";
            Created := 1768908139;
            OwnedBy := "github-copilot";
            Type_ := "github-copilot";
            DisplayName := "Embedding V3 small";
            Description := "Embedding V3 small via GitHub Copilot";
            ContextLength := 128000;
            MaxCompletionTokens := 16384;
            SupportedEndpoints := [];
            Thinking := None |};
    Some {| ID := "text-embedding-3-small-inference";
            Object := "model";
            Created := 1768908139;
            OwnedBy := "github-copilot";
            Type_ := "github-copilot";
            DisplayName := "Embedding V3 small (Inference)";
            Description := "Embedding V3 small (Inference) via GitHub Copilot";
            ContextLength := 128000;
            MaxCompletionTokens := 16384;
            SupportedEndpoints := [];
            Thinking := None |};
    Some {| ID := "text-embedding-ada-002";
            Object := "model";
            Created := 1768908139;
            OwnedBy := "github-copilot";
            Type_ := "github-copilot";
            DisplayName := "Embedding V2 Ada";
            Description := "Embedding V2 Ada via GitHub Copilot";
            ContextLength := 128000;
            MaxCompletionTokens := 16384;
            SupportedEndpoints := [];
            Thinking := None |}
  ].

(** [GetKiroModels], 9 entries. *)
Definition GetKiroModels : list (option ModelInfo) :=
  [
    Some {| ID := "kiro-auto";
            Object := "model";
            Created := 1732752000;
            OwnedBy := "aws";
            Type_ := "kiro";
            DisplayName := "Kiro Auto";
            Description := "Automatic model selection by Kiro";
            ContextLength := 200000;
            MaxCompletionTokens := 64000;
            SupportedEndpoints := [];
            Thinking := Some {| Min := 1024; Max := 32000; ZeroAllowed := true;
                     DynamicAllowed := true; Levels := [] |} |};
    Some {| ID := "kiro-claude-opus-4-5";
            Object := "model";
            Created := 1732752000;
            OwnedBy := "aws";
            Type_ := "kiro";
            DisplayName := "Kiro Claude Opus 4.5";
            Description := "Claude Opus 4.5 via Kiro (2.2x credit)";
            ContextLength := 200000;
            MaxCompletionTokens := 64000;
            SupportedEndpoints := [];
            Thinking := Some {| Min := 1024; Max := 32000; ZeroAllowed := true;
                     DynamicAllowed := true; Levels := [] |} |};
    Some {| ID := "kiro-claude-sonnet-4-5";
            Object := "model";
            Created := 1732752000;
            OwnedBy := "aws";
            Type_ := "kiro";
            DisplayName := "Kiro Claude Sonnet 4.5";
            Description := "Claude Sonnet 4.5 via Kiro (1.3x credit)";
            ContextLength := 200000;
            MaxCompletionTokens := 64000;
            SupportedEndpoints := [];
            Thinking := Some {| Min := 1024; Max := 32000; ZeroAllowed := true;
                     DynamicAllowed := true; Levels := [] |} |};
    Some {| ID := "kiro-claude-sonnet-4";
            Object := "model";
            Created := 1732752000;
            OwnedBy := "aws";
            Type_ := "kiro";
            DisplayName := "Kiro Claude Sonnet 4";
            Description := "Claude Sonnet 4 via Kiro (1.3x credit)";
            ContextLength := 200000;
            MaxCompletionTokens := 64000;
            SupportedEndpoints := [];
            Thinking := Some {| Min := 1024; Max := 32000; ZeroAllowed := true;
                     DynamicAllowed := true; Levels := [] |} |};
    Some {| ID := "kiro-claude-haiku-4-5";
            Object := "model";
            Created := 1732752000;
            OwnedBy := "aws";
            Type_ := "kiro";
            DisplayName := "Kiro Claude Haiku 4.5";
            Description := "Claude Haiku 4.5 via Kiro (0.4x credit)";
            ContextLength := 200000;
            MaxCompletionTokens := 64000;
            SupportedEndpoints := [];
            Thinking := Some {| Min := 1024; Max := 32000; ZeroAllowed := true;
                     DynamicAllowed := true; Levels := [] |} |};
    Some {| ID := "kiro-claude-opus-4-5-agentic";
            Object := "model";
            Created := 1732752000;
            OwnedBy := "aws";
            Type_ := "kiro";
            DisplayName := "Kiro Claude Opus 4.5 (Agentic)";
            Description := "Claude Opus 4.5 optimized for coding agents (chunked writes)";
            ContextLength := 200000;
            MaxCompletionTokens := 64000;
            SupportedEndpoints := [];
            Thinking := Some {| Min := 1024; Max := 32000; ZeroAllowed := true;
                     DynamicAllowed := true; Levels := [] |} |};
    Some {| ID := "kiro-claude-sonnet-4-5-agentic";
            Object := "model";
            Created := 1732752000;
            OwnedBy := "aws";
            Type_ := "kiro";
            DisplayName := "Kiro Claude Sonnet 4.5 (Agentic)";
            Description := "Claude Sonnet 4.5 optimized for coding agents (chunked writes)";
            ContextLength := 200000;
            MaxCompletionTokens := 64000;
            SupportedEndpoints := [];
            Thinking := Some {| Min := 1024; Max := 32000; ZeroAllowed := true;
                     DynamicAllowed := true; Levels := [] |} |};
    Some {| ID := "kiro-claude-sonnet-4-agentic";
            Object := "model";
            Created := 1732752000;
            OwnedBy := "aws";
            Type_ := "kiro";
            DisplayName := "Kiro Claude Sonnet 4 (Agentic)";
            Description := "Claude Sonnet 4 optimized for coding agents (chunked writes)";
            ContextLength := 200000;
            MaxCompletionTokens := 64000;
            SupportedEndpoints := [];
            Thinking := Some {| Min := 1024; Max := 32000; ZeroAllowed := true;
                     DynamicAllowed := true; Levels := [] |} |};
    Some {| ID := "kiro-claude-haiku-4-5-agentic";
            Object := "model";
            Created := 1732752000;
            OwnedBy := "aws";
            Type_ := "kiro";
            DisplayName := "Kiro Claude Haiku 4.5 (Agentic)";
            Description := "Claude Haiku 4.5 optimized for coding agents (chunked writes)";
            ContextLength := 200000;
            MaxCompletionTokens := 64000;
            SupportedEndpoints := [];
            Thinking := Some {| Min := 1024; Max := 32000; ZeroAllowed := true;
                     DynamicAllowed := true; Levels := [] |} |}
  ].

(** [GetAmazonQModels], 5 entries. *)
Definition GetAmazonQModels : list (option ModelInfo) :=
  [
    Some {| ID := "amazonq-auto";
            Object := "model";
            Created := 1732752000;
            OwnedBy := "aws";
            Type_ := "kiro";
            DisplayName := "Amazon Q Auto";
            Description := "Automatic model selection by Amazon Q";
            ContextLength := 200000;
            MaxCompletionTokens := 64000;
            SupportedEndpoints := [];
            Thinking := None |};
    Some {| ID := "amazonq-claude-opus-4.5";
            Object := "model";
            Created := 1732752000;
            OwnedBy := "aws";
            Type_ := "kiro";
            DisplayName := "Amazon Q Claude Opus 4.5";
            Description := "Claude Opus 4.5 via Amazon Q (2.2x credit)";
            ContextLength := 200000;
            MaxCompletionTokens := 64000;
            SupportedEndpoints := [];
            Thinking := None |};
    Some {| ID := "amazonq-claude-sonnet-4.5";
            Object := "model";
            Created := 1732752000;
            OwnedBy := "aws";
            Type_ := "kiro";
            DisplayName := "Amazon Q Claude Sonnet 4.5";
            Description := "Claude Sonnet 4.5 via Amazon Q (1.3x credit)";
            ContextLength := 200000;
            MaxCompletionTokens := 64000;
            SupportedEndpoints := [];
            Thinking := None |};
    Some {| ID := "amazonq-claude-sonnet-4";
            Object := "model";
            Created := 1732752000;
            OwnedBy := "aws";
            Type_ := "kiro";
            DisplayName := "Amazon Q Claude Sonnet 4";
            Description := "Claude Sonnet 4 via Amazon Q (1.3x credit)";
            ContextLength := 200000;
            MaxCompletionTokens := 64000;
            SupportedEndpoints := [];
            Thinking := None |};
    Some {| ID := "amazonq-claude-haiku-4.5";
            Object := "model";
            Created := 1732752000;
            OwnedBy := "aws";
            Type_ := "kiro";
            DisplayName := "Amazon Q Claude Haiku 4.5";
            Description := "Claude Haiku 4.5 via Amazon Q (0.4x credit)";
            ContextLength := 200000;
            MaxCompletionTokens := 64000;
            SupportedEndpoints := [];
            Thinking := None |}
  ].

(** *** Vocabulary of the statements *)

#[global] Instance ThinkingSupport_eq_dec : EqDecision ThinkingSupport.
Proof. solve_decision. Defined.

#[global] Instance ModelInfo_eq_dec : EqDecision ModelInfo.
Proof. solve_decision. Defined.

(** The identifiers of a table, in its order. *)
Definition ids (table : list (option ModelInfo)) : list string :=
  idOf <$> table.

(** A thinking support has one shape: a range of budgets and no levels,
    or levels and nothing else. *)
Definition oneShape (ts : ThinkingSupport) : bool :=
  match Levels ts with
  | [] => bool_decide (0 < Min ts < Max ts)%Z
  | _ :: _ =>
      bool_decide (Min ts = 0 ∧ Max ts = 0)%Z &&
      negb (ZeroAllowed ts) && negb (DynamicAllowed ts)
  end.

(** An entry is there, is named, is a [model], can complete with a
    positive number of tokens within its context window, and has at most
    one shape of thinking support. *)
Definition wellFormed (entry : option ModelInfo) : bool :=
  match entry with
  | None => false
  | Some m =>
      negb (String.eqb (ID m) "") && String.eqb (Object m) "model" &&
      bool_decide (0 < MaxCompletionTokens m ≤ ContextLength m)%Z &&
      from_option oneShape true (Thinking m)
  end.

End Tables.

(** ** More of Go's [strings] package, for the command-line tools

    These work on bytes in the library as well. *)
Module GoStringsMore.

(** [strings.HasPrefix]:
    [len(s) >= len(prefix) && s[:len(prefix)] == prefix]. *)
Definition HasPrefix (s prefix : string) : bool :=
  (String.length prefix <=? String.length s)%nat &&
  String.eqb (substring 0 (String.length prefix) s) prefix.

(** [strings.HasSuffix]:
    [len(s) >= len(suffix) && s[len(s)-len(suffix):] == suffix]. *)
Definition HasSuffix (s suffix : string) : bool :=
  (String.length suffix <=? String.length s)%nat &&
  String.eqb (substring (String.length s - String.length suffix)
                (String.length suffix) s) suffix.

(** [strings.Index]: where [substr] first occurs in [s]; [None] is -1. *)
Fixpoint Index (s substr : string) : option nat :=
  if HasPrefix s substr then Some 0%nat
  else match s with
       | EmptyString => None
       | String _ s' => S <$> Index s' substr
       end.

(** [strings.Contains]. *)
Definition Contains (s substr : string) : bool :=
  bool_decide (is_Some (Index s substr)).

End GoStringsMore.

(** ** The command-line tools: finding a token file, exchanging the
    token, fetching the model list *)
Module Tools.
Import GoStrings GoStringsMore Quota.

(** What [os.ReadDir] tells about an entry. *)
Record DirEntry := {
  Name : string;
  IsDir : bool
}.

(** The operating system as the tools use it. [Join] is [filepath.Join];
    [WriteFile] gives the error, if any. *)
Record OS := {
  ReadDir : string → result (list DirEntry);
  ReadFile : string → result string;
  WriteFile : string → string → option string;
  Join : string → string → string
}.

(** [AuthFile] of the model updater. *)
Record AuthFile := {
  Type_ : string;
  AccessToken : string;
  Username : string
}.

(** The loop of [findCopilotAuthToken], lines 241-265. [decode] is
    [json.Unmarshal] into an [AuthFile]. *)
Fixpoint scanAuthFiles (os : OS) (decode : string → result AuthFile)
    (authDir : string) (entries : list DirEntry) : option (string * string) :=
  match entries with
  | [] => None
  | e :: rest =>
      if IsDir e then scanAuthFiles os decode authDir rest
      else if negb (HasSuffix (ToLower (Name e)) ".json")
      then scanAuthFiles os decode authDir rest
      else
        match ReadFile os (Join os authDir (Name e)) with
        | Err _ => scanAuthFiles os decode authDir rest
        | Ok data =>
            match decode data with
            | Err _ => scanAuthFiles os decode authDir rest
            | Ok auth =>
                if String.eqb (ToLower (Type_ auth)) "github-copilot" &&
                   negb (String.eqb (AccessToken auth) "")
                then Some (AccessToken auth, Username auth)
                else scanAuthFiles os decode authDir rest
            end
        end
  end.

(** [findCopilotAuthToken]: the access token and the user name. *)
Definition findCopilotAuthToken (os : OS) (decode : string → result AuthFile)
    (authDir : string) : result (string * string) :=
  match ReadDir os authDir with
  | Err err => Err ("failed to read auth directory: " +:+ err)
  | Ok entries =>
      match scanAuthFiles os decode authDir entries with
      | Some found => Ok found
      | None => Err ("no GitHub Copilot auth file found in " +:+ authDir)
      end
  end.

(** The loop of [findTokenFileInDir] (the usage tool). *)
Fixpoint scanTokenFiles (os : OS) (dir : string) (entries : list DirEntry)
    : string :=
  match entries with
  | [] => ""
  | entry :: rest =>
      if negb (IsDir entry) && HasPrefix (Name entry) "github-copilot" &&
         HasSuffix (Name entry) ".json"
      then Join os dir (Name entry)
      else scanTokenFiles os dir rest
  end.

(** [findTokenFileInDir]: a path, the empty string when nothing matches,
    or the error of [os.ReadDir]. *)
Definition findTokenFileInDir (os : OS) (dir : string) : result string :=
  match ReadDir os dir with
  | Err err => Err err
  | Ok entries => Ok (scanTokenFiles os dir entries)
  end.

(** The loop of [findDefaultTokenFile]. *)
Fixpoint firstTokenFile (os : OS) (searchPaths : list string) : result string :=
  match searchPaths with
  | [] => Err "no token file found"
  | dir :: rest =>
      match findTokenFileInDir os dir with
      | Ok file =>
          if negb (String.eqb file "") then Ok file
          else firstTokenFile os rest
      | Err _ => firstTokenFile os rest
      end
  end.

Definition searchPaths : list string := [".cli-proxy-api"; "auths"; "."].

(** [findDefaultTokenFile]. *)
Definition findDefaultTokenFile (os : OS) : result string :=
  firstTokenFile os searchPaths.

(** *** The two calls of the model updater *)

Definition copilotTokenURL : string :=
  "https://api.github.com/copilot_internal/v2/token".
Definition copilotModelsURL : string := "https://api.githubcopilot.com/models".
Definition copilotUserAgent : string := "GithubCopilot/1.0".
Definition copilotEditorVersion : string := "vscode/1.100.0".
Definition copilotPluginVersion : string := "copilot/1.300.0".
Definition copilotIntegrationID : string := "vscode-chat".

(** What [client.Do] and [io.ReadAll] give a tool: a transport error, or
    a status with the bytes that could be read and the error that stopped
    the reading, if any. *)
Inductive Reply :=
| Failed (err : string)
| Answered (StatusCode : Z) (data : string) (readErr : option string).

Definition Transport : Type := HttpRequest → Reply.

Record CopilotAPIToken := {
  Token : string;
  ExpiresAt : Z
}.

(** The request of [getCopilotAPIToken]. *)
Definition tokenRequest (githubAccessToken : string) : HttpRequest :=
  {| reqContext := Background;
     reqMethod := "GET";
     reqURL := copilotTokenURL;
     reqHeaders := [ ("Authorization", "token " +:+ githubAccessToken);
                     ("Accept", "application/json");
                     ("User-Agent", copilotUserAgent);
                     ("Editor-Version", copilotEditorVersion);
                     ("Editor-Plugin-Version", copilotPluginVersion) ];
     reqBody := None;
     reqTimeout := 30 |}.

(** [getCopilotAPIToken]. [decode] is [json.Unmarshal] into a
    [CopilotAPIToken]. *)
Definition getCopilotAPIToken (send : Transport)
    (decode : string → result CopilotAPIToken) (githubAccessToken : string)
    : result CopilotAPIToken :=
  match send (tokenRequest githubAccessToken) with
  | Failed err => Err ("request failed: " +:+ err)
  | Answered _ _ (Some err) => Err ("failed to read response: " +:+ err)
  | Answered StatusCode body None =>
      if decide (StatusCode ≠ StatusOK)
      then Err ("API returned status " +:+ fmt_d StatusCode +:+ ": " +:+ body)
      else
        match decode body with
        | Err err => Err ("failed to parse response: " +:+ err)
        | Ok apiToken =>
            if String.eqb (Token apiToken) ""
            then Err "received empty API token"
            else Ok apiToken
        end
  end.

(** *** Vocabulary of the statements *)


(** The entry is a file named [github-copilot....json]. *)
Definition TokenFileName (e : DirEntry) : Prop :=
  IsDir e = false ∧ HasPrefix (Name e) "github-copilot" = true ∧
  HasSuffix (Name e) ".json" = true.

(** *** A sample directory *)

Definition sampleEntries : list DirEntry :=
  [ {| Name := "github-copilot-dir.json"; IsDir := true |};
    {| Name := "notes.txt"; IsDir := false |};
    {| Name := "broken.json"; IsDir := false |};
    {| Name := "claude-bob.JSON"; IsDir := false |};
    {| Name := "github-copilot-alice.json"; IsDir := false |};
    {| Name := "github-copilot-carol.json"; IsDir := false |} ].

Definition sampleOS : OS :=
  {| ReadDir := λ dir,
       if decide (dir = "auths") then Ok sampleEntries
       else if decide (dir = ".") then Ok []
       else Err "no such file or directory";
     ReadFile := λ path,
       if decide (path = "auths/broken.json") then Ok "{"
       else if decide (path = "auths/claude-bob.JSON") then Ok "claude bob"
       else if decide (path = "auths/github-copilot-alice.json")
       then Ok "copilot alice"
       else if decide (path = "auths/github-copilot-carol.json")
       then Ok "copilot carol"
       else Err "permission denied";
     WriteFile := λ _ _, None;
     Join := λ dir name, dir +:+ "/" +:+ name |}.


(** A token endpoint that answers 200 with a token that is empty. *)
Definition emptyTokenTransport : Transport := λ _,
  Answered 200 "token: none" None.

Definition sampleTokenDecode (body : string) : result CopilotAPIToken :=
  if decide (body = "token: none")
  then Ok {| Token := ""; ExpiresAt := 0 |}
  else if decide (body = "token: tid=1")
  then Ok {| Token := "tid=1"; ExpiresAt := 1768908139 |}
  else Err "invalid character".

End Tools.

(** ** The model updater: fetching the model list, generating the table,
    rewriting [model_definitions.go]

    [tools/update_copilot_models/main.go]. The clock, [%q] and the
    replacement templates of [regexp] are library code: the time stamp
    [now], the date [today], [quote] (what [%q] prints for a string) and
    [expand] (what [ReplaceAllString] puts for a template and a matched
    text, [$] being its escape) are arguments. *)
Module Updater.
Import GoStrings GoStringsMore Quota Tools.

(** Line feed, tab and the double quote: the escapes of the literals
    of the source. *)
Definition nl : string := String "010"%char "".
Definition tab : string := String "009"%char "".
Definition dq : string := String "034"%char "".

Record CopilotLimits := {
  MaxContextWindowTokens : Z;
  MaxOutputTokens : Z;
  MaxPromptTokens : Z
}.

Record CopilotSupports := {
  MaxThinkingBudget : Z;
  MinThinkingBudget : Z;
  ParallelToolCalls : bool;
  Streaming : bool;
  StructuredOutputs : bool;
  ToolCalls : bool;
  Vision : bool
}.

Record CopilotCapabilities := {
  Family : string;
  Type_ : string;
  Tokenizer : string;
  Limits : CopilotLimits;
  Supports : CopilotSupports
}.

Record CopilotModel := {
  ID : string;
  Name : string;
  Object : string;
  Version : string;
  Vendor : string;
  Preview : bool;
  Capabilities : CopilotCapabilities;
  SupportedEndpoints : list string
}.

(** The request of [fetchCopilotModels]. *)
Definition modelsRequest (apiToken : string) : HttpRequest :=
  {| reqContext := Background;
     reqMethod := "GET";
     reqURL := copilotModelsURL;
     reqHeaders := [ ("Authorization", "Bearer " +:+ apiToken);
                     ("Accept", "application/json");
                     ("Content-Type", "application/json");
                     ("User-Agent", copilotUserAgent);
                     ("Editor-Version", copilotEditorVersion);
                     ("Editor-Plugin-Version", copilotPluginVersion);
                     ("Copilot-Integration-Id", copilotIntegrationID) ];
     reqBody := None;
     reqTimeout := 30 |}.

(** What [fetchCopilotModels] returns: the models (a nil slice is the
    empty list), the raw body and the error, [None] being nil. *)
Record Fetched := {
  fetchedModels : list CopilotModel;
  fetchedBody : option string;
  fetchedErr : option string
}.

(** [fetchCopilotModels]. [decode] is [json.Unmarshal] into a
    [CopilotModelsResponse], followed by the selection of [Data]. The
    status is looked at before the body is read, and what [io.ReadAll]
    reports for the body of a refusal is dropped. *)
Definition fetchCopilotModels (send : Transport)
    (decode : string → result (list CopilotModel)) (apiToken : string)
    : Fetched :=
  match send (modelsRequest apiToken) with
  | Failed err =>
      {| fetchedModels := []; fetchedBody := None;
         fetchedErr := Some ("request failed: " +:+ err) |}
  | Answered StatusCode body readErr =>
      if decide (StatusCode ≠ StatusOK)
      then {| fetchedModels := []; fetchedBody := None;
              fetchedErr := Some ("API returned status " +:+ fmt_d StatusCode
                                  +:+ ": " +:+ body) |}
      else
        match readErr with
        | Some err =>
            {| fetchedModels := []; fetchedBody := None;
               fetchedErr := Some ("failed to read response: " +:+ err) |}
        | None =>
            match decode body with
            | Err err =>
                {| fetchedModels := []; fetchedBody := Some body;
                   fetchedErr := Some ("failed to parse response: " +:+ err) |}
            | Ok models =>
                {| fetchedModels := models; fetchedBody := Some body;
                   fetchedErr := None |}
            end
        end
  end.

(** *** The generator *)

(** [strings.Join]. *)
Fixpoint strings_Join (elems : list string) (sep : string) : string :=
  match elems with
  | [] => ""
  | [e] => e
  | e :: rest => e +:+ sep +:+ strings_Join rest sep
  end.

(** [determineSupportedEndpoints]. *)
Definition determineSupportedEndpoints (model : CopilotModel) : list string :=
  if (0 <? length (SupportedEndpoints model))%nat
  then SupportedEndpoints model
  else
    let modelLower := ToLower (ID model) in
    if Contains modelLower "embedding" then []
    else if Contains modelLower "-codex" then ["/responses"]
    else ["/chat/completions"].

(** [generateThinkingSupport]. *)
Definition generateThinkingSupport (model : CopilotModel) : string :=
  let maxBudget := MaxThinkingBudget (Supports (Capabilities model)) in
  let minBudget := MinThinkingBudget (Supports (Capabilities model)) in
  if (0 <? maxBudget)%Z
  then "&ThinkingSupport{Min: " +:+ fmt_d minBudget +:+ ", Max: "
       +:+ fmt_d maxBudget +:+ ", ZeroAllowed: false, DynamicAllowed: false}"
  else
    let modelLower := ToLower (ID model) in
    if HasPrefix modelLower "gpt-" || HasPrefix modelLower "o1" ||
       HasPrefix modelLower "o3"
    then "&ThinkingSupport{Levels: []string{" +:+ dq +:+ "minimal" +:+ dq
         +:+ ", " +:+ dq +:+ "low" +:+ dq +:+ ", " +:+ dq +:+ "medium" +:+ dq
         +:+ ", " +:+ dq +:+ "high" +:+ dq +:+ "}}"
    else "".

(** [sort.Slice]'s comparison in [generateGoCode]. *)
Definition lessID (a b : CopilotModel) : bool := less (ID a) (ID b).

Section Generator.
Context (now : Z) (today : string) (quote : string → string).

(** [formatStringSlice]. *)
Definition formatStringSlice (slice : list string) : string :=
  if (length slice =? 0)%nat then "[]string{}"
  else "[]string{" +:+ strings_Join (quote <$> slice) ", " +:+ "}".

(** One turn of the loop of [generateGoCode], lines 362-416: what the
    builder [sb] holds after the model [m]. *)
Definition writeModel (sb : string) (m : CopilotModel) : string :=
  if String.eqb (ID m) "" then sb
  else
    let displayName := if String.eqb (Name m) "" then ID m else Name m in
    let vendor :=
      if String.eqb (Vendor m) "" then "github-copilot" else Vendor m in
    let description := displayName +:+ " via GitHub Copilot" in
    let contextLength :=
      if (MaxContextWindowTokens (Limits (Capabilities m)) =? 0)%Z
      then 128000%Z
      else MaxContextWindowTokens (Limits (Capabilities m)) in
    let maxOutputTokens :=
      if (MaxOutputTokens (Limits (Capabilities m)) =? 0)%Z
      then 16384%Z
      else MaxOutputTokens (Limits (Capabilities m)) in
    let endpoints := determineSupportedEndpoints m in
    let sb := sb +:+ (tab +:+ tab +:+ "{" +:+ nl) in
    let sb := sb +:+ (tab +:+ tab +:+ tab +:+ "ID:                  "
                      +:+ quote (ID m) +:+ "," +:+ nl) in
    let sb := sb +:+ (tab +:+ tab +:+ tab +:+ "Object:              "
                      +:+ dq +:+ "model" +:+ dq +:+ "," +:+ nl) in
    let sb := sb +:+ (tab +:+ tab +:+ tab +:+ "Created:             now,"
                      +:+ nl) in
    let sb := sb +:+ (tab +:+ tab +:+ tab +:+ "OwnedBy:             "
                      +:+ dq +:+ "github-copilot" +:+ dq +:+ "," +:+ nl) in
    let sb := sb +:+ (tab +:+ tab +:+ tab +:+ "Type:                "
                      +:+ dq +:+ "github-copilot" +:+ dq +:+ "," +:+ nl) in
    let sb := sb +:+ (tab +:+ tab +:+ tab +:+ "DisplayName:         "
                      +:+ quote displayName +:+ "," +:+ nl) in
    let sb := sb +:+ (tab +:+ tab +:+ tab +:+ "Description:         "
                      +:+ quote description +:+ "," +:+ nl) in
    let sb := sb +:+ (tab +:+ tab +:+ tab +:+ "ContextLength:       "
                      +:+ fmt_d contextLength +:+ "," +:+ nl) in
    let sb := sb +:+ (tab +:+ tab +:+ tab +:+ "MaxCompletionTokens: "
                      +:+ fmt_d maxOutputTokens +:+ "," +:+ nl) in
    let sb :=
      if (0 <? length endpoints)%nat
      then sb +:+ (tab +:+ tab +:+ tab +:+ "SupportedEndpoints:  "
                   +:+ formatStringSlice endpoints +:+ "," +:+ nl)
      else sb in
    let thinkingStr := generateThinkingSupport m in
    let sb :=
      if negb (String.eqb thinkingStr "")
      then sb +:+ (tab +:+ tab +:+ tab +:+ "Thinking:            "
                   +:+ thinkingStr +:+ "," +:+ nl)
      else sb in
    sb +:+ (tab +:+ tab +:+ "}," +:+ nl).

(** [generateGoCode]. *)
Definition generateGoCode (models : list CopilotModel) : string :=
  let models := GoSort.Slice lessID models in
  let sb := "" in
  let sb := sb +:+ ("func GetGitHubCopilotModels() []*ModelInfo {" +:+ nl) in
  let sb := sb +:+ (tab +:+ "now := int64(" +:+ fmt_d now +:+ ") // "
                    +:+ today +:+ nl) in
  let sb := sb +:+ (tab +:+ "return []*ModelInfo{" +:+ nl) in
  let sb := foldl writeModel sb models in
  let sb := sb +:+ (tab +:+ "}" +:+ nl) in
  sb +:+ ("}" +:+ nl).

(** The text one model adds to the builder. *)
Definition modelEntry (m : CopilotModel) : string := writeModel "" m.

(** The text [generateGoCode] puts before the first entry, and after the
    last. *)
Definition codeHead : string :=
  "func GetGitHubCopilotModels() []*ModelInfo {" +:+ nl
  +:+ tab +:+ "now := int64(" +:+ fmt_d now +:+ ") // " +:+ today +:+ nl
  +:+ tab +:+ "return []*ModelInfo{" +:+ nl.

Definition codeFoot : string := tab +:+ "}" +:+ nl +:+ "}" +:+ nl.

End Generator.

(** The lines of the generated function between the line of its header
    and its closing brace. *)
Definition codeLines (now : Z) (today : string) (quote : string → string)
    (models : list CopilotModel) : string :=
  tab +:+ "now := int64(" +:+ fmt_d now +:+ ") // " +:+ today +:+ nl
  +:+ tab +:+ "return []*ModelInfo{" +:+ nl
  +:+ foldr (λ m text, modelEntry quote m +:+ text) ""
        (GoSort.Slice lessID models)
  +:+ tab +:+ "}" +:+ nl.

(** The entries of [models], one after the other. *)
Definition entries (quote : string → string) (models : list CopilotModel)
    : string :=
  foldr (λ m text, modelEntry quote m +:+ text) "" models.

(** The model has an identifier. *)
Definition hasID (m : CopilotModel) : Prop := ID m ≠ "".

#[global] Instance hasID_dec m : Decision (hasID m).
Proof. unfold hasID. apply _. Defined.

(** *** The rewriting of the file *)

(** The literal parts of the pattern of [updateModelDefinitions],
    [(?s)func GetGitHubCopilotModels\(\) \[\]\*ModelInfo \{.*?\n\}\n]:
    what stands before and after [.*?]. *)
Definition functionHeader : string :=
  "func GetGitHubCopilotModels() []*ModelInfo {".
Definition functionEnd : string := nl +:+ "}" +:+ nl.

(** [s] without the prefix [prefix], if it starts with it. *)
Fixpoint stripPrefix (prefix s : string) : option string :=
  match prefix with
  | EmptyString => Some s
  | String a prefix' =>
      match s with
      | EmptyString => None
      | String b s' => if Ascii.eqb a b then stripPrefix prefix' s' else None
      end
  end.

(** The text before and the text after the first occurrence of [sep] in
    [s] (Go's [strings.Cut]). *)
Fixpoint Cut (s sep : string) : option (string * string) :=
  match stripPrefix sep s with
  | Some after => Some ("", after)
  | None =>
      match s with
      | EmptyString => None
      | String c s' =>
          match Cut s' sep with
          | Some (before, after) => Some (String c before, after)
          | None => None
          end
      end
  end.

(** The leftmost match of the pattern in [s]: the text before it, the
    matched text and the text after it. The pattern is two literals
    around a lazy [.*?] that, under [(?s)], takes any byte: the match
    starts where the header first occurs and ends with the first
    [\n}\n] after the header. *)
Definition FindMatch (s : string) : option (string * string * string) :=
  match Cut s functionHeader with
  | None => None
  | Some (before, rest) =>
      match Cut rest functionEnd with
      | None => None
      | Some (body, after) =>
          Some (before, functionHeader +:+ body +:+ functionEnd, after)
      end
  end.

(** [pattern.MatchString]. *)
Definition MatchString (s : string) : bool :=
  match FindMatch s with Some _ => true | None => false end.

Section Rewriting.
Context (expand : string → string → string).

(** [pattern.ReplaceAllString]: every match, from left to right, each
    search starting where the match before ended. A match is not empty,
    so a string of [n] bytes has fewer than [n] of them. *)
Fixpoint replaceAll (n : nat) (src repl : string) : string :=
  match n with
  | O => src
  | S n' =>
      match FindMatch src with
      | None => src
      | Some (before, matched, after) =>
          before +:+ expand repl matched +:+ replaceAll n' after repl
      end
  end.

Definition ReplaceAllString (src repl : string) : string :=
  replaceAll (String.length src) src repl.

(** [updateModelDefinitions]: the error ([None] is nil) and what was
    handed to [os.WriteFile], path and content. *)
Definition updateModelDefinitions (os : OS) (filePath newCode : string)
    : option string * list (string * string) :=
  match ReadFile os filePath with
  | Err err => (Some ("failed to read file: " +:+ err), [])
  | Ok content =>
      if negb (MatchString content)
      then (Some "could not find GetGitHubCopilotModels function in file", [])
      else
        let newContent := ReplaceAllString content newCode in
        match WriteFile os filePath newContent with
        | Some err =>
            (Some ("failed to write file: " +:+ err),
             [(filePath, newContent)])
        | None => (None, [(filePath, newContent)])
        end
  end.

End Rewriting.

(** *** Vocabulary of the statements *)

(** No line feed in [s]. *)
Fixpoint noNL (s : string) : bool :=
  match s with
  | EmptyString => true
  | String c s' => negb (Ascii.eqb c "010") && noNL s'
  end.

(** [s] is made of lines that start with a tab: read from the start of a
    line ([lineStart]) or from inside one, every line feed of [s] is
    followed by a tab or ends [s], and [s] ends with a line. *)
Fixpoint wellTabbed (lineStart : bool) (s : string) : bool :=
  match s with
  | EmptyString => lineStart
  | String c s' =>
      if lineStart then Ascii.eqb c "009" && wellTabbed false s'
      else if Ascii.eqb c "010" then wellTabbed true s'
      else wellTabbed false s'
  end.

(** The file system after [writes], [os.WriteFile] being obeyed. *)
Definition written (os : OS) (writes : list (string * string)) : OS :=
  {| ReadDir := ReadDir os;
     ReadFile := λ path,
       match list_find (λ w, w.1 = path) (reverse writes) with
       | Some (_, w) => Ok w.2
       | None => ReadFile os path
       end;
     WriteFile := WriteFile os;
     Join := Join os |}.

(** *** Samples *)

(** A [%q] for the samples: the line feed is escaped, as [%q] does;
    the other escapes of [%q] are left out. *)
Fixpoint escape (s : string) : string :=
  match s with
  | EmptyString => EmptyString
  | String c s' =>
      if Ascii.eqb c "010" then String "\" (String "n" (escape s'))
      else String c (escape s')
  end.

Definition sampleQuote (s : string) : string := dq +:+ escape s +:+ dq.

(** A template without [$] is put as it is. *)
Definition plainExpand (template matched : string) : string := template.

Definition noLimits : CopilotLimits :=
  {| MaxContextWindowTokens := 0; MaxOutputTokens := 0; MaxPromptTokens := 0 |}.

Definition sampleCopilotModel (id name : string) (maxBudget : Z)
    : CopilotModel :=
  {| ID := id; Name := name; Object := "model"; Version := id;
     Vendor := ""; Preview := false;
     Capabilities :=
       {| Family := ""; Type_ := "chat"; Tokenizer := "";
          Limits := noLimits;
          Supports := {| MaxThinkingBudget := maxBudget;
                         MinThinkingBudget := 1024;
                         ParallelToolCalls := false; Streaming := true;
                         StructuredOutputs := false; ToolCalls := true;
                         Vision := false |} |};
     SupportedEndpoints := [] |}.

Definition sampleModels : list CopilotModel :=
  [ sampleCopilotModel "gpt-5-codex" "GPT-5 Codex" 0;
    sampleCopilotModel "" "nameless" 0;
    sampleCopilotModel "claude-sonnet-4" "" 32000 ].

Definition sampleModels' : list CopilotModel :=
  [ sampleCopilotModel "claude-sonnet-4" "" 32000;
    sampleCopilotModel "gpt-5-codex" "GPT-5 Codex" 0 ].

(** A file with the function, a line before it and another function
    after it. *)
Definition sampleFile : string :=
  "package registry" +:+ nl +:+ nl
  +:+ "func GetGitHubCopilotModels() []*ModelInfo {" +:+ nl
  +:+ tab +:+ "return nil" +:+ nl
  +:+ "}" +:+ nl
  +:+ nl +:+ "func GetKiroModels() []*ModelInfo {" +:+ nl
  +:+ tab +:+ "return nil" +:+ nl
  +:+ "}" +:+ nl.

(** The function twice in one file. *)
Definition twoCopies : string := sampleFile +:+ sampleFile.

Definition sampleFileOS : OS :=
  {| ReadDir := λ _, Err "not a directory";
     ReadFile := λ path,
       if decide (path = "model_definitions.go") then Ok sampleFile
       else if decide (path = "empty.go") then Ok ""
       else Err "no such file or directory";
     WriteFile := λ _ _, None;
     Join := λ dir name, dir +:+ "/" +:+ name |}.

End Updater.

(** ** The other [GetKiroQuota]: the version that asks the [kiroauth]
    package

    The package is not at hand. Of [kiroauth.KiroTokenData] the handler
    reads and writes [AccessToken] and [Region]; the rest of it and the
    result type of [GetUsageLimits] are left open, and the two JSON steps
    and the call are arguments. *)
Module KiroAuthVersion.
Import Quota.

Record KiroTokenData (Other : Type) := {
  AccessToken : string;
  Region : string;
  otherFields : Other
}.
Arguments AccessToken {Other} _.
Arguments Region {Other} _.
Arguments otherFields {Other} _.

(** [json.Marshal(auth.Metadata)], [json.Unmarshal] of its result into a
    fresh [KiroTokenData], and [GetUsageLimits] of
    [kiroauth.NewKiroAuth(h.cfg)]. *)
Record Package (Other Usage : Type) := {
  marshalMetadata : option (gmap string Value) → result string;
  unmarshalTokenData : string → result (KiroTokenData Other);
  GetUsageLimits : Context → KiroTokenData Other → result Usage
}.
Arguments marshalMetadata {Other Usage} _ _.
Arguments unmarshalTokenData {Other Usage} _ _.
Arguments GetUsageLimits {Other Usage} _ _ _.

(** What [c.JSON] writes: [gin.H{"error": msg}] or the usage as the
    package returned it. *)
Inductive Body (Usage : Type) :=
| ErrorBody (msg : string)
| UsageBody (usage : Usage).
Arguments ErrorBody {Usage} msg.
Arguments UsageBody {Usage} usage.

Record Answer (Usage : Type) := {
  status : Z;
  body : Body Usage
}.
Arguments status {Usage} _.
Arguments body {Usage} _.

(** What the handler did besides answering: the identifiers it looked up
    and the calls of [GetUsageLimits] it made. *)
Record Trace (Other : Type) := {
  looked : list string;
  asked : list (Context * KiroTokenData Other)
}.
Arguments looked {Other} _.
Arguments asked {Other} _.

Definition failure {Usage} (code : Z) (msg : string) : Answer Usage :=
  {| status := code; body := ErrorBody msg |}.

(** Lines 252-260: the token of the decoded data or, when that is empty,
    the [access_token] of the metadata if it is a string. *)
Definition ensureAccessToken {Other} (auth : Auth)
    (tokenData : KiroTokenData Other) : option (KiroTokenData Other) :=
  if decide (AccessToken tokenData = "") then
    match assertString (metadataIndex auth "access_token") with
    | (t, true) =>
        Some {| AccessToken := t; Region := Region tokenData;
                otherFields := otherFields tokenData |}
    | _ => None
    end
  else Some tokenData.

(** Lines 263-267. *)
Definition ensureRegion {Other} (auth : Auth)
    (tokenData : KiroTokenData Other) : KiroTokenData Other :=
  if decide (Region tokenData = "") then
    match assertString (metadataIndex auth "region") with
    | (r, true) =>
        {| AccessToken := AccessToken tokenData; Region := r;
           otherFields := otherFields tokenData |}
    | _ => tokenData
    end
  else tokenData.

(** [GetKiroQuota]. *)
Definition GetKiroQuota {Other Usage} (pkg : Package Other Usage)
    (h : Handler) (c : GinContext) : Answer Usage * Trace Other :=
  let authID := Query c "auth_id" in
  if decide (authID = "") then
    (failure StatusBadRequest "auth_id is required",
     {| looked := []; asked := [] |})
  else
  match authManager h with
  | None =>
      (failure StatusInternalServerError "auth manager not available",
       {| looked := []; asked := [] |})
  | Some mgr =>
  match mgr authID with
  | (Some auth, true) =>
      match marshalMetadata pkg (Metadata auth) with
      | Err err =>
          (failure StatusInternalServerError
             ("failed to marshal metadata: " +:+ err),
           {| looked := [authID]; asked := [] |})
      | Ok metadataJSON =>
      match unmarshalTokenData pkg metadataJSON with
      | Err err =>
          (failure StatusInternalServerError
             ("failed to unmarshal token data: " +:+ err),
           {| looked := [authID]; asked := [] |})
      | Ok tokenData =>
      match ensureAccessToken auth tokenData with
      | None =>
          (failure StatusBadRequest "access_token not found in auth data",
           {| looked := [authID]; asked := [] |})
      | Some tokenData =>
          let tokenData := ensureRegion auth tokenData in
          let ctx := WithTimeout (RequestContext (requestID c)) 30 in
          match GetUsageLimits pkg ctx tokenData with
          | Err err =>
              (failure StatusInternalServerError
                 ("failed to fetch usage: " +:+ err),
               {| looked := [authID]; asked := [(ctx, tokenData)] |})
          | Ok usage =>
              ({| status := StatusOK; body := UsageBody usage |},
               {| looked := [authID]; asked := [(ctx, tokenData)] |})
          end
      end
      end
      end
  | _ =>
      (failure StatusNotFound "auth not found",
       {| looked := [authID]; asked := [] |})
  end
  end.

(** *** A sample package *)

(** Metadata is encoded as its [access_token], if that is a string; the
    decoder takes the bytes for the token and knows no region; the
    package refuses an empty token. *)
Definition samplePackage : Package unit string :=
  {| marshalMetadata := λ metadata,
       Ok (default "" (metadata ≫= (λ m,
             match m !! "access_token" with
             | Some (VString s) => Some s
             | _ => None
             end)));
     unmarshalTokenData := λ metadataJSON,
       Ok {| AccessToken := metadataJSON; Region := ""; otherFields := () |};
     GetUsageLimits := λ _ tokenData,
       if decide (AccessToken tokenData = "") then Err "401 unauthorized"
       else Ok "KIRO PRO" |}.

End KiroAuthVersion.

(** ** The usage tool: where its token comes from

    Steps 1 to 4 of [main] of the usage tool. The flags, the [auth-dir]
    that [getAuthDirFromConfig] found (empty when it found none) and the
    environment variable [GITHUB_COPILOT_TOKEN] are arguments; the lines
    the tool prints on its way are left out. *)
Module UsageTool.
Import Quota Tools.

(** [TokenFile]. *)
Record TokenFile := {
  AccessToken : string
}.

(** Why the tool exits with status 1 before it fetches anything. *)
Inductive Exit :=
| ReadFailed (filePath err : string)
| ParseFailed (err : string)
| NoAccessTokenField
| NoTokenFound.

(** Step 1: the file the tool reads. Without [-token] and [-file], a
    token file of the configured [auth-dir] if the configuration names
    one, and else a token file of the default directories. *)
Definition chooseFile (os : OS) (authDirFromConfig finalToken filePath : string)
    : string :=
  if String.eqb finalToken "" && String.eqb filePath "" then
    let authDir := authDirFromConfig in
    if negb (String.eqb authDir "") then
      match findTokenFileInDir os authDir with
      | Ok foundFile =>
          if negb (String.eqb foundFile "") then foundFile else filePath
      | Err _ => filePath
      end
    else
      match findDefaultTokenFile os with
      | Ok foundFile =>
          if negb (String.eqb foundFile "") then foundFile else filePath
      | Err _ => filePath
      end
  else filePath.

(** Steps 3 and 4: the environment variable stands in for a token that
    is still empty. *)
Definition orEnvironment (env finalToken : string) : Exit + string :=
  let finalToken := if String.eqb finalToken "" then env else finalToken in
  if String.eqb finalToken "" then inl NoTokenFound else inr finalToken.

(** Steps 1 to 4 of [main]: the token handed to [fetchCopilotUsage], or
    the reason of the exit. [decode] is [json.Unmarshal] into a
    [TokenFile]. *)
Definition resolveToken (os : OS) (decode : string → result TokenFile)
    (authDirFromConfig env tokenFlag fileFlag : string) : Exit + string :=
  let finalToken := tokenFlag in
  let filePath := chooseFile os authDirFromConfig finalToken fileFlag in
  if String.eqb finalToken "" && negb (String.eqb filePath "") then
    match ReadFile os filePath with
    | Err err => inl (ReadFailed filePath err)
    | Ok data =>
        match decode data with
        | Err err => inl (ParseFailed err)
        | Ok tf =>
            if String.eqb (AccessToken tf) "" then inl NoAccessTokenField
            else orEnvironment env (AccessToken tf)
        end
    end
  else orEnvironment env finalToken.

(** *** Samples *)

(** A configured directory without a token file, beside the sample
    directory [auths], which has one. *)
Definition emptyConfigured : OS :=
  {| ReadDir := λ dir,
       if decide (dir = "configured") then Ok [] else ReadDir sampleOS dir;
     ReadFile := ReadFile sampleOS;
     WriteFile := WriteFile sampleOS;
     Join := Join sampleOS |}.

Definition sampleTokenFile (data : string) : result TokenFile :=
  if decide (data = "copilot alice") then Ok {| AccessToken := "gho_alice" |}
  else Err "invalid character".

End UsageTool.

(** * Properties *)

(** ** [sort.Slice] permutes and sorts *)
Module GoSortFacts.
Import GoSort.

Section Slice.
Context {A : Type} (less : A → A → bool).

Local Abbreviation notLess := (GoSort.notLess less).

Lemma bubble_perm x r : bubble less x r ≡ₚ x :: r.
Proof.
  induction r as [|y r IH]; simpl; [done|].
  destruct (less x y); [|done].
  rewrite IH. apply Permutation_swap.
Qed.

Lemma foldl_bubble_perm l acc :
  foldl (λ r x, bubble less x r) acc l ≡ₚ l ++ acc.
Proof.
  revert acc. induction l as [|x l IH]; intros acc; simpl; [done|].
  rewrite IH, bubble_perm. by rewrite Permutation_middle.
Qed.

Lemma Slice_perm l : Slice less l ≡ₚ l.
Proof.
  unfold Slice. rewrite reverse_Permutation, foldl_bubble_perm.
  by rewrite app_nil_r.
Qed.

Hypothesis less_asym : ∀ x y, less x y = true → less y x = false.

Lemma bubble_HdRel y x r :
  notLess y x → HdRel notLess y r → HdRel notLess y (bubble less x r).
Proof.
  intros Hyx Hr. destruct r as [|z r]; simpl; [by constructor|].
  destruct (less x z); constructor; [by inversion Hr|done].
Qed.

Lemma bubble_Sorted x r : Sorted notLess r → Sorted notLess (bubble less x r).
Proof.
  induction 1 as [|y r Hr IH Hhd]; simpl; [by repeat constructor|].
  destruct (less x y) eqn:Hxy.
  - constructor; [done|]. apply bubble_HdRel; [|done]. by apply less_asym.
  - constructor; [by constructor|]. by constructor.
Qed.

Lemma foldl_bubble_Sorted l acc :
  Sorted notLess acc → Sorted notLess (foldl (λ r x, bubble less x r) acc l).
Proof.
  revert acc. induction l as [|x l IH]; intros acc Hacc; simpl; [done|].
  by apply IH, bubble_Sorted.
Qed.

(** In the result no element is [less] than the one before it. *)
Lemma Slice_Sorted l : Sorted (flip notLess) (Slice less l).
Proof.
  unfold Slice. apply Sorted_reverse.
  apply foldl_bubble_Sorted. constructor.
Qed.

End Slice.
End GoSortFacts.

(** ** [strings.TrimSpace] drops the padding *)
Module GoStringsFacts.
Import GoStrings.







End GoStringsFacts.

(** ** The registry *)
Module RegistryFacts.
Import GoStrings Registry.

(** [a < b] fails on byte strings exactly when [b <= a]. *)
Lemma less_false_le a b : less b a = false ↔ String.le a b.
Proof.
  unfold less, String.le, String.ltb, String.leb.
  rewrite (String.compare_antisym b a).
  destruct (String.compare a b); simpl; naive_solver.
Qed.

Lemma less_asym a b : less a b = true → less b a = false.
Proof.
  unfold less, String.ltb. rewrite (String.compare_antisym b a).
  by destruct (String.compare a b).
Qed.

#[local] Instance lowerLe_trans : Transitive lowerLe.
Proof. intros a b c. unfold lowerLe. apply transitivity. Qed.


Lemma Sorted_weaken {A} (R R' : relation A) l :
  (∀ a b, R a b → R' a b) → Sorted R l → Sorted R' l.
Proof.
  intros HR. induction 1 as [|x l Hl IH Hhd]; constructor; [done|].
  destruct Hhd; constructor. by apply HR.
Qed.


(** *** The channel dispatch *)




(** The dispatch on concrete keys. *)
Example channel_claude_mixed_case :
  GetStaticModelDefinitionsByChannel sampleData [] " CLAUDE " =
  GetClaudeModels sampleData.
Proof. reflexivity. Qed.

Example channel_kiro_unknown :
  GetStaticModelDefinitionsByChannel sampleData [] "kiro" = [].
Proof. reflexivity. Qed.

(** *** The antigravity channel *)

Lemma antigravityEntry_Some kv m :
  antigravityEntry kv = Some m ↔
  ∃ e, kv.2 = Some e ∧ kv.1 ≠ "" ∧ m = Some (antigravityModel kv.1 e).
Proof.
  destruct kv as [k [e|]]; simpl.
  - case_decide; split.
    + done.
    + by intros (? & ? & ? & ?).
    + intros [= <-]. eauto.
    + by intros (? & [= <-] & _ & ->).
  - split; [done|]. by intros (? & ? & _).
Qed.

Lemma elem_of_antigravity cfg visit m :
  range_of cfg visit →
  m ∈ omap antigravityEntry visit ↔
  ∃ k e, cfg !! k = Some (Some e) ∧ k ≠ "" ∧ m = Some (antigravityModel k e).
Proof.
  intros Hvisit. rewrite list_elem_of_omap. split.
  - intros ([k v] & Hin & (e & Hv & Hk & ->)%antigravityEntry_Some).
    simpl in *. subst v. exists k, e. split; [|done].
    rewrite Hvisit in Hin. by apply elem_of_map_to_list in Hin.
  - intros (k & e & Hlook & Hk & ->). exists (k, Some e). split.
    + rewrite Hvisit. by apply elem_of_map_to_list.
    + apply antigravityEntry_Some. eauto.
Qed.

Lemma antigravity_branch d visit channel :
  range_of (GetAntigravityModelConfig d) visit →
  ToLower (TrimSpace channel) = "antigravity" →
  GetStaticModelDefinitionsByChannel d visit channel =
  GoSort.Slice lessByLowerID (omap antigravityEntry visit).
Proof.
  intros Hvisit Hkey. unfold GetStaticModelDefinitionsByChannel.
  rewrite Hkey. repeat (case_decide; [done|]). simpl.
  case_decide as Hsize; [|done].
  apply map_size_empty_iff in Hsize. red in Hvisit.
  rewrite Hsize, map_to_list_empty in Hvisit.
  by apply Permutation_nil_r in Hvisit as ->.
Qed.


(** A walk of the map is a duplicate-free listing of its entries. *)
Lemma range_of_list_to_map
    (visit : list (string * option AntigravityModelConfig)) :
  NoDup visit.*1 → range_of (list_to_map visit) visit.
Proof. intros Hnodup. unfold range_of. symmetry. by apply map_to_list_to_map. Qed.

Lemma NoDup_fmap_eq {A B} (f : A → B) (l : list A) x y :
  NoDup (f <$> l) → x ∈ l → y ∈ l → f x = f y → x = y.
Proof.
  induction l as [|z l IH]; [by intros _ ?%elem_of_nil|].
  rewrite fmap_cons, NoDup_cons, !elem_of_cons.
  intros [Hz Hl] [->|Hx] [->|Hy] Hf; [done| | |by apply IH].
  - destruct Hz. rewrite Hf. by apply list_elem_of_fmap_2.
  - destruct Hz. rewrite <- Hf. by apply list_elem_of_fmap_2.
Qed.


Lemma sampleVisit_range : range_of (GetAntigravityModelConfig sampleData) sampleVisit.
Proof.
  assert (GetAntigravityModelConfig sampleData = list_to_map sampleVisit) as ->
    by (vm_compute; reflexivity).
  apply range_of_list_to_map. compute_done.
Qed.


Lemma upperFirst_range :
  range_of (GetAntigravityModelConfig collidingData) upperFirst.
Proof.
  assert (GetAntigravityModelConfig collidingData = list_to_map upperFirst) as ->
    by (vm_compute; reflexivity).
  apply range_of_list_to_map. compute_done.
Qed.




(** *** The global lookup *)

Lemma scanModels_miss modelID models :
  (∀ m, Some m ∈ models → ID m ≠ modelID) → scanModels modelID models = None.
Proof.
  induction models as [|[m|] models IH]; intros Hmiss; simpl; [done| |].
  - case_decide as Hid.
    + destruct (Hmiss m); [left|done].
    + apply IH. intros m' Hm'. apply Hmiss. by right.
  - apply IH. intros m' Hm'. apply Hmiss. by right.
Qed.

Lemma scanModels_first modelID front m back :
  ID m = modelID →
  (∀ m', Some m' ∈ front → ID m' ≠ modelID) →
  scanModels modelID (front ++ Some m :: back) = Some m.
Proof.
  intros Hid. induction front as [|[m'|] front IH]; intros Hfront; simpl.
  - by rewrite decide_True.
  - rewrite decide_False by (apply Hfront; left).
    apply IH. intros m'' Hm''. apply Hfront. by right.
  - apply IH. intros m'' Hm''. apply Hfront. by right.
Qed.

Lemma scanTables_miss modelID tables :
  (∀ t m, t ∈ tables → Some m ∈ t → ID m ≠ modelID) →
  scanTables modelID tables = None.
Proof.
  induction tables as [|t tables IH]; intros Hmiss; simpl; [done|].
  rewrite scanModels_miss by (intros m; apply Hmiss; left).
  apply IH. intros t' m Ht'. apply Hmiss. by right.
Qed.

Lemma scanTables_first modelID before models after m :
  (∀ t m', t ∈ before → Some m' ∈ t → ID m' ≠ modelID) →
  scanModels modelID models = Some m →
  scanTables modelID (before ++ models :: after) = Some m.
Proof.
  intros Hbefore Hscan. induction before as [|t before IH]; simpl.
  - by rewrite Hscan.
  - rewrite scanModels_miss by (intros m'; apply Hbefore; left).
    apply IH. intros t' m' Ht'. apply Hbefore. by right.
Qed.

Lemma definesNowhere_spec modelID tables :
  definesNowhere modelID tables = true →
  ∀ t m, t ∈ tables → Some m ∈ t → ID m ≠ modelID.
Proof.
  unfold definesNowhere. rewrite forallb_forall.
  intros Hall t m Ht%list_elem_of_In Hm%list_elem_of_In.
  specialize (Hall t Ht). rewrite forallb_forall in Hall.
  specialize (Hall (Some m) Hm). simpl in Hall.
  by apply negb_true_iff, String.eqb_neq in Hall.
Qed.

(** C8. The empty identifier is not found. An identifier that the tables
    define is answered from the first table, in the order
    Claude, Gemini, Vertex, Gemini CLI, AI Studio, OpenAI, Qwen, iFlow,
    that has it, by its first entry there with that identifier, whatever
    the later tables and the antigravity configuration hold; so the answer
    is the same on every call over the same tables. The configuration is
    read only when no table has the identifier. *)
Theorem lookup_first_match (d : StaticData) :
  LookupStaticModelInfo d "" = None ∧
  (∀ (modelID : string) (before after : list (list (option ModelInfo)))
      (models front back : list (option ModelInfo)) (m : ModelInfo),
     modelID ≠ "" →
     allModels d = (before ++ models :: after)%list →
     models = (front ++ Some m :: back)%list →
     ID m = modelID →
     (∀ t m', t ∈ before → Some m' ∈ t → ID m' ≠ modelID) →
     (∀ m', Some m' ∈ front → ID m' ≠ modelID) →
     LookupStaticModelInfo d modelID = Some m ∧
     ∀ d', allModels d' = allModels d →
           LookupStaticModelInfo d' modelID = Some m) ∧
  (∀ modelID,
     modelID ≠ "" →
     (∀ t m, t ∈ allModels d → Some m ∈ t → ID m ≠ modelID) →
     LookupStaticModelInfo d modelID =
     antigravityFallback modelID <$>
       cfgIndex (GetAntigravityModelConfig d) modelID).
Proof.
  split; [done|]. split.
  - intros modelID before after models front back m Hne Hall -> Hid Hbefore
      Hfront.
    assert (Hscan : scanTables modelID (allModels d) = Some m).
    { rewrite Hall. apply scanTables_first; [done|].
      by apply scanModels_first. }
    split.
    + unfold LookupStaticModelInfo. rewrite decide_False by done.
      by rewrite Hscan.
    + intros d' Hd'. unfold LookupStaticModelInfo.
      rewrite decide_False by done. by rewrite Hd', Hscan.
  - intros modelID Hne Hmiss. unfold LookupStaticModelInfo.
    rewrite decide_False by done. rewrite scanTables_miss by done.
    by destruct (cfgIndex _ _).
Qed.

Lemma lookup_first_match_witness :
  LookupStaticModelInfo sampleData "shared" =
    Some (sampleModel "shared" "anthropic") ∧
  LookupStaticModelInfo sampleData "gemini-a" =
    Some (antigravityFallback "gemini-a" (sampleEntry 200)).
Proof.
  destruct (lookup_first_match sampleData) as (_ & Hfirst & Hfallback).
  split.
  - refine (proj1 (Hfirst "shared" [] (tail (allModels sampleData))
                     (GetClaudeModels sampleData)
                     [Some (sampleModel "claude-x" "anthropic"); None] []
                     (sampleModel "shared" "anthropic")
                     _ eq_refl eq_refl eq_refl _ _)).
    + done.
    + by intros t m' ?%elem_of_nil.
    + intros m'. rewrite !elem_of_cons, elem_of_nil.
      intros [[= ->]|[?|[]]]; done.
  - rewrite (Hfallback "gemini-a"); [reflexivity|done|].
    by apply definesNowhere_spec.
Defined.

(** The colliding identifier of the sample tables is answered from the
    Claude table, which is scanned before the Gemini one. *)
Example lookup_shared :
  OwnedBy <$> LookupStaticModelInfo sampleData "shared" = Some "anthropic".
Proof. reflexivity. Qed.

(** *** The two views of an antigravity model *)

(** C10. For an identifier that no table defines and that the antigravity
    configuration maps to an entry, the lookup answers with the
    identifier, the thinking support and the completion cap of the entry
    and leaves [Object], [OwnedBy], [Type] and every other field at its
    zero value, whereas the channel
    listing holds, for the same identifier, the descriptor tagged [model]
    and [antigravity]: the two descriptors differ. *)
Theorem antigravity_lookup_differs (d : StaticData)
    (visit : list (string * option AntigravityModelConfig))
    (modelID : string) (entry : AntigravityModelConfig) :
  range_of (GetAntigravityModelConfig d) visit →
  modelID ≠ "" →
  (∀ t m, t ∈ allModels d → Some m ∈ t → ID m ≠ modelID) →
  GetAntigravityModelConfig d !! modelID = Some (Some entry) →
  ∃ found,
    LookupStaticModelInfo d modelID = Some found ∧
    ID found = modelID ∧
    Thinking found = cfgThinking entry ∧
    MaxCompletionTokens found = cfgMaxCompletionTokens entry ∧
    Object found = "" ∧ OwnedBy found = "" ∧ Type_ found = "" ∧
    Created found = 0%Z ∧ DisplayName found = "" ∧ Description found = "" ∧
    ContextLength found = 0%Z ∧ SupportedEndpoints found = [] ∧
    ∀ listed,
      Some listed ∈ GetStaticModelDefinitionsByChannel d visit "antigravity" →
      ID listed = modelID →
      listed = antigravityModel modelID entry ∧
      Object listed = "model" ∧ OwnedBy listed = "antigravity" ∧
      Type_ listed = "antigravity" ∧
      Thinking listed = Thinking found ∧
      MaxCompletionTokens listed = MaxCompletionTokens found ∧
      listed ≠ found.
Proof.
  intros Hvisit Hne Hmiss Hentry.
  exists (antigravityFallback modelID entry). split.
  { unfold LookupStaticModelInfo. rewrite decide_False by done.
    rewrite scanTables_miss by done. unfold cfgIndex. by rewrite Hentry. }
  do 11 (split; [done|]).
  intros listed Hlisted Hid.
  rewrite (antigravity_branch d visit "antigravity" Hvisit eq_refl) in Hlisted.
  rewrite GoSortFacts.Slice_perm in Hlisted.
  apply (elem_of_antigravity _ _ _ Hvisit) in Hlisted
    as (k & e & Hk & _ & [= ->]).
  simpl in Hid. subst k.
  assert (e = entry) as -> by congruence.
  do 6 (split; [done|]). discriminate.
Qed.

(** The model is indeed listed, so the comparison above is not vacuous. *)
Lemma antigravity_listed (d : StaticData)
    (visit : list (string * option AntigravityModelConfig))
    (modelID : string) (entry : AntigravityModelConfig) :
  range_of (GetAntigravityModelConfig d) visit →
  modelID ≠ "" →
  GetAntigravityModelConfig d !! modelID = Some (Some entry) →
  Some (antigravityModel modelID entry) ∈
    GetStaticModelDefinitionsByChannel d visit "antigravity".
Proof.
  intros Hvisit Hne Hentry.
  rewrite (antigravity_branch d visit "antigravity" Hvisit eq_refl).
  rewrite GoSortFacts.Slice_perm.
  apply (elem_of_antigravity _ _ _ Hvisit). by exists modelID, entry.
Qed.

Lemma antigravity_lookup_differs_witness :
  ∃ found,
    LookupStaticModelInfo sampleData "Gemini-B" = Some found ∧
    OwnedBy found = "" ∧
    Some (antigravityModel "Gemini-B" (sampleEntry 100)) ∈
      GetStaticModelDefinitionsByChannel sampleData sampleVisit "antigravity" ∧
    antigravityModel "Gemini-B" (sampleEntry 100) ≠ found.
Proof.
  destruct (antigravity_lookup_differs sampleData sampleVisit "Gemini-B"
              (sampleEntry 100) sampleVisit_range)
    as (found & Hfound & _ & _ & _ & _ & Howner & _ & _ & _ & _ & _ & _ &
        Hlisted).
  - done.
  - by apply definesNowhere_spec.
  - reflexivity.
  - exists found. split; [exact Hfound|]. split; [exact Howner|].
    assert (Hin : Some (antigravityModel "Gemini-B" (sampleEntry 100)) ∈
              GetStaticModelDefinitionsByChannel sampleData sampleVisit
                "antigravity")
      by (by apply antigravity_listed; [exact sampleVisit_range| |]).
    split; [exact Hin|]. by apply (Hlisted _ Hin).
Defined.

End RegistryFacts.

(** ** The quota handlers *)
Module QuotaFacts.
Import Quota.

(** *** What one call to an adapter function does *)

Lemma makeKiroRequest_run ctx proxyURL target accessToken payload net e :
  makeKiroRequest ctx proxyURL target accessToken payload net e =
  (kiroOutcome (net (calls e) (kiroRequest ctx target accessToken payload)),
   addCall (kiroRequest ctx target accessToken payload) e).
Proof.
  unfold makeKiroRequest, bind, roundTrip, kiroOutcome, addCall, ret.
  destruct (net _ _) as [err|status [err|body]]; try done.
  by case_decide.
Qed.

Lemma listProfiles_run codec ctx proxyURL accessToken net e :
  let req := kiroRequest ctx targetListProfiles accessToken ∅ in
  listProfiles codec ctx proxyURL accessToken net e =
  (profilesOutcome codec (kiroOutcome (net (calls e) req)), addCall req e).
Proof.
  unfold listProfiles, bind. rewrite makeKiroRequest_run. simpl.
  unfold profilesOutcome, ret.
  destruct (kiroOutcome _) as [body|err]; [|done].
  by destruct (unmarshalProfiles codec body).
Qed.

Lemma getUsageLimits_run codec ctx proxyURL accessToken profileArn net e :
  let req := kiroRequest ctx targetGetUsage accessToken
               (usagePayload profileArn) in
  getUsageLimits codec ctx proxyURL accessToken profileArn net e =
  (usageOutcome codec (kiroOutcome (net (calls e) req)), addCall req e).
Proof.
  unfold getUsageLimits, bind. rewrite makeKiroRequest_run. simpl.
  unfold usageOutcome, ret.
  destruct (kiroOutcome _) as [body|err]; [|done].
  by destruct (unmarshalUsage codec body).
Qed.

(** Lines 80-89 on each of their four paths. *)
Lemma resolveProfileArn_stored codec ctx proxyURL accessToken profileArn net e :
  profileArn ≠ "" →
  resolveProfileArn codec ctx proxyURL accessToken profileArn net e =
  (profileArn, e).
Proof. intros Hne. unfold resolveProfileArn. by rewrite decide_False. Qed.

Lemma resolveProfileArn_discover codec ctx proxyURL accessToken net e :
  let req := kiroRequest ctx targetListProfiles accessToken ∅ in
  resolveProfileArn codec ctx proxyURL accessToken "" net e =
  match profilesOutcome codec (kiroOutcome (net (calls e) req)) with
  | Err err =>
      ("", addLog (Warnf ("kiro quota: failed to list profiles: " +:+ err))
             (addCall req e))
  | Ok (arn :: _) =>
      (arn, addLog (Debugf ("kiro quota: resolved profile ARN: " +:+ arn))
              (addCall req e))
  | Ok [] => ("", addCall req e)
  end.
Proof.
  unfold resolveProfileArn. rewrite decide_True by done.
  unfold bind. rewrite listProfiles_run. simpl.
  by destruct (profilesOutcome _ _) as [[|arn arns]|err].
Qed.

(** *** The checks before any network call *)

(** C1. Both handlers answer an empty [auth_id] with 400
    [auth_id is required] before the store is asked and before any request
    is sent; when the store has no record they answer 404 [auth not found];
    when the record's metadata has no [access_token] they answer 400 with
    a message about the missing token. The three answers differ pairwise
    as told (404 against 400, and the message), and in all three cases no
    request goes out. *)
Theorem quota_prechecks (codec : Codec) (net : Network) (h : Handler)
    (c : GinContext) :
  let id := Query c "auth_id" in
  let kiro := exec net (GetKiroQuota codec h c) in
  let copilot := exec net (GetCopilotQuota codec h c) in
  let invalid := JSON StatusBadRequest (errorH "auth_id is required") in
  let notFound := JSON StatusNotFound (errorH "auth not found") in
  let kiroNoToken :=
    JSON StatusBadRequest (errorH "access_token not found in auth data") in
  let copilotNoToken :=
    JSON StatusBadRequest (errorH "no access token found in auth") in
  (id = "" → kiro = (invalid, noEffects) ∧ copilot = (invalid, noEffects)) ∧
  (∀ mgr, id ≠ "" → authManager h = Some mgr →
     (mgr id).2 = false ∨ (mgr id).1 = None →
     kiro = (notFound, afterLookup id) ∧ copilot = (notFound, afterLookup id)) ∧
  (∀ mgr auth, id ≠ "" → authManager h = Some mgr →
     mgr id = (Some auth, true) →
     metadataIndex auth "access_token" = None →
     kiro = (kiroNoToken, afterLookup id) ∧
     copilot = (copilotNoToken, afterLookup id)) ∧
  calls noEffects = [] ∧ lookups noEffects = [] ∧ calls (afterLookup id) = [] ∧
  code notFound ≠ code invalid ∧
  code kiroNoToken ≠ code notFound ∧ code copilotNoToken ≠ code notFound ∧
  kiroNoToken ≠ invalid ∧ copilotNoToken ≠ invalid.
Proof.
  intros id kiro copilot invalid notFound kiroNoToken copilotNoToken.
  split; [|split; [|split]].
  - intros Hid. subst kiro copilot.
    unfold exec, GetKiroQuota, GetCopilotQuota. fold id.
    by rewrite !decide_True.
  - intros mgr Hid Hmgr Hmiss. subst kiro copilot.
    unfold exec, GetKiroQuota, GetCopilotQuota. fold id.
    rewrite !decide_False by done. rewrite Hmgr. unfold bind, GetByID.
    destruct (mgr id) as [[auth|] [|]]; simpl in *; try done;
      by destruct Hmiss.
  - intros mgr auth Hid Hmgr Hfound Htoken. subst kiro copilot.
    unfold exec, GetKiroQuota, GetCopilotQuota. fold id.
    rewrite !decide_False by done. rewrite Hmgr. unfold bind, GetByID.
    rewrite Hfound, Htoken. simpl.
    unfold metadataIndex in Htoken.
    destruct (Metadata auth) as [m|]; simpl in *; [|done].
    by rewrite Htoken.
  - repeat split; done.
Qed.

Lemma quota_prechecks_witness :
  exec sampleNet (GetKiroQuota sampleCodec sampleHandler noQuery) =
    (JSON 400 (errorH "auth_id is required"), noEffects) ∧
  exec sampleNet (GetCopilotQuota sampleCodec sampleHandler
                    (requestFor "nobody")) =
    (JSON 404 (errorH "auth not found"), afterLookup "nobody") ∧
  exec sampleNet (GetKiroQuota sampleCodec sampleHandler (requestFor "bare")) =
    (JSON 400 (errorH "access_token not found in auth data"),
     afterLookup "bare") ∧
  exec sampleNet (GetCopilotQuota sampleCodec sampleHandler
                    (requestFor "bare")) =
    (JSON 400 (errorH "no access token found in auth"), afterLookup "bare").
Proof.
  split; [|split; [|split]].
  - apply (quota_prechecks sampleCodec sampleNet sampleHandler noQuery).
    reflexivity.
  - apply (proj1 (proj2 (quota_prechecks sampleCodec sampleNet sampleHandler
                           (requestFor "nobody"))) sampleStore);
      [done|reflexivity|by left].
  - eapply (proj1 (proj2 (proj2 (quota_prechecks sampleCodec sampleNet
                                   sampleHandler (requestFor "bare"))))
              sampleStore); [done|reflexivity|reflexivity|reflexivity].
  - eapply (proj1 (proj2 (proj2 (quota_prechecks sampleCodec sampleNet
                                   sampleHandler (requestFor "bare"))))
              sampleStore); [done|reflexivity|reflexivity|reflexivity].
Defined.

(** *** Discovery, then the usage call *)

(** [GetKiroQuota] past its checks: the profile ARN is resolved in the
    effects left by the lookup, then the usage call is made. *)
Lemma GetKiroQuota_ready codec net h c mgr auth :
  Query c "auth_id" ≠ "" →
  authManager h = Some mgr →
  mgr (Query c "auth_id") = (Some auth, true) →
  tokenOf auth ≠ "" →
  let resolved :=
    resolveProfileArn codec (kiroContext c) (ProxyURL h) (tokenOf auth)
      (storedArn auth) net (afterLookup (Query c "auth_id")) in
  let req := usageRequest c auth resolved.1 in
  exec net (GetKiroQuota codec h c) =
  (kiroAnswer (usageOutcome codec (kiroOutcome (net (calls resolved.2) req))),
   addCall req resolved.2).
Proof.
  intros Hid Hmgr Hfound Htoken. cbv zeta.
  unfold exec, GetKiroQuota. rewrite decide_False by done. rewrite Hmgr.
  unfold bind at 1. unfold GetByID at 1. rewrite Hfound.
  fold (tokenOf auth) (storedArn auth) (kiroContext c).
  rewrite decide_False by done. unfold bind at 1.
  change (Build_Effects _ _ _) with (afterLookup (Query c "auth_id")).
  destruct (resolveProfileArn _ _ _ _ _ _ _) as [arn e]. simpl.
  unfold bind. rewrite getUsageLimits_run. simpl.
  unfold usageRequest. by destruct (usageOutcome _ _).
Qed.

Lemma usagePayload_arn profileArn :
  usagePayload profileArn !! "profileArn" =
  if decide (profileArn = "") then None else Some profileArn.
Proof.
  unfold usagePayload. destruct (decide (profileArn = "")) as [->|Hne].
  - reflexivity.
  - rewrite decide_True by done. by rewrite lookup_insert_eq.
Qed.

Lemma list_request_is_not_usage c auth profileArn :
  listRequest c auth ≠ usageRequest c auth profileArn.
Proof. unfold listRequest, usageRequest, kiroRequest. by intros [=]. Qed.

(** C2. Past the checks (a record with a non-empty token), [GetKiroQuota]
    sends the [ListProfiles] request exactly when the record holds no
    profile ARN. If that call returns a non-empty list, the usage call is
    made with its first element (which its payload carries as
    [profileArn] unless it is the empty string); if it fails, a warning is logged and the
    usage call is made with no profile ARN in its payload, and a usage
    call answered with 200 and a decodable body still gives a 200 answer. *)
Theorem kiro_discovery (codec : Codec) (net : Network) (h : Handler)
    (c : GinContext) (mgr : AuthManager) (auth : Auth) :
  Query c "auth_id" ≠ "" →
  authManager h = Some mgr →
  mgr (Query c "auth_id") = (Some auth, true) →
  tokenOf auth ≠ "" →
  let out := exec net (GetKiroQuota codec h c) in
  let discovery :=
    (exec net (listProfiles codec (kiroContext c) (ProxyURL h)
                 (tokenOf auth))).1 in
  (listRequest c auth ∈ calls out.2 ↔ storedArn auth = "") ∧
  (storedArn auth ≠ "" →
     calls out.2 = [usageRequest c auth (storedArn auth)]) ∧
  (storedArn auth = "" → ∀ arn arns, discovery = Ok (arn :: arns) →
     calls out.2 = [listRequest c auth; usageRequest c auth arn] ∧
     (arn ≠ "" → usagePayload arn !! "profileArn" = Some arn)) ∧
  (storedArn auth = "" → ∀ err, discovery = Err err →
     logs out.2 = [Warnf ("kiro quota: failed to list profiles: " +:+ err)] ∧
     calls out.2 = [listRequest c auth; usageRequest c auth ""] ∧
     usagePayload "" !! "profileArn" = None ∧
     ∀ body usage,
       net [listRequest c auth] (usageRequest c auth "") =
         Response StatusOK (ReadOK body) →
       unmarshalUsage codec body = Ok usage →
       out.1 = JSON StatusOK (JMap (kiroResponse usage))).
Proof.
  intros Hid Hmgr Hfound Htoken out discovery.
  assert (Hdiscovery : discovery =
            profilesOutcome codec (kiroOutcome (net [] (listRequest c auth)))).
  { subst discovery. unfold exec. by rewrite listProfiles_run. }
  assert (Hout : out = _) by apply (GetKiroQuota_ready codec net h c mgr auth
                                      Hid Hmgr Hfound Htoken).
  cbv zeta in Hout. clearbody out discovery.
  destruct (decide (storedArn auth = "")) as [Hstored|Hstored].
  - rewrite Hstored, resolveProfileArn_discover in Hout.
    fold (listRequest c auth) in Hout. simpl in Hout.
    rewrite <- Hdiscovery in Hout.
    split; [|split; [done|split]].
    + split; [done|intros _]. subst out.
      destruct discovery as [[|arn arns]|err]; simpl; set_solver.
    + intros _ arn arns Hd. subst out. rewrite Hd. split; [done|].
      intros Harn. rewrite usagePayload_arn. by rewrite decide_False.
    + intros _ err Hd. subst out. rewrite Hd. simpl.
      do 3 (split; [done|]). intros body usage Hnet Husage.
      rewrite Hnet. simpl. by rewrite Husage.
  - rewrite resolveProfileArn_stored in Hout by done. simpl in Hout.
    split; [|split; [|split]]; try done.
    + split; [|done]. subst out. simpl.
      intros [?%list_request_is_not_usage|[]%elem_of_nil]%elem_of_cons. done.
    + intros _. by subst out.
Qed.

Lemma kiro_discovery_witness :
  calls (exec sampleNet (GetKiroQuota sampleCodec sampleHandler
                           (requestFor "acct"))).2 =
    [ listRequest (requestFor "acct") acctAuth;
      usageRequest (requestFor "acct") acctAuth "arn-1" ] ∧
  calls (exec sampleNet (GetKiroQuota sampleCodec sampleHandler
                           (requestFor "full"))).2 =
    [ usageRequest (requestFor "full") fullAuth "arn-0" ] ∧
  calls (exec noDiscoveryNet (GetKiroQuota sampleCodec sampleHandler
                                (requestFor "acct"))).2 =
    [ listRequest (requestFor "acct") acctAuth;
      usageRequest (requestFor "acct") acctAuth "" ] ∧
  code (exec noDiscoveryNet (GetKiroQuota sampleCodec sampleHandler
                               (requestFor "acct"))).1 = StatusOK.
Proof.
  destruct (kiro_discovery sampleCodec sampleNet sampleHandler
              (requestFor "acct") sampleStore acctAuth)
    as (_ & _ & Hfirst & _); [done|reflexivity|reflexivity|done|].
  destruct (kiro_discovery sampleCodec sampleNet sampleHandler
              (requestFor "full") sampleStore fullAuth)
    as (_ & Hstored & _ & _); [done|reflexivity|reflexivity|done|].
  destruct (kiro_discovery sampleCodec noDiscoveryNet sampleHandler
              (requestFor "acct") sampleStore acctAuth)
    as (_ & _ & _ & Hfail); [done|reflexivity|reflexivity|done|].
  destruct (Hfail eq_refl "request failed: dial tcp: i/o timeout" eq_refl)
    as (_ & Hcalls & _ & Hanswer).
  split; [exact (proj1 (Hfirst eq_refl "arn-1" ["arn-2"] eq_refl))|].
  split; [apply Hstored; done|]. split; [exact Hcalls|].
  by rewrite (Hanswer "usage: no breakdown" _ eq_refl eq_refl).
Defined.

(** The spec's scenario: discovery returns [arn-1] and [arn-2], and the
    usage call carries [arn-1]. *)
Example discovery_first_arn :
  (reqBody <$> calls (exec sampleNet (GetKiroQuota sampleCodec sampleHandler
                                        (requestFor "acct"))).2) =
  [ Some ∅; Some (usagePayload "arn-1") ] ∧
  usagePayload "arn-1" !! "profileArn" = Some "arn-1".
Proof. split; reflexivity. Qed.

(** *** The response map *)

Lemma kiroResponse_fixed usage :
  kiroResponse usage !! "subscription_title" =
    Some (JString (SubscriptionTitle usage)) ∧
  kiroResponse usage !! "context_usage_percent" = Some (JNumber 0%float) ∧
  kiroResponse usage !! "monthly_context_limit" = Some (JNumber 100%float).
Proof.
  unfold kiroResponse. destruct (UsageBreakdownList usage) as [|first rest].
  - repeat split; reflexivity.
  - rewrite !lookup_insert_ne by done. repeat split; reflexivity.
Qed.

(** A 200 answer of [GetKiroQuota] carries the map built from a decoded
    usage result. *)
Lemma GetKiroQuota_success codec net h c :
  code (exec net (GetKiroQuota codec h c)).1 = StatusOK →
  ∃ usage,
    payload (exec net (GetKiroQuota codec h c)).1 = JMap (kiroResponse usage).
Proof.
  set (out := exec net (GetKiroQuota codec h c)).
  assert (Hout : out = exec net (GetKiroQuota codec h c)) by done.
  clearbody out. revert Hout.
  unfold exec, GetKiroQuota. case_decide; [by intros ->|].
  destruct (authManager h) as [mgr|]; [|by intros ->].
  unfold bind at 1. unfold GetByID at 1.
  destruct (mgr _) as [[auth|] [|]]; try by intros ->.
  case_decide; [by intros ->|]. unfold bind at 1.
  destruct (resolveProfileArn _ _ _ _ _ _ _) as [arn e].
  unfold bind. destruct (getUsageLimits _ _ _ _ _ _ _) as [[usage|err] e'].
  - intros -> _. by exists usage.
  - by intros ->.
Qed.

(** C3, as the code has it. The response map takes [credit_usage] and
    [monthly_credit_limit] from the first entry of the usage breakdown and
    from no other entry; when the breakdown is empty, [credit_usage],
    [monthly_credit_limit] and [context_usage_percent] are 0.0 while
    [monthly_context_limit] is 100.0. *)
Theorem kiro_normalisation (usage : kiroUsageResult) :
  let response := kiroResponse usage in
  (∀ first rest, UsageBreakdownList usage = first :: rest →
     response !! "credit_usage" =
       Some (JNumber (CurrentUsageWithPrecision first)) ∧
     response !! "monthly_credit_limit" =
       Some (JNumber (UsageLimitWithPrecision first))) ∧
  response = kiroResponse (onlyFirst usage) ∧
  (UsageBreakdownList usage = [] →
     response !! "credit_usage" = Some (JNumber 0%float) ∧
     response !! "monthly_credit_limit" = Some (JNumber 0%float) ∧
     response !! "context_usage_percent" = Some (JNumber 0%float) ∧
     response !! "monthly_context_limit" = Some (JNumber 100%float)).
Proof.
  intros response. subst response. unfold kiroResponse, onlyFirst. simpl.
  split; [|split].
  - intros first rest ->. split.
    + rewrite lookup_insert_ne by done. by rewrite lookup_insert_eq.
    + by rewrite lookup_insert_eq.
  - by destruct (UsageBreakdownList usage).
  - intros ->. repeat split; reflexivity.
Qed.

Lemma kiro_normalisation_witness :
  ∃ m,
    (exec sampleNet (GetKiroQuota sampleCodec sampleHandler
                       (requestFor "acct"))).1 = JSON StatusOK (JMap m) ∧
    m !! "credit_usage" = Some (JNumber 12.5%float) ∧
    m !! "monthly_credit_limit" = Some (JNumber 50%float).
Proof.
  exists (kiroResponse proUsage). split; [reflexivity|].
  exact (proj1 (kiro_normalisation proUsage) _ _ eq_refl).
Defined.

(** C3, as the specification words it, fails: with no usage breakdown in the
    provider's answer the numeric field [monthly_context_limit] of the
    200 answer is 100.0, not zero. *)
Lemma context_limit_defaults_to_100 :
  ∃ m,
    (exec noDiscoveryNet (GetKiroQuota sampleCodec sampleHandler
                            (requestFor "acct"))).1 = JSON StatusOK (JMap m) ∧
    m !! "credit_usage" = Some (JNumber 0%float) ∧
    m !! "monthly_context_limit" = Some (JNumber 100%float) ∧
    100%float ≠ 0%float.
Proof.
  eexists. do 3 (split; [reflexivity|]). intros Heq.
  apply (f_equal (λ x, PrimFloat.eqb x 0%float)) in Heq.
  vm_compute in Heq. discriminate Heq.
Qed.

(** C9. Whenever [GetKiroQuota] answers 200, the answer has
    [context_usage_percent] at 0.0 and [monthly_context_limit] at 100.0,
    whatever the provider sent. *)
Theorem kiro_context_fields_fixed (codec : Codec) (net : Network)
    (h : Handler) (c : GinContext) :
  code (exec net (GetKiroQuota codec h c)).1 = StatusOK →
  ∃ m,
    payload (exec net (GetKiroQuota codec h c)).1 = JMap m ∧
    m !! "context_usage_percent" = Some (JNumber 0%float) ∧
    m !! "monthly_context_limit" = Some (JNumber 100%float).
Proof.
  intros (usage & Hpayload)%GetKiroQuota_success.
  exists (kiroResponse usage). split; [done|]. apply kiroResponse_fixed.
Qed.

Lemma kiro_context_fields_fixed_witness :
  ∃ m,
    payload (exec sampleNet (GetKiroQuota sampleCodec sampleHandler
                               (requestFor "acct"))).1 = JMap m ∧
    m !! "credit_usage" = Some (JNumber 12.5%float) ∧
    m !! "context_usage_percent" = Some (JNumber 0%float) ∧
    m !! "monthly_context_limit" = Some (JNumber 100%float).
Proof.
  destruct (kiro_context_fields_fixed sampleCodec sampleNet sampleHandler
              (requestFor "acct") eq_refl) as (m & Hm & Hpercent & Hlimit).
  exists m. split; [exact Hm|]. split; [|by split].
  injection Hm as <-. reflexivity.
Defined.

(** *** The Copilot adapter *)

Lemma append_assoc (a b c : string) : (a +:+ b) +:+ c = a +:+ (b +:+ c).
Proof.
  induction a as [|x a IH]; [done|].
  change (String x ((a +:+ b) +:+ c) = String x (a +:+ (b +:+ c))).
  by rewrite IH.
Qed.

Lemma append_empty_r (a : string) : a +:+ "" = a.
Proof.
  induction a as [|x a IH]; [done|].
  change (String x (a +:+ "") = String x a). by rewrite IH.
Qed.

Lemma fetchCopilotUsage_run codec token net :
  exec net (fetchCopilotUsage codec token) =
  (match net [] (copilotRequest token) with
   | TransportError err => Err ("request failed: " +:+ err)
   | Response _ (ReadError err) => Err ("failed to read response: " +:+ err)
   | Response StatusCode (ReadOK body) =>
       if decide (StatusCode ≠ StatusOK)
       then Err ("API returned status " +:+ fmt_d StatusCode +:+ ": " +:+ body)
       else match unmarshalCopilot codec body with
            | Err err => Err ("failed to parse response: " +:+ err)
            | Ok usage => Ok usage
            end
   end, addCall (copilotRequest token) noEffects).
Proof.
  unfold exec, fetchCopilotUsage, bind, roundTrip. simpl.
  destruct (net _ _) as [err|status [err|body]]; try done.
  case_decide; [done|]. by destruct (unmarshalCopilot codec body).
Qed.

(** C5. When the Copilot endpoint answers with a status other than 200
    and a body that can be read, [fetchCopilotUsage] fails with
    [API returned status <code>: <body>], which holds the status in
    decimal and the body as sent; when it answers 200 with a body that
    does not decode, it fails with [failed to parse response: ...], a
    different message. *)
Theorem copilot_failure_detail (codec : Codec) (net : Network)
    (token : string) (StatusCode : Z) (body : string) :
  net [] (copilotRequest token) = Response StatusCode (ReadOK body) →
  let r := (exec net (fetchCopilotUsage codec token)).1 in
  let rejected :=
    "API returned status " +:+ fmt_d StatusCode +:+ ": " +:+ body in
  (StatusCode ≠ StatusOK →
     r = Err rejected ∧
     contains (fmt_d StatusCode) rejected ∧ contains body rejected) ∧
  (StatusCode = StatusOK → ∀ err, unmarshalCopilot codec body = Err err →
     r = Err ("failed to parse response: " +:+ err) ∧
     "failed to parse response: " +:+ err ≠ rejected).
Proof.
  intros Hnet r rejected. subst r. rewrite fetchCopilotUsage_run, Hnet. simpl.
  split.
  - intros Hstatus. rewrite decide_True by done. split; [done|]. split.
    + by exists "API returned status ", (": " +:+ body).
    + exists ("API returned status " +:+ fmt_d StatusCode +:+ ": "), "".
      subst rejected. by rewrite append_empty_r, !append_assoc.
  - intros Hstatus err Herr. rewrite decide_False by (by intros []).
    rewrite Herr. split; [done|]. subst rejected. intros Heq.
    vm_compute in Heq. discriminate Heq.
Qed.

Lemma copilot_failure_detail_witness :
  (exec rateLimitedNet (fetchCopilotUsage sampleCodec "abc")).1 =
    Err "API returned status 429: rate limited" ∧
  contains "429" "API returned status 429: rate limited" ∧
  contains "rate limited" "API returned status 429: rate limited".
Proof.
  apply (copilot_failure_detail sampleCodec rateLimitedNet "abc" 429
           "rate limited" eq_refl). done.
Defined.

(** The handler passes the message on in a 500 answer. *)
Example copilot_rate_limited :
  (exec rateLimitedNet (GetCopilotQuota sampleCodec sampleHandler
                          (requestFor "acct"))).1 =
  JSON StatusInternalServerError
    (errorH "failed to fetch usage: API returned status 429: rate limited").
Proof. reflexivity. Qed.

(** *** The context of the outbound requests *)

Lemma resolveProfileArn_calls codec ctx proxyURL accessToken profileArn net e :
  ∃ sent,
    calls (resolveProfileArn codec ctx proxyURL accessToken profileArn net e).2
      = (calls e ++ sent)%list ∧
    Forall (λ req, reqContext req = ctx) sent.
Proof.
  destruct (decide (profileArn = "")) as [->|Hne].
  - rewrite resolveProfileArn_discover.
    exists [kiroRequest ctx targetListProfiles accessToken ∅].
    split; [|by repeat constructor].
    by destruct (profilesOutcome _ _) as [[|arn arns]|err].
  - rewrite resolveProfileArn_stored by done. exists [].
    split; [by rewrite app_nil_r|constructor].
Qed.

(** Every request of [GetKiroQuota] carries the context made at line 77
    from the context of the inbound request. *)
Lemma kiro_requests_follow_caller codec net h c :
  Forall (λ req, reqContext req = kiroContext c ∧
                 derivedFrom (RequestContext (requestID c)) (reqContext req)
                 = true)
    (calls (exec net (GetKiroQuota codec h c)).2).
Proof.
  assert (Hderived : ∀ req, reqContext req = kiroContext c →
            reqContext req = kiroContext c ∧
            derivedFrom (RequestContext (requestID c)) (reqContext req) = true).
  { intros req Hreq. split; [done|]. rewrite Hreq. simpl.
    by rewrite (bool_decide_eq_true_2 (RequestContext _ = _)) by done. }
  unfold exec, GetKiroQuota. case_decide; [constructor|].
  destruct (authManager h) as [mgr|]; [|constructor].
  unfold bind at 1. unfold GetByID at 1.
  destruct (mgr _) as [[auth|] [|]]; try constructor.
  case_decide; [constructor|]. unfold bind at 1.
  fold (kiroContext c).
  destruct (resolveProfileArn_calls codec (kiroContext c) (ProxyURL h)
              (assertString (metadataIndex auth "access_token")).1
              (assertString (metadataIndex auth "profile_arn")).1 net
              {| lookups := [Query c "auth_id"]; calls := []; logs := [] |})
    as (sent & Hcalls & Hsent).
  destruct (resolveProfileArn _ _ _ _ _ _ _) as [arn e]. simpl in Hcalls.
  unfold bind. rewrite getUsageLimits_run. simpl.
  assert (Hall : Forall (λ req, reqContext req = kiroContext c)
                   (calls e ++ [kiroRequest (kiroContext c) targetGetUsage
                      (assertString (metadataIndex auth "access_token")).1
                      (usagePayload arn)])%list).
  { rewrite Hcalls. apply Forall_app. split; [done|by repeat constructor]. }
  destruct (usageOutcome _ _); simpl;
    (eapply Forall_impl; [exact Hall|exact Hderived]).
Qed.

(** Every request of [GetCopilotQuota] carries the background context,
    which the context of the inbound request does not reach. *)
Lemma copilot_requests_ignore_caller codec net h c :
  Forall (λ req, reqContext req = Background ∧
                 derivedFrom (RequestContext (requestID c)) (reqContext req)
                 = false)
    (calls (exec net (GetCopilotQuota codec h c)).2).
Proof.
  unfold exec, GetCopilotQuota. case_decide; [constructor|].
  destruct (authManager h) as [mgr|]; [|constructor].
  unfold bind at 1. unfold GetByID at 1.
  destruct (mgr _) as [[auth|] [|]]; try constructor.
  case_decide; [constructor|]. unfold bind, fetchCopilotUsage, bind, roundTrip.
  simpl.
  destruct (net _ _) as [err|status [err|body]]; simpl;
    try (by repeat constructor).
  case_decide; simpl; [by repeat constructor|].
  destruct (unmarshalCopilot codec body); simpl; by repeat constructor.
Qed.

(** C4 at a concrete call. [GetCopilotQuota], asked for the quota of
    [acct] by inbound request 7, sends one request; that request carries
    [context.Background()], which cancelling the inbound request does not
    cancel, under the client's own timeout of 30 seconds. On the same
    input each request of [GetKiroQuota] carries a context derived from
    the one of the inbound request. *)
Theorem copilot_call_ignores_caller :
  let c := requestFor "acct" in
  let copilot := exec sampleNet (GetCopilotQuota sampleCodec sampleHandler c) in
  let kiro := exec sampleNet (GetKiroQuota sampleCodec sampleHandler c) in
  copilot.1 = JSON StatusOK (JCopilot individualUsage) ∧
  calls copilot.2 = [copilotRequest "abc"] ∧
  reqContext (copilotRequest "abc") = Background ∧
  reqTimeout (copilotRequest "abc") = 30%Z ∧
  derivedFrom (RequestContext (requestID c))
    (reqContext (copilotRequest "abc")) = false ∧
  (reqContext <$> calls kiro.2) =
    [ WithTimeout (RequestContext (requestID c)) 30;
      WithTimeout (RequestContext (requestID c)) 30 ] ∧
  derivedFrom (RequestContext (requestID c))
    (WithTimeout (RequestContext (requestID c)) 30) = true.
Proof. repeat split; reflexivity. Qed.

End QuotaFacts.

(** ** More on the registry: what a lookup returns, and how it relates
    to the channel listings *)
Module RegistryMore.
Import GoStrings Registry RegistryFacts.

Lemma scanModels_Some modelID models m :
  scanModels modelID models = Some m → Some m ∈ models ∧ ID m = modelID.
Proof.
  induction models as [|[m'|] models IH]; simpl; [done| |].
  - case_decide as Hid.
    + intros [= ->]. split; [left|done].
    + intros [Hin ?]%IH. split; [by right|done].
  - intros [Hin ?]%IH. split; [by right|done].
Qed.

Lemma scanTables_Some modelID tables m :
  scanTables modelID tables = Some m →
  ∃ t, t ∈ tables ∧ Some m ∈ t ∧ ID m = modelID.
Proof.
  induction tables as [|t tables IH]; simpl; [done|].
  destruct (scanModels modelID t) as [m'|] eqn:Hscan.
  - intros [= ->]. apply scanModels_Some in Hscan as [? ?].
    exists t. split; [left|done].
  - intros (t' & Ht' & ?)%IH. exists t'. split; [by right|done].
Qed.

Lemma scanTables_None modelID tables :
  scanTables modelID tables = None ↔
  ∀ t m, t ∈ tables → Some m ∈ t → ID m ≠ modelID.
Proof.
  split; [|apply scanTables_miss].
  intros Hnone t m Ht Hm Hid.
  apply list_elem_of_split in Ht as (before & after & ->).
  induction before as [|t' before IH]; simpl in Hnone.
  - apply list_elem_of_split in Hm as (front & back & ->).
    assert (∃ m', scanModels modelID (front ++ Some m :: back) = Some m')
      as [m' Hm'].
    { clear Hnone. induction front as [|[x|] front IHf]; simpl.
      - rewrite decide_True by done. eauto.
      - case_decide; eauto.
      - done. }
    by rewrite Hm' in Hnone.
  - destruct (scanModels modelID t'); [done|]. by apply IH.
Qed.

(** X1. A lookup answers with a descriptor of the identifier asked for: one
    of a table, or the one built from the antigravity configuration when
    no table defines the identifier. *)
Theorem lookup_sound (d : StaticData) (modelID : string) (m : ModelInfo) :
  LookupStaticModelInfo d modelID = Some m →
  ID m = modelID ∧ modelID ≠ "" ∧
  ((∃ t, t ∈ allModels d ∧ Some m ∈ t) ∨
   (∃ entry,
      cfgIndex (GetAntigravityModelConfig d) modelID = Some entry ∧
      m = antigravityFallback modelID entry ∧
      ∀ t m', t ∈ allModels d → Some m' ∈ t → ID m' ≠ modelID)).
Proof.
  unfold LookupStaticModelInfo. case_decide as Hne; [done|].
  destruct (scanTables modelID (allModels d)) as [m'|] eqn:Hscan.
  - intros [= ->]. apply scanTables_Some in Hscan as (t & Ht & Hm & Hid).
    split; [done|]. split; [done|]. left. by exists t.
  - destruct (cfgIndex _ _) as [entry|] eqn:Hcfg; [|done].
    intros [= <-]. split; [done|]. split; [done|]. right.
    exists entry. split; [done|]. split; [done|]. by apply scanTables_None.
Qed.

Lemma lookup_sound_witness :
  ID (sampleModel "shared" "anthropic") = "shared" ∧
  ∃ t, t ∈ allModels sampleData ∧ Some (sampleModel "shared" "anthropic") ∈ t.
Proof.
  destruct (lookup_sound sampleData "shared" (sampleModel "shared" "anthropic")
              eq_refl) as (Hid & _ & [Htable|(entry & _ & Hfallback & _)]).
  - by split.
  - discriminate Hfallback.
Defined.

(** X2. A lookup fails exactly for the empty identifier and for an identifier
    that no table defines and that the antigravity configuration does not
    map to an entry (the key is missing or its entry is nil). *)
Theorem lookup_none_iff (d : StaticData) (modelID : string) :
  LookupStaticModelInfo d modelID = None ↔
  modelID = "" ∨
  ((∀ t m, t ∈ allModels d → Some m ∈ t → ID m ≠ modelID) ∧
   (GetAntigravityModelConfig d !! modelID = None ∨
    GetAntigravityModelConfig d !! modelID = Some None)).
Proof.
  unfold LookupStaticModelInfo, cfgIndex. case_decide as Hne; [by split; eauto|].
  rewrite <- scanTables_None.
  destruct (scanTables modelID (allModels d)) as [m'|].
  - split; [done|]. by intros [?|[? _]].
  - destruct (GetAntigravityModelConfig d !! modelID) as [[entry|]|]; simpl.
    + split; [done|]. by intros [?|[_ [?|?]]].
    + split; [|done]. intros _. right. by split; [|right].
    + split; [|done]. intros _. right. by split; [|left].
Qed.

Lemma table_member_found d t m :
  t ∈ allModels d → Some m ∈ t → ID m ≠ "" →
  ∃ m', LookupStaticModelInfo d (ID m) = Some m' ∧ ID m' = ID m.
Proof.
  intros Ht Hm Hne. unfold LookupStaticModelInfo.
  rewrite decide_False by done.
  destruct (scanTables (ID m) (allModels d)) as [m'|] eqn:Hscan.
  - exists m'. split; [done|].
    by apply scanTables_Some in Hscan as (_ & _ & _ & ?).
  - by destruct (proj1 (scanTables_None _ _) Hscan t m Ht Hm).
Qed.

(** X3. Whatever a channel lists under a non-empty identifier, a lookup of
    that identifier finds a descriptor with the same identifier (not
    always the listed one: an earlier table may define the identifier
    too). *)
Theorem listed_models_are_found (d : StaticData)
    (visit : list (string * option AntigravityModelConfig))
    (channel : string) (m : ModelInfo) :
  range_of (GetAntigravityModelConfig d) visit →
  Some m ∈ GetStaticModelDefinitionsByChannel d visit channel →
  ID m ≠ "" →
  ∃ m', LookupStaticModelInfo d (ID m) = Some m' ∧ ID m' = ID m.
Proof.
  intros Hvisit Hlisted Hne.
  assert (Htable : ∀ t, t ∈ allModels d → Some m ∈ t →
            ∃ m', LookupStaticModelInfo d (ID m) = Some m' ∧ ID m' = ID m)
    by (intros t ? ?; by apply (table_member_found d t)).
  unfold GetStaticModelDefinitionsByChannel in Hlisted.
  unfold allModels in Htable.
  repeat (case_decide as Hkey;
          [solve [eapply Htable; [|exact Hlisted];
                  repeat first [apply list_elem_of_here
                               |apply list_elem_of_further]]
          |clear Hkey]).
  case_decide as Hkey; [|by apply elem_of_nil in Hlisted].
  case_decide; [by apply elem_of_nil in Hlisted|].
  rewrite GoSortFacts.Slice_perm in Hlisted.
  apply (elem_of_antigravity _ _ _ Hvisit) in Hlisted
    as (k & entry & Hk & _ & [= ->]). simpl in *.
  unfold LookupStaticModelInfo. rewrite decide_False by done.
  destruct (scanTables k (allModels d)) as [m'|] eqn:Hscan.
  - exists m'. split; [done|].
    by apply scanTables_Some in Hscan as (_ & _ & _ & ?).
  - unfold cfgIndex. rewrite Hk. simpl. by eexists.
Qed.

Lemma listed_models_are_found_witness :
  Some (sampleModel "shared" "google") ∈
    GetStaticModelDefinitionsByChannel sampleData sampleVisit "gemini" ∧
  ∃ m', LookupStaticModelInfo sampleData "shared" = Some m' ∧
        ID m' = "shared" ∧ OwnedBy m' = "anthropic".
Proof.
  assert (Hin : Some (sampleModel "shared" "google") ∈
            GetStaticModelDefinitionsByChannel sampleData sampleVisit "gemini")
    by (simpl; left).
  split; [exact Hin|].
  destruct (listed_models_are_found sampleData sampleVisit "gemini"
              (sampleModel "shared" "google") sampleVisit_range Hin)
    as (m' & Hm' & Hid); [done|].
  exists m'. split; [exact Hm'|]. split; [exact Hid|].
  injection Hm' as <-. reflexivity.
Defined.

Lemma omap_antigravity_ids visit :
  (idOf <$> omap antigravityEntry visit) `sublist_of` visit.*1.
Proof.
  induction visit as [|[k [entry|]] visit IH]; simpl; [done| |].
  - case_decide; simpl; [by apply sublist_cons|by apply sublist_skip].
  - by apply sublist_cons.
Qed.

(** X4. The antigravity listing names every identifier once, and has at most
    as many elements as the configuration has keys. *)
Theorem antigravity_ids_unique (d : StaticData)
    (visit : list (string * option AntigravityModelConfig)) (channel : string) :
  range_of (GetAntigravityModelConfig d) visit →
  ToLower (TrimSpace channel) = "antigravity" →
  NoDup (idOf <$> GetStaticModelDefinitionsByChannel d visit channel) ∧
  (length (GetStaticModelDefinitionsByChannel d visit channel) ≤
     size (GetAntigravityModelConfig d))%nat.
Proof.
  intros Hvisit Hkey. rewrite (antigravity_branch d visit channel Hvisit Hkey).
  rewrite GoSortFacts.Slice_perm.
  pose proof (omap_antigravity_ids visit) as Hsub.
  split.
  - eapply sublist_NoDup; [|exact Hsub]. red in Hvisit. rewrite Hvisit.
    apply NoDup_fst_map_to_list.
  - apply sublist_length in Hsub. rewrite !length_fmap in Hsub.
    red in Hvisit. rewrite <- length_map_to_list, <- Hvisit. exact Hsub.
Qed.

Lemma antigravity_ids_unique_witness :
  NoDup (idOf <$> GetStaticModelDefinitionsByChannel collidingData upperFirst
                    "antigravity") ∧
  (length (GetStaticModelDefinitionsByChannel collidingData upperFirst
             "antigravity") ≤ 2)%nat.
Proof.
  exact (antigravity_ids_unique collidingData upperFirst "antigravity"
           upperFirst_range eq_refl).
Defined.

End RegistryMore.

(** ** More on the quota handlers: every path, no retry, the failures of
    the usage call *)
Module QuotaMore.
Import Quota QuotaFacts QuotaWorlds.

(** The token [GetCopilotQuota] reads is the one [GetKiroQuota] reads. *)
Lemma copilot_token auth :
  match Metadata auth with
  | Some m => (assertString (m !! "access_token")).1
  | None => ""
  end = tokenOf auth.
Proof. unfold tokenOf, metadataIndex. by destruct (Metadata auth). Qed.

(** The five ways through [GetKiroQuota]. *)
Lemma GetKiroQuota_paths codec net h c :
  let id := Query c "auth_id" in
  let out := exec net (GetKiroQuota codec h c) in
  (id = "" ∧
   out = (JSON StatusBadRequest (errorH "auth_id is required"), noEffects)) ∨
  (id ≠ "" ∧ authManager h = None ∧
   out = (JSON StatusInternalServerError (errorH "auth manager not available"),
          noEffects)) ∨
  (∃ mgr, id ≠ "" ∧ authManager h = Some mgr ∧
     ((mgr id).1 = None ∨ (mgr id).2 = false) ∧
     out = (JSON StatusNotFound (errorH "auth not found"), afterLookup id)) ∨
  (∃ mgr auth, id ≠ "" ∧ authManager h = Some mgr ∧
     mgr id = (Some auth, true) ∧ tokenOf auth = "" ∧
     out = (JSON StatusBadRequest
              (errorH "access_token not found in auth data"),
            afterLookup id)) ∨
  (∃ mgr auth, id ≠ "" ∧ authManager h = Some mgr ∧
     mgr id = (Some auth, true) ∧ tokenOf auth ≠ "" ∧
     let resolved :=
       resolveProfileArn codec (kiroContext c) (ProxyURL h) (tokenOf auth)
         (storedArn auth) net (afterLookup id) in
     let req := usageRequest c auth resolved.1 in
     out = (kiroAnswer
              (usageOutcome codec (kiroOutcome (net (calls resolved.2) req))),
            addCall req resolved.2)).
Proof.
  intros id out.
  destruct (decide (id = "")) as [Hid|Hid].
  { left. split; [done|]. subst out. unfold exec, GetKiroQuota. fold id.
    by rewrite decide_True. }
  right. destruct (authManager h) as [mgr|] eqn:Hmgr.
  2: { left. do 2 (split; [done|]). subst out. unfold exec, GetKiroQuota.
       fold id. rewrite decide_False by done. by rewrite Hmgr. }
  right. destruct (mgr id) as [[auth|] found] eqn:Hfound.
  2: { left. exists mgr. do 2 (split; [done|]). rewrite Hfound.
       split; [by left|]. subst out. unfold exec, GetKiroQuota. fold id.
       rewrite decide_False by done. rewrite Hmgr. unfold bind, GetByID.
       rewrite Hfound. by destruct found. }
  destruct found.
  2: { left. exists mgr. do 2 (split; [done|]). rewrite Hfound.
       split; [by right|]. subst out. unfold exec, GetKiroQuota. fold id.
       rewrite decide_False by done. rewrite Hmgr. unfold bind, GetByID.
       by rewrite Hfound. }
  right. destruct (decide (tokenOf auth = "")) as [Htoken|Htoken].
  { left. exists mgr, auth. do 4 (split; [done|]). subst out.
    unfold exec, GetKiroQuota. fold id. rewrite decide_False by done.
    rewrite Hmgr. unfold bind, GetByID. rewrite Hfound.
    fold (tokenOf auth). by rewrite decide_True. }
  right. exists mgr, auth. do 4 (split; [done|]).
  by apply (GetKiroQuota_ready codec net h c mgr auth).
Qed.

(** The five ways through [GetCopilotQuota]. *)
Lemma GetCopilotQuota_paths codec net h c :
  let id := Query c "auth_id" in
  let out := exec net (GetCopilotQuota codec h c) in
  (id = "" ∧
   out = (JSON StatusBadRequest (errorH "auth_id is required"), noEffects)) ∨
  (id ≠ "" ∧ authManager h = None ∧
   out = (JSON StatusInternalServerError (errorH "auth manager not available"),
          noEffects)) ∨
  (∃ mgr, id ≠ "" ∧ authManager h = Some mgr ∧
     ((mgr id).1 = None ∨ (mgr id).2 = false) ∧
     out = (JSON StatusNotFound (errorH "auth not found"), afterLookup id)) ∨
  (∃ mgr auth, id ≠ "" ∧ authManager h = Some mgr ∧
     mgr id = (Some auth, true) ∧ tokenOf auth = "" ∧
     out = (JSON StatusBadRequest (errorH "no access token found in auth"),
            afterLookup id)) ∨
  (∃ mgr auth, id ≠ "" ∧ authManager h = Some mgr ∧
     mgr id = (Some auth, true) ∧ tokenOf auth ≠ "" ∧
     out = (match (exec net (fetchCopilotUsage codec (tokenOf auth))).1 with
            | Err err =>
                JSON StatusInternalServerError
                  (errorH ("failed to fetch usage: " +:+ err))
            | Ok usage => JSON StatusOK (JCopilot usage)
            end,
            addCall (copilotRequest (tokenOf auth)) (afterLookup id))).
Proof.
  intros id out.
  destruct (decide (id = "")) as [Hid|Hid].
  { left. split; [done|]. subst out. unfold exec, GetCopilotQuota. fold id.
    by rewrite decide_True. }
  right. destruct (authManager h) as [mgr|] eqn:Hmgr.
  2: { left. do 2 (split; [done|]). subst out. unfold exec, GetCopilotQuota.
       fold id. rewrite decide_False by done. by rewrite Hmgr. }
  right. destruct (mgr id) as [[auth|] found] eqn:Hfound.
  2: { left. exists mgr. do 2 (split; [done|]). rewrite Hfound.
       split; [by left|]. subst out. unfold exec, GetCopilotQuota. fold id.
       rewrite decide_False by done. rewrite Hmgr. unfold bind, GetByID.
       rewrite Hfound. by destruct found. }
  destruct found.
  2: { left. exists mgr. do 2 (split; [done|]). rewrite Hfound.
       split; [by right|]. subst out. unfold exec, GetCopilotQuota. fold id.
       rewrite decide_False by done. rewrite Hmgr. unfold bind, GetByID.
       by rewrite Hfound. }
  right. destruct (decide (tokenOf auth = "")) as [Htoken|Htoken].
  { left. exists mgr, auth. do 4 (split; [done|]). subst out.
    unfold exec, GetCopilotQuota. fold id. rewrite decide_False by done.
    rewrite Hmgr. unfold bind, GetByID. rewrite Hfound, copilot_token.
    by rewrite decide_True. }
  right. exists mgr, auth. do 4 (split; [done|]). subst out.
  rewrite fetchCopilotUsage_run. simpl.
  unfold exec, GetCopilotQuota. fold id. rewrite decide_False by done.
  rewrite Hmgr. unfold bind at 1. unfold GetByID at 1.
  rewrite Hfound, copilot_token. rewrite decide_False by done.
  unfold bind at 1, fetchCopilotUsage, bind, roundTrip. simpl.
  destruct (net _ _) as [err|status [err|body]]; try done.
  case_decide; [done|]. by destruct (unmarshalCopilot codec body).
Qed.

(** X5. Every answer of either handler is 200 with the quota payload, or one
    of 400, 404 and 500 with a map holding the single key [error]. *)
Theorem handlers_answer_shape (codec : Codec) (net : Network) (h : Handler)
    (c : GinContext) :
  let kiro := (exec net (GetKiroQuota codec h c)).1 in
  let copilot := (exec net (GetCopilotQuota codec h c)).1 in
  ((code kiro = StatusOK ∧ ∃ usage, payload kiro = JMap (kiroResponse usage)) ∨
   (code kiro ∈ [StatusBadRequest; StatusNotFound; StatusInternalServerError] ∧
    ∃ msg, payload kiro = errorH msg)) ∧
  ((code copilot = StatusOK ∧ ∃ usage, payload copilot = JCopilot usage) ∨
   (code copilot ∈ [StatusBadRequest; StatusNotFound;
                    StatusInternalServerError] ∧
    ∃ msg, payload copilot = errorH msg)).
Proof.
  intros kiro copilot. split.
  - subst kiro.
    pose proof (GetKiroQuota_paths codec net h c) as Hpaths.
    cbv zeta in Hpaths. destruct Hpaths
      as [[_ ->]|[(_ & _ & ->)|[(mgr & _ & _ & _ & ->)|
          [(mgr & auth & _ & _ & _ & _ & ->)
          |(mgr & auth & _ & _ & _ & _ & ->)]]]]; simpl.
    + right. split; [by left|by eexists].
    + right. split; [by do 2 right; left|by eexists].
    + right. split; [by right; left|by eexists].
    + right. split; [by left|by eexists].
    + destruct (usageOutcome _ _) as [usage|err]; simpl.
      * left. split; [done|by eexists].
      * right. split; [by do 2 right; left|by eexists].
  - subst copilot.
    pose proof (GetCopilotQuota_paths codec net h c) as Hpaths.
    cbv zeta in Hpaths. destruct Hpaths
      as [[_ ->]|[(_ & _ & ->)|[(mgr & _ & _ & _ & ->)|
          [(mgr & auth & _ & _ & _ & _ & ->)
          |(mgr & auth & _ & _ & _ & _ & ->)]]]].
    + right. split; [by left|by eexists].
    + right. split; [by do 2 right; left|by eexists].
    + right. split; [by right; left|by eexists].
    + right. split; [by left|by eexists].
    + destruct ((exec net (fetchCopilotUsage codec (tokenOf auth))).1)
        as [usage|err]; simpl.
      * left. split; [done|by eexists].
      * right. split; [by do 2 right; left|by eexists].
Qed.

Lemma resolveProfileArn_shape codec ctx proxyURL accessToken profileArn net e :
  let resolved :=
    resolveProfileArn codec ctx proxyURL accessToken profileArn net e in
  lookups resolved.2 = lookups e ∧
  (calls resolved.2 = calls e ∨
   calls resolved.2 =
     (calls e ++ [kiroRequest ctx targetListProfiles accessToken ∅])%list).
Proof.
  destruct (decide (profileArn = "")) as [->|Hne]; cbv zeta.
  - rewrite resolveProfileArn_discover.
    destruct (profilesOutcome _ _) as [[|arn arns]|err]; simpl; auto.
  - rewrite resolveProfileArn_stored by done. auto.
Qed.

(** X6. Neither handler retries or fans out: each asks the store at most
    once; [GetKiroQuota] sends nothing, or one usage request, or one
    [ListProfiles] request followed by one usage request;
    [GetCopilotQuota] sends nothing or one request. *)
Theorem handlers_never_retry (codec : Codec) (net : Network) (h : Handler)
    (c : GinContext) :
  let kiro := (exec net (GetKiroQuota codec h c)).2 in
  let copilot := (exec net (GetCopilotQuota codec h c)).2 in
  (length (lookups kiro) ≤ 1)%nat ∧ (length (lookups copilot) ≤ 1)%nat ∧
  (calls kiro = [] ∨
   (∃ auth arn, calls kiro = [usageRequest c auth arn]) ∨
   (∃ auth arn, calls kiro = [listRequest c auth; usageRequest c auth arn])) ∧
  (calls copilot = [] ∨ ∃ token, calls copilot = [copilotRequest token]).
Proof.
  intros kiro copilot. subst kiro copilot.
  pose proof (GetKiroQuota_paths codec net h c) as Hkiro.
  pose proof (GetCopilotQuota_paths codec net h c) as Hcopilot.
  cbv zeta in Hkiro, Hcopilot.
  assert (Hk : (length (lookups (exec net (GetKiroQuota codec h c)).2) ≤ 1)%nat ∧
    (calls (exec net (GetKiroQuota codec h c)).2 = [] ∨
     (∃ auth arn, calls (exec net (GetKiroQuota codec h c)).2 =
                    [usageRequest c auth arn]) ∨
     (∃ auth arn, calls (exec net (GetKiroQuota codec h c)).2 =
                    [listRequest c auth; usageRequest c auth arn]))).
  { destruct Hkiro
      as [[_ ->]|[(_ & _ & ->)|[(mgr & _ & _ & _ & ->)|
          [(mgr & auth & _ & _ & _ & _ & ->)
          |(mgr & auth & _ & _ & _ & _ & ->)]]]]; simpl;
      try (split; [by repeat constructor|by left]).
    destruct (resolveProfileArn_shape codec (kiroContext c)
                (ProxyURL h) (tokenOf auth) (storedArn auth) net
                (afterLookup (Query c "auth_id"))) as [Hl [Hc|Hc]];
      rewrite Hl, Hc; simpl; (split; [by repeat constructor|]); right;
      [left|right]; by eexists auth, _. }
  assert (Hc : (length (lookups (exec net (GetCopilotQuota codec h c)).2) ≤ 1)%nat ∧
    (calls (exec net (GetCopilotQuota codec h c)).2 = [] ∨
     ∃ token, calls (exec net (GetCopilotQuota codec h c)).2 =
                [copilotRequest token])).
  { destruct Hcopilot
      as [[_ ->]|[(_ & _ & ->)|[(mgr' & _ & _ & _ & ->)|
          [(mgr' & auth' & _ & _ & _ & _ & ->)
          |(mgr' & auth' & _ & _ & _ & _ & ->)]]]]; simpl;
      try (split; [by repeat constructor|by left]).
    split; [by repeat constructor|]. right. by eexists. }
  tauto.
Qed.

(** X7. Past its checks, [GetKiroQuota] ends with the usage request, and its
    answer is read off what the network gives for that request: a
    transport error, an unreadable body, a status other than 200 and an
    undecodable body each give 500 with their own message after
    [failed to fetch usage: ]; only status 200 with a decodable body
    gives 200. What discovery did before changes none of this. *)
Theorem kiro_answer_follows_usage_call (codec : Codec) (net : Network)
    (h : Handler) (c : GinContext) (mgr : AuthManager) (auth : Auth) :
  Query c "auth_id" ≠ "" →
  authManager h = Some mgr →
  mgr (Query c "auth_id") = (Some auth, true) →
  tokenOf auth ≠ "" →
  let out := exec net (GetKiroQuota codec h c) in
  let failed cause :=
    JSON StatusInternalServerError
      (errorH ("failed to fetch usage: " +:+ cause)) in
  ∃ before arn,
    calls out.2 = (before ++ [usageRequest c auth arn])%list ∧
    match net before (usageRequest c auth arn) with
    | TransportError err => out.1 = failed ("request failed: " +:+ err)
    | Response _ (ReadError err) =>
        out.1 = failed ("failed to read response: " +:+ err)
    | Response status (ReadOK body) =>
        if decide (status = StatusOK) then
          match unmarshalUsage codec body with
          | Err err => out.1 = failed ("failed to parse usage response: " +:+ err)
          | Ok usage => out.1 = JSON StatusOK (JMap (kiroResponse usage))
          end
        else
          out.1 = failed ("API error (status " +:+ fmt_d status +:+ "): "
                          +:+ body)
    end.
Proof.
  intros Hid Hmgr Hfound Htoken out failed. subst out.
  rewrite (GetKiroQuota_ready codec net h c mgr auth Hid Hmgr Hfound Htoken).
  cbv zeta. simpl.
  destruct (resolveProfileArn _ _ _ _ _ _ _) as [arn e]. simpl.
  exists (calls e), arn. split; [done|].
  destruct (net _ _) as [err|status [err|body]]; simpl; [done..|].
  destruct (decide (status = StatusOK)) as [->|Hstatus].
  - simpl. by destruct (unmarshalUsage codec body).
  - by rewrite decide_True.
Qed.

Lemma kiro_answer_follows_usage_call_witness :
  (exec rateLimitedNet (GetKiroQuota sampleCodec sampleHandler
                          (requestFor "full"))).1 =
  JSON StatusInternalServerError
    (errorH "failed to fetch usage: API error (status 429): rate limited").
Proof.
  destruct (kiro_answer_follows_usage_call sampleCodec rateLimitedNet
              sampleHandler (requestFor "full") sampleStore fullAuth)
    as (before & arn & _ & Hanswer); [done|reflexivity|reflexivity|done|].
  exact Hanswer.
Defined.

(** X8. Past its checks, [GetCopilotQuota] sends the one request that carries
    the stored token, and its answer is read off what the network gives
    for it: every failure is a 500 with its own message after
    [failed to fetch usage: ], and status 200 with a decodable body gives
    200 with the decoded structure as it is. *)
Theorem copilot_answer_follows_call (codec : Codec) (net : Network)
    (h : Handler) (c : GinContext) (mgr : AuthManager) (auth : Auth) :
  Query c "auth_id" ≠ "" →
  authManager h = Some mgr →
  mgr (Query c "auth_id") = (Some auth, true) →
  tokenOf auth ≠ "" →
  let out := exec net (GetCopilotQuota codec h c) in
  let failed cause :=
    JSON StatusInternalServerError
      (errorH ("failed to fetch usage: " +:+ cause)) in
  calls out.2 = [copilotRequest (tokenOf auth)] ∧
  header "Authorization" (copilotRequest (tokenOf auth)) =
    "token " +:+ tokenOf auth ∧
  match net [] (copilotRequest (tokenOf auth)) with
  | TransportError err => out.1 = failed ("request failed: " +:+ err)
  | Response _ (ReadError err) =>
      out.1 = failed ("failed to read response: " +:+ err)
  | Response status (ReadOK body) =>
      if decide (status = StatusOK) then
        match unmarshalCopilot codec body with
        | Err err => out.1 = failed ("failed to parse response: " +:+ err)
        | Ok usage => out.1 = JSON StatusOK (JCopilot usage)
        end
      else
        out.1 = failed ("API returned status " +:+ fmt_d status +:+ ": "
                        +:+ body)
  end.
Proof.
  intros Hid Hmgr Hfound Htoken out failed. subst out.
  pose proof (GetCopilotQuota_paths codec net h c) as Hpaths.
  cbv zeta in Hpaths.
  destruct Hpaths
    as [[? _]|[(_ & ? & _)|[(mgr' & _ & Hmgr' & Hmiss & _)|
        [(mgr' & auth' & _ & Hmgr' & Hfound' & Htoken' & _)
        |(mgr' & auth' & _ & Hmgr' & Hfound' & _ & ->)]]]].
  - done.
  - congruence.
  - assert (mgr' = mgr) as -> by congruence. rewrite Hfound in Hmiss.
    by destruct Hmiss.
  - assert (mgr' = mgr) as -> by congruence.
    assert (auth' = auth) as -> by congruence. done.
  - assert (mgr' = mgr) as -> by congruence.
    assert (auth' = auth) as -> by congruence.
    rewrite fetchCopilotUsage_run. simpl. split; [done|]. split; [done|].
    destruct (net _ _) as [err|status [err|body]]; simpl; [done..|].
    destruct (decide (status = StatusOK)) as [->|Hstatus].
    + simpl. by destruct (unmarshalCopilot codec body).
    + by rewrite decide_True.
Qed.

Lemma copilot_answer_follows_call_witness :
  (exec garbageNet (GetCopilotQuota sampleCodec sampleHandler
                      (requestFor "acct"))).1 =
    JSON StatusInternalServerError
      (errorH "failed to fetch usage: failed to parse response: invalid character") ∧
  (exec downNet (GetCopilotQuota sampleCodec sampleHandler
                   (requestFor "acct"))).1 =
    JSON StatusInternalServerError
      (errorH "failed to fetch usage: request failed: connection refused").
Proof.
  split.
  - destruct (copilot_answer_follows_call sampleCodec garbageNet
                sampleHandler (requestFor "acct") sampleStore acctAuth)
      as (_ & _ & Hanswer); [done|reflexivity|reflexivity|done|].
    exact Hanswer.
  - destruct (copilot_answer_follows_call sampleCodec downNet
                sampleHandler (requestFor "acct") sampleStore acctAuth)
      as (_ & _ & Hanswer); [done|reflexivity|reflexivity|done|].
    exact Hanswer.
Defined.

(** X9. What [GetKiroQuota] logs, past its checks: nothing when the record
    holds a profile ARN and nothing when discovery returns an empty list
    (the usage request then goes out without [profileArn]); one debug
    line naming the ARN when discovery returns one. *)
Theorem kiro_discovery_logging (codec : Codec) (net : Network) (h : Handler)
    (c : GinContext) (mgr : AuthManager) (auth : Auth) :
  Query c "auth_id" ≠ "" →
  authManager h = Some mgr →
  mgr (Query c "auth_id") = (Some auth, true) →
  tokenOf auth ≠ "" →
  let out := exec net (GetKiroQuota codec h c) in
  let discovery :=
    (exec net (listProfiles codec (kiroContext c) (ProxyURL h)
                 (tokenOf auth))).1 in
  (storedArn auth ≠ "" → logs out.2 = []) ∧
  (storedArn auth = "" → discovery = Ok [] →
     logs out.2 = [] ∧
     calls out.2 = [listRequest c auth; usageRequest c auth ""] ∧
     usagePayload "" !! "profileArn" = None) ∧
  (storedArn auth = "" → ∀ arn arns, discovery = Ok (arn :: arns) →
     logs out.2 = [Debugf ("kiro quota: resolved profile ARN: " +:+ arn)]).
Proof.
  intros Hid Hmgr Hfound Htoken out discovery.
  assert (Hdiscovery : discovery =
            profilesOutcome codec (kiroOutcome (net [] (listRequest c auth)))).
  { subst discovery. unfold exec. by rewrite listProfiles_run. }
  assert (Hout : out = _) by apply (GetKiroQuota_ready codec net h c mgr auth
                                      Hid Hmgr Hfound Htoken).
  cbv zeta in Hout. clearbody out discovery.
  destruct (decide (storedArn auth = "")) as [Hstored|Hstored].
  - rewrite Hstored, resolveProfileArn_discover in Hout.
    fold (listRequest c auth) in Hout. simpl in Hout.
    rewrite <- Hdiscovery in Hout.
    split; [done|]. split.
    + intros _ Hd. subst out. by rewrite Hd.
    + intros _ arn arns Hd. subst out. by rewrite Hd.
  - rewrite resolveProfileArn_stored in Hout by done. simpl in Hout.
    split; [|done]. intros _. by subst out.
Qed.

Lemma kiro_discovery_logging_witness :
  logs (exec noProfilesNet (GetKiroQuota noProfilesCodec sampleHandler
                              (requestFor "acct"))).2 = [] ∧
  calls (exec noProfilesNet (GetKiroQuota noProfilesCodec sampleHandler
                               (requestFor "acct"))).2 =
    [ listRequest (requestFor "acct") acctAuth;
      usageRequest (requestFor "acct") acctAuth "" ] ∧
  logs (exec sampleNet (GetKiroQuota sampleCodec sampleHandler
                          (requestFor "acct"))).2 =
    [Debugf "kiro quota: resolved profile ARN: arn-1"].
Proof.
  destruct (kiro_discovery_logging noProfilesCodec noProfilesNet sampleHandler
              (requestFor "acct") sampleStore acctAuth)
    as (_ & Hempty & _); [done|reflexivity|reflexivity|done|].
  destruct (kiro_discovery_logging sampleCodec sampleNet sampleHandler
              (requestFor "acct") sampleStore acctAuth)
    as (_ & _ & Hfirst); [done|reflexivity|reflexivity|done|].
  destruct (Hempty eq_refl eq_refl) as (Hlogs & Hcalls & _).
  split; [exact Hlogs|]. split; [exact Hcalls|].
  exact (Hfirst eq_refl "arn-1" ["arn-2"] eq_refl).
Defined.

(** X10. An [access_token] that is not a string, or is the empty string, is
    treated like a missing one: both handlers answer 400 and send
    nothing. *)
Theorem token_must_be_nonempty_string (codec : Codec) (net : Network)
    (h : Handler) (c : GinContext) (mgr : AuthManager) (auth : Auth) :
  Query c "auth_id" ≠ "" →
  authManager h = Some mgr →
  mgr (Query c "auth_id") = (Some auth, true) →
  (∀ s, metadataIndex auth "access_token" = Some (VString s) → s = "") →
  exec net (GetKiroQuota codec h c) =
    (JSON StatusBadRequest (errorH "access_token not found in auth data"),
     afterLookup (Query c "auth_id")) ∧
  exec net (GetCopilotQuota codec h c) =
    (JSON StatusBadRequest (errorH "no access token found in auth"),
     afterLookup (Query c "auth_id")) ∧
  calls (afterLookup (Query c "auth_id")) = [].
Proof.
  intros Hid Hmgr Hfound Hnotoken.
  assert (Htoken : tokenOf auth = "").
  { unfold tokenOf.
    destruct (metadataIndex auth "access_token") as [[| | |s|]|] eqn:Hmeta;
      try done.
    simpl. by apply Hnotoken. }
  pose proof (GetKiroQuota_paths codec net h c) as Hkiro.
  pose proof (GetCopilotQuota_paths codec net h c) as Hcopilot.
  cbv zeta in Hkiro, Hcopilot.
  split; [|split; [|done]].
  - destruct Hkiro
      as [[? _]|[(_ & ? & _)|[(mgr' & _ & Hmgr' & Hmiss & _)|
          [(mgr' & auth' & _ & Hmgr' & Hfound' & Htoken' & Hout)
          |(mgr' & auth' & _ & Hmgr' & Hfound' & Htoken' & _)]]]].
    + done.
    + congruence.
    + assert (mgr' = mgr) as -> by congruence. rewrite Hfound in Hmiss.
      by destruct Hmiss.
    + exact Hout.
    + assert (mgr' = mgr) as -> by congruence.
      assert (auth' = auth) as -> by congruence. done.
  - destruct Hcopilot
      as [[? _]|[(_ & ? & _)|[(mgr' & _ & Hmgr' & Hmiss & _)|
          [(mgr' & auth' & _ & Hmgr' & Hfound' & Htoken' & Hout)
          |(mgr' & auth' & _ & Hmgr' & Hfound' & Htoken' & _)]]]].
    + done.
    + congruence.
    + assert (mgr' = mgr) as -> by congruence. rewrite Hfound in Hmiss.
      by destruct Hmiss.
    + exact Hout.
    + assert (mgr' = mgr) as -> by congruence.
      assert (auth' = auth) as -> by congruence. done.
Qed.

Lemma token_must_be_nonempty_string_witness :
  (exec sampleNet (GetKiroQuota sampleCodec oddHandler
                     (requestFor "numeric"))).1 =
    JSON StatusBadRequest (errorH "access_token not found in auth data") ∧
  (exec sampleNet (GetCopilotQuota sampleCodec oddHandler
                     (requestFor "empty"))).1 =
    JSON StatusBadRequest (errorH "no access token found in auth").
Proof.
  destruct (token_must_be_nonempty_string sampleCodec sampleNet oddHandler
              (requestFor "numeric") oddStore numericTokenAuth)
    as (Hkiro & _ & _); [done|reflexivity|reflexivity|by intros s [=]|].
  destruct (token_must_be_nonempty_string sampleCodec sampleNet oddHandler
              (requestFor "empty") oddStore emptyTokenAuth)
    as (_ & Hcopilot & _);
    [done|reflexivity|reflexivity|by intros s [= <-]|].
  split; [by rewrite Hkiro|by rewrite Hcopilot].
Defined.

(** X11. Without an auth manager both handlers answer 500 before they look
    anything up or send anything, unless [auth_id] is empty, which is
    answered with 400 first. *)
Theorem no_manager_is_500 (codec : Codec) (net : Network) (h : Handler)
    (c : GinContext) :
  authManager h = None →
  let answer :=
    if decide (Query c "auth_id" = "")
    then JSON StatusBadRequest (errorH "auth_id is required")
    else JSON StatusInternalServerError (errorH "auth manager not available") in
  exec net (GetKiroQuota codec h c) = (answer, noEffects) ∧
  exec net (GetCopilotQuota codec h c) = (answer, noEffects).
Proof.
  intros Hmgr answer. subst answer.
  unfold exec, GetKiroQuota, GetCopilotQuota. rewrite Hmgr.
  by case_decide.
Qed.

Lemma no_manager_is_500_witness :
  exec sampleNet (GetKiroQuota sampleCodec noManagerHandler
                    (requestFor "acct")) =
    (JSON StatusInternalServerError (errorH "auth manager not available"),
     noEffects) ∧
  exec sampleNet (GetCopilotQuota sampleCodec noManagerHandler noQuery) =
    (JSON StatusBadRequest (errorH "auth_id is required"), noEffects).
Proof.
  split.
  - exact (proj1 (no_manager_is_500 sampleCodec sampleNet noManagerHandler
                    (requestFor "acct") eq_refl)).
  - exact (proj2 (no_manager_is_500 sampleCodec sampleNet noManagerHandler
                    noQuery eq_refl)).
Defined.

(** X12. The response map of [GetKiroQuota] has the same five keys for every
    decoded usage result, and the reset date the provider sends is not
    among what it holds: two results that differ in [nextDateReset] only
    give the same map. *)
Theorem kiro_response_keys (usage : kiroUsageResult) (reset : float) :
  dom (kiroResponse usage) =
    ({[ "subscription_title"; "credit_usage"; "context_usage_percent";
        "monthly_credit_limit"; "monthly_context_limit" ]} : gset string) ∧
  kiroResponse usage =
  kiroResponse {| SubscriptionTitle := SubscriptionTitle usage;
                  UsageBreakdownList := UsageBreakdownList usage;
                  NextDateReset := reset |}.
Proof.
  split; [|done]. unfold kiroResponse.
  destruct (UsageBreakdownList usage) as [|first rest].
  - rewrite !dom_insert_L, dom_singleton_L. set_solver.
  - rewrite !dom_insert_L, dom_singleton_L. set_solver.
Qed.

End QuotaMore.

(** ** The tables the file holds *)
Module TablesFacts.
Import GoStrings Registry Tables.

(** X13. The GitHub Copilot table has 36 entries in ascending order of
    identifier. Its identifiers are not unique: [gpt-4] (entries 9 and 10)
    and [gpt-4-o-preview] (entries 13 and 14) are listed twice, which
    leaves 34 distinct identifiers. Two entries with the same identifier
    are equal field for field, so an identifier still stands for one
    descriptor. *)
Theorem copilot_table_ids :
  length GetGitHubCopilotModels = 36%nat ∧
  StronglySorted String.le (ids GetGitHubCopilotModels) ∧
  ids GetGitHubCopilotModels !! 9%nat = Some "gpt-4" ∧
  ids GetGitHubCopilotModels !! 10%nat = Some "gpt-4" ∧
  ids GetGitHubCopilotModels !! 13%nat = Some "gpt-4-o-preview" ∧
  ids GetGitHubCopilotModels !! 14%nat = Some "gpt-4-o-preview" ∧
  ¬ NoDup (ids GetGitHubCopilotModels) ∧
  length (remove_dups (ids GetGitHubCopilotModels)) = 34%nat ∧
  Forall (λ a, Forall (λ b, idOf a = idOf b → a = b) GetGitHubCopilotModels)
    GetGitHubCopilotModels.
Proof.
  split; [reflexivity|]. split.
  { apply Sorted_StronglySorted; [apply _|].
    apply (bool_decide_unpack _). vm_compute. exact I. }
  do 4 (split; [reflexivity|]). split.
  { intros Hnodup. apply (NoDup_lookup _ 9%nat 10%nat "gpt-4") in Hnodup;
      [discriminate Hnodup|reflexivity..]. }
  split; [by vm_compute|].
  apply (bool_decide_unpack _). vm_compute. exact I.
Qed.

(** X14. The Kiro and the Amazon Q table share no identifier and repeat none;
    every entry of either is owned by [aws] and routed as [kiro], with a
    window of 200000 and a completion cap of 64000 tokens. Every Kiro
    entry has the same thinking range, with zero and dynamic budgets
    allowed; no Amazon Q entry has thinking support. *)
Theorem kiro_family_tables :
  NoDup (ids GetKiroModels ++ ids GetAmazonQModels) ∧
  length GetKiroModels = 9%nat ∧ length GetAmazonQModels = 5%nat ∧
  Forall (λ entry, ∃ m, entry = Some m ∧
            OwnedBy m = "aws" ∧ Type_ m = "kiro" ∧
            ContextLength m = 200000%Z ∧ MaxCompletionTokens m = 64000%Z)
    (GetKiroModels ++ GetAmazonQModels) ∧
  Forall (λ entry, ∃ m, entry = Some m ∧
            Thinking m = Some {| Min := 1024; Max := 32000;
                                 ZeroAllowed := true; DynamicAllowed := true;
                                 Levels := [] |})
    GetKiroModels ∧
  Forall (λ entry, ∃ m, entry = Some m ∧ Thinking m = None) GetAmazonQModels.
Proof.
  split; [apply (bool_decide_unpack _); by vm_compute|].
  do 2 (split; [reflexivity|]).
  split; [|split]; repeat (constructor; [by eexists|]); constructor.
Qed.

Lemma wellFormed_Forall (table : list (option ModelInfo)) :
  forallb wellFormed table = true → Forall (λ e, wellFormed e = true) table.
Proof. rewrite forallb_forall, Forall_forall. intros H e ?%list_elem_of_In. auto. Qed.

(** What [wellFormed] checks, spelled out. *)
Lemma wellFormed_spec (entry : option ModelInfo) :
  wellFormed entry = true ↔
  ∃ m, entry = Some m ∧ ID m ≠ "" ∧ Object m = "model" ∧
       (0 < MaxCompletionTokens m ≤ ContextLength m)%Z ∧
       match Thinking m with
       | None => True
       | Some ts =>
           (Levels ts = [] ∧ (0 < Min ts < Max ts)%Z) ∨
           (Levels ts ≠ [] ∧ Min ts = 0%Z ∧ Max ts = 0%Z ∧
            ZeroAllowed ts = false ∧ DynamicAllowed ts = false)
       end.
Proof.
  destruct entry as [m|]; simpl; [|split; [done|by intros (? & ? & _)]].
  rewrite !andb_true_iff, negb_true_iff, String.eqb_neq, String.eqb_eq,
    bool_decide_eq_true.
  assert (Hshape : from_option oneShape true (Thinking m) = true ↔
            match Thinking m with
            | None => True
            | Some ts =>
                (Levels ts = [] ∧ (0 < Min ts < Max ts)%Z) ∨
                (Levels ts ≠ [] ∧ Min ts = 0%Z ∧ Max ts = 0%Z ∧
                 ZeroAllowed ts = false ∧ DynamicAllowed ts = false)
            end).
  { destruct (Thinking m) as [ts|]; simpl; [|done]. unfold oneShape.
    destruct (Levels ts) as [|level levels].
    - rewrite bool_decide_eq_true. split; [by left|]. by intros [[_ ?]|[? _]].
    - rewrite !andb_true_iff, !negb_true_iff, bool_decide_eq_true.
      split; [intros [[[? ?] ?] ?]; by right|].
      intros [[? _]|(_ & ? & ? & ? & ?)]; done. }
  rewrite Hshape. split.
  - intros [[[? ?] ?] ?]. by exists m.
  - intros (m' & [= <-] & ? & ? & ? & ?). done.
Qed.

(** X15. Every entry of the three tables is a non-nil [model] with a non-empty
    identifier, a positive completion cap that fits its context window,
    and, where it has thinking support, exactly one shape of it: a budget
    range with 0 < Min < Max and no levels, or a list of levels with no
    range and no flag. *)
Theorem tables_well_formed :
  Forall (λ entry, wellFormed entry = true)
    (GetGitHubCopilotModels ++ GetKiroModels ++ GetAmazonQModels).
Proof. apply wellFormed_Forall. by vm_compute. Qed.

(** X16. The channel dispatch knows none of the three tables: asked for the
    channel that an entry of them names as its own [Type], or as its
    owner, it returns nothing, whatever the other tables hold. *)
Theorem own_tables_not_dispatched (d : StaticData)
    (visit : list (string * option AntigravityModelConfig)) :
  Forall (λ entry,
            GetStaticModelDefinitionsByChannel d visit
              (from_option Type_ "" entry) = [] ∧
            GetStaticModelDefinitionsByChannel d visit
              (from_option OwnedBy "" entry) = [])
    (GetGitHubCopilotModels ++ GetKiroModels ++ GetAmazonQModels).
Proof. repeat (constructor; [by split|]); constructor. Qed.

End TablesFacts.

(** ** The command-line tools *)
Module ToolsFacts.
Import GoStrings GoStringsMore Quota Tools.






(** An unreadable directory is an error of its own. *)
Lemma auth_dir_unreadable os decode authDir err :
  ReadDir os authDir = Err err →
  findCopilotAuthToken os decode authDir =
  Err ("failed to read auth directory: " +:+ err).
Proof. intros Hdir. unfold findCopilotAuthToken. by rewrite Hdir. Qed.

Lemma TokenFileName_test (e : DirEntry) :
  negb (IsDir e) && HasPrefix (Name e) "github-copilot" &&
  HasSuffix (Name e) ".json" = true ↔ TokenFileName e.
Proof.
  unfold TokenFileName. rewrite !andb_true_iff, negb_true_iff. tauto.
Qed.

Lemma scanTokenFiles_found os dir entries :
  scanTokenFiles os dir entries ≠ "" →
  ∃ before e after,
    entries = (before ++ e :: after)%list ∧ TokenFileName e ∧
    (∀ e', e' ∈ before → ¬ TokenFileName e') ∧
    scanTokenFiles os dir entries = Join os dir (Name e).
Proof.
  induction entries as [|e entries IH]; simpl; [done|].
  destruct (negb (IsDir e) && HasPrefix (Name e) "github-copilot" &&
            HasSuffix (Name e) ".json") eqn:Htest.
  - intros _. exists [], e, entries. split; [done|].
    split; [by apply TokenFileName_test|]. split; [|done].
    by intros ? ?%elem_of_nil.
  - intros (before & e0 & after & -> & Hname & Hbefore & Hpath)%IH.
    exists (e :: before), e0, after. split; [done|]. split; [done|].
    split; [|done]. intros e' [->|?]%elem_of_cons; [|by apply Hbefore].
    rewrite <- TokenFileName_test. by rewrite Htest.
Qed.

Lemma firstTokenFile_found os paths path :
  firstTokenFile os paths = Ok path →
  path ≠ "" ∧ ∃ dir, dir ∈ paths ∧ findTokenFileInDir os dir = Ok path.
Proof.
  induction paths as [|dir paths IH]; simpl; [done|].
  destruct (findTokenFileInDir os dir) as [file|err] eqn:Hdir.
  - destruct (String.eqb file "") eqn:Hfile; simpl.
    + intros (? & dir' & ? & ?)%IH. split; [done|]. exists dir'.
      split; [by right|done].
    + intros [= <-]. apply String.eqb_neq in Hfile. split; [done|].
      exists dir. split; [left|done].
  - intros (? & dir' & ? & ?)%IH. split; [done|]. exists dir'.
    split; [by right|done].
Qed.

Lemma firstTokenFile_error os paths err :
  firstTokenFile os paths = Err err →
  err = "no token file found" ∧
  ∀ dir, dir ∈ paths →
    findTokenFileInDir os dir = Ok "" ∨ ∃ e, findTokenFileInDir os dir = Err e.
Proof.
  induction paths as [|dir paths IH]; simpl.
  { intros [= <-]. split; [done|]. by intros ? ?%elem_of_nil. }
  destruct (findTokenFileInDir os dir) as [file|e] eqn:Hdir.
  - destruct (String.eqb file "") eqn:Hfile; simpl; [|done].
    apply String.eqb_eq in Hfile as ->.
    intros [? Hrest]%IH. split; [done|].
    intros dir' [->|?]%elem_of_cons; [by left|by apply Hrest].
  - intros [? Hrest]%IH. split; [done|].
    intros dir' [->|?]%elem_of_cons; [right; by exists e|by apply Hrest].
Qed.

(** X18. [findDefaultTokenFile] returns a path only if it is not empty and
    names the first file called [github-copilot....json] (in exactly this
    case, directories left out) of one of [.cli-proxy-api], [auths] and
    [.]; a search directory that cannot be read is passed over; and its
    only error is [no token file found], given when every search
    directory is unreadable or yields no path. *)
Theorem default_token_file_search (os : OS) :
  (∀ path, findDefaultTokenFile os = Ok path →
     path ≠ "" ∧
     ∃ dir entries before e after,
       dir ∈ searchPaths ∧ ReadDir os dir = Ok entries ∧
       entries = (before ++ e :: after)%list ∧ TokenFileName e ∧
       (∀ e', e' ∈ before → ¬ TokenFileName e') ∧
       path = Join os dir (Name e)) ∧
  (∀ err, findDefaultTokenFile os = Err err →
     err = "no token file found" ∧
     ∀ dir, dir ∈ searchPaths →
       findTokenFileInDir os dir = Ok "" ∨
       ∃ e, findTokenFileInDir os dir = Err e).
Proof.
  split; [|apply firstTokenFile_error].
  intros path (Hne & dir & Hdir & Hfound)%firstTokenFile_found.
  split; [done|]. unfold findTokenFileInDir in Hfound.
  destruct (ReadDir os dir) as [entries|err] eqn:Hread; [|done].
  injection Hfound as Hfound. rewrite <- Hfound in Hne.
  apply scanTokenFiles_found in Hne
    as (before & e & after & Heq & Hname & Hbefore & Hpath).
  exists dir, entries, before, e, after. by rewrite <- Hfound.
Qed.

Lemma default_token_file_search_witness :
  findDefaultTokenFile sampleOS = Ok "auths/github-copilot-alice.json" ∧
  "auths/github-copilot-alice.json" ≠ "".
Proof.
  assert (Hrun : findDefaultTokenFile sampleOS =
                 Ok "auths/github-copilot-alice.json") by reflexivity.
  split; [exact Hrun|].
  exact (proj1 (proj1 (default_token_file_search sampleOS) _ Hrun)).
Defined.

(** X19. [getCopilotAPIToken] succeeds exactly when the token endpoint answers
    200 with a body that is read in full and decodes to a token that is
    not empty; so the token it hands on is never empty. *)
Theorem api_token_exchange (send : Transport)
    (decode : string → result CopilotAPIToken) (githubAccessToken : string)
    (apiToken : CopilotAPIToken) :
  getCopilotAPIToken send decode githubAccessToken = Ok apiToken ↔
  ∃ body,
    send (tokenRequest githubAccessToken) = Answered StatusOK body None ∧
    decode body = Ok apiToken ∧ Token apiToken ≠ "".
Proof.
  unfold getCopilotAPIToken.
  destruct (send _) as [err|status body [err|]].
  - split; [done|]. by intros (? & ? & _).
  - split; [done|]. by intros (? & ? & _).
  - destruct (decide (status ≠ StatusOK)) as [Hstatus|Hstatus].
    + split; [done|]. intros (? & [= -> ->] & _). done.
    + assert (status = StatusOK) as -> by (by destruct (decide (status = StatusOK))).
      destruct (decode body) as [t|err] eqn:Hdecode.
      * destruct (String.eqb (Token t) "") eqn:Htoken.
        -- split; [done|]. intros (body' & [= <-] & Hd & Hne).
           rewrite Hdecode in Hd. injection Hd as <-.
           by apply String.eqb_eq in Htoken.
        -- apply String.eqb_neq in Htoken. split.
           ++ intros [= <-]. by exists body.
           ++ intros (body' & [= <-] & Hd & _). congruence.
      * split; [done|]. intros (body' & [= <-] & Hd & _). congruence.
Qed.

(** A 200 answer with an empty token is turned down. *)
Example empty_api_token :
  getCopilotAPIToken emptyTokenTransport sampleTokenDecode "gho_alice" =
  Err "received empty API token".
Proof. reflexivity. Qed.

End ToolsFacts.

(** ** The model updater *)
Module UpdaterFacts.
Import GoStrings GoStringsMore Quota Tools Updater.

#[local] Arguments String.append !_ _ / : simpl nomatch.
#[local] Arguments functionHeader : simpl never.
#[local] Arguments functionEnd : simpl never.

Lemma length_append (a b : string) :
  String.length (a +:+ b) = (String.length a + String.length b)%nat.
Proof. induction a as [|c a IH]; simpl; [done|]. by rewrite IH. Qed.

(** *** Fetching the list *)

(** X20. [fetchCopilotModels] hands back models without an error exactly when
    the endpoint answers 200 with a body that is read in full and
    decodes; the raw body comes back whenever it was read in full from a
    200 answer, also when it does not decode; with an error there are no
    models. A refusal whose body cannot be read in full is reported as
    the refusal, with the bytes that were read, where
    [getCopilotAPIToken] on the same answer reports the failed read. *)
Theorem models_fetch_outcomes (send : Transport)
    (decode : string → result (list CopilotModel)) (apiToken : string) :
  let got := fetchCopilotModels send decode apiToken in
  (∀ models, (fetchedErr got = None ∧ fetchedModels got = models) ↔
     ∃ body, send (modelsRequest apiToken) = Answered StatusOK body None ∧
             decode body = Ok models) ∧
  (∀ body, fetchedBody got = Some body ↔
     send (modelsRequest apiToken) = Answered StatusOK body None) ∧
  (fetchedErr got ≠ None → fetchedModels got = []) ∧
  (∀ (exchange : Transport) decodeToken githubAccessToken status part err,
     status ≠ StatusOK →
     send (modelsRequest apiToken) = Answered status part (Some err) →
     exchange (tokenRequest githubAccessToken) = Answered status part (Some err) →
     fetchedErr got =
       Some ("API returned status " +:+ fmt_d status +:+ ": " +:+ part) ∧
     getCopilotAPIToken exchange decodeToken githubAccessToken =
       Err ("failed to read response: " +:+ err)).
Proof.
  intros got. subst got. unfold fetchCopilotModels.
  destruct (send _) as [err|status body [err|]] eqn:Hsend.
  - split; [|split; [|split]]; simpl; try done.
    intros models. split; [by intros [? _]|by intros (? & ? & _)].
  - destruct (decide (status ≠ StatusOK)) as [Hstatus|Hstatus]; simpl.
    + split; [|split; [|split]]; try done.
      * intros models. split; [by intros [? _]|by intros (? & ? & _)].
      * intros exchange decodeToken token status' part err' _ [= <- <- <-] Hex.
        split; [done|]. unfold getCopilotAPIToken. by rewrite Hex.
    + split; [|split; [|split]]; try done.
      * intros models. split; [by intros [? _]|by intros (? & ? & _)].
      * intros exchange decodeToken token status' part err' Hne [= <- <- <-].
        done.
  - destruct (decide (status ≠ StatusOK)) as [Hstatus|Hstatus]; simpl.
    + split; [|split; [|split]]; try done.
      * intros models. split; [by intros [? _]|].
        intros (? & [= -> ->] & _). done.
      * intros body'. split; [done|]. intros [= -> ->]. done.
    + assert (status = StatusOK) as ->
        by (by destruct (decide (status = StatusOK))).
      destruct (decode body) as [models|err] eqn:Hdecode; simpl.
      * split; [|split; [|split]]; try done.
        -- intros models'. split.
           ++ intros [_ <-]. by exists body.
           ++ intros (body' & [= <-] & Hd). split; [done|]. congruence.
        -- intros body'. split; [by intros [= <-]|by intros [= <-]].
      * split; [|split; [|split]]; try done.
        -- intros models'. split; [by intros [? _]|].
           intros (body' & [= <-] & Hd). congruence.
        -- intros body'. split; [by intros [= <-]|by intros [= <-]].
Qed.

(** *** The generator *)

Section Generator.
Context (now : Z) (today : string) (quote : string → string).

Local Abbreviation writeModel := (Updater.writeModel quote).
Local Abbreviation modelEntry := (Updater.modelEntry quote).
Local Abbreviation entries := (Updater.entries quote).
Local Abbreviation generateGoCode := (Updater.generateGoCode now today quote).
Local Abbreviation codeHead := (Updater.codeHead now today).

Lemma writeModel_app sb m : writeModel sb m = sb +:+ modelEntry m.
Proof.
  unfold Updater.modelEntry, Updater.writeModel.
  destruct (String.eqb (ID m) ""); [by rewrite QuotaFacts.append_empty_r|].
  cbv zeta.
  destruct (0 <? length (determineSupportedEndpoints m))%nat;
    destruct (negb (String.eqb (generateThinkingSupport m) ""));
    by rewrite !QuotaFacts.append_assoc.
Qed.

Lemma foldl_writeModel sb models :
  foldl writeModel sb models = sb +:+ entries models.
Proof.
  revert sb. induction models as [|m models IH]; intros sb.
  - by rewrite QuotaFacts.append_empty_r.
  - change (foldl writeModel (writeModel sb m) models =
            sb +:+ (modelEntry m +:+ entries models)).
    by rewrite IH, writeModel_app, QuotaFacts.append_assoc.
Qed.

(** The code is the head, the entries of the sorted models and the
    foot. *)
Lemma generateGoCode_render models :
  generateGoCode models =
  codeHead +:+ entries (GoSort.Slice lessID models) +:+ codeFoot.
Proof.
  unfold Updater.generateGoCode. cbv zeta. rewrite foldl_writeModel.
  unfold Updater.codeHead, codeFoot.
  change ("" +:+ ?x) with x.
  by rewrite !QuotaFacts.append_assoc.
Qed.

Lemma modelEntry_no_ID m : ID m = "" → modelEntry m = "".
Proof.
  intros Hid. unfold Updater.modelEntry, Updater.writeModel. by rewrite Hid.
Qed.

Lemma entries_filter models : entries (filter hasID models) = entries models.
Proof.
  induction models as [|m models IH]; [done|].
  rewrite filter_cons. destruct (decide (hasID m)) as [Hid|Hid].
  - simpl. by rewrite IH.
  - simpl. rewrite IH. apply dec_stable in Hid.
    by rewrite (modelEntry_no_ID m Hid).
Qed.

End Generator.

Lemma lessID_flip a b :
  flip (GoSort.notLess lessID) a b ↔ String.le (ID a) (ID b).
Proof. unfold flip, GoSort.notLess, lessID. apply RegistryFacts.less_false_le. Qed.

Lemma Slice_by_ID models :
  StronglySorted (λ a b, String.le (ID a) (ID b)) (GoSort.Slice lessID models).
Proof.
  apply Sorted_StronglySorted.
  { intros a b c. apply transitivity. }
  eapply RegistryFacts.Sorted_weaken; [|apply GoSortFacts.Slice_Sorted].
  - intros a b. apply lessID_flip.
  - intros a b. apply RegistryFacts.less_asym.
Qed.

Lemma StronglySorted_filter {A} (R : relation A) (P : A → Prop)
    `{∀ x, Decision (P x)} (l : list A) :
  StronglySorted R l → StronglySorted R (filter P l).
Proof.
  induction 1 as [|x l Hl IH Hx]; [constructor|].
  rewrite filter_cons. case_decide; [|done].
  constructor; [done|]. rewrite Forall_forall in Hx. apply Forall_forall.
  intros y [_ Hy]%list_elem_of_filter. by apply Hx.
Qed.

(** Models with distinct identifiers have one sorted arrangement. *)
Lemma sorted_models_unique (l1 l2 : list CopilotModel) :
  NoDup (ID <$> l1) → l1 ≡ₚ l2 →
  StronglySorted (λ a b, String.le (ID a) (ID b)) l1 →
  StronglySorted (λ a b, String.le (ID a) (ID b)) l2 →
  l1 = l2.
Proof.
  intros Hnodup Hperm H1 H2.
  apply (StronglySorted_unique_strong (λ a b, String.le (ID a) (ID b)));
    [|done..].
  intros x1 x2 Hx1 Hx2 H12 H21.
  apply (RegistryFacts.NoDup_fmap_eq ID l1); [done|done| |].
  - by rewrite Hperm.
  - by apply (anti_symm String.le).
Qed.

Section Generator.
Context (now : Z) (today : string) (quote : string → string).

Local Abbreviation generateGoCode := (Updater.generateGoCode now today quote).
Local Abbreviation codeHead := (Updater.codeHead now today).
Local Abbreviation entries := (Updater.entries quote).

(** X21. For models whose identifiers are distinct, the code [generateGoCode]
    writes depends on the set of models that have an identifier only: the
    order in which they come and the models without identifier change
    nothing. It is the head, the entries in ascending order of identifier
    and the foot, whatever arrangement the sorting picks among those in
    which no model is less than the one before it. *)
Theorem generated_code_order_independent (models models' : list CopilotModel) :
  NoDup (ID <$> filter hasID models) →
  filter hasID models ≡ₚ filter hasID models' →
  generateGoCode models = generateGoCode models' ∧
  ∀ sorted,
    filter hasID sorted ≡ₚ filter hasID models →
    Sorted (λ a b, lessID b a = false) sorted →
    generateGoCode models = codeHead +:+ entries sorted +:+ codeFoot.
Proof.
  intros Hnodup Hperm.
  assert (Hkept : ∀ l, filter hasID (GoSort.Slice lessID l) ≡ₚ filter hasID l).
  { intros l. by rewrite GoSortFacts.Slice_perm. }
  assert (Hsorted : ∀ l, StronglySorted (λ a b, String.le (ID a) (ID b))
                           (filter hasID (GoSort.Slice lessID l))).
  { intros l. apply StronglySorted_filter, Slice_by_ID. }
  assert (Hnodup' : NoDup (ID <$> filter hasID (GoSort.Slice lessID models))).
  { by rewrite Hkept. }
  assert (Hcode : ∀ l, generateGoCode l =
            codeHead +:+ entries (filter hasID (GoSort.Slice lessID l))
            +:+ codeFoot).
  { intros l. by rewrite generateGoCode_render, entries_filter. }
  split.
  - rewrite !Hcode. f_equal. f_equal. f_equal.
    apply sorted_models_unique; [done| |done..].
    by rewrite !Hkept.
  - intros sorted Hsp Hs. rewrite Hcode, <- (entries_filter quote sorted).
    f_equal. f_equal. f_equal.
    apply sorted_models_unique; [done| |done|].
    + by rewrite Hkept, Hsp.
    + apply StronglySorted_filter, Sorted_StronglySorted.
      { intros a b c. apply transitivity. }
      eapply RegistryFacts.Sorted_weaken; [|exact Hs].
      intros a b. apply (lessID_flip a b).
Qed.

End Generator.

Lemma generated_code_order_independent_witness :
  generateGoCode 1768908139 "2026-01-20" sampleQuote sampleModels =
  generateGoCode 1768908139 "2026-01-20" sampleQuote sampleModels'.
Proof.
  refine (proj1 (generated_code_order_independent 1768908139 "2026-01-20"
                   sampleQuote sampleModels sampleModels' _ _)).
  - apply (bool_decide_unpack _). vm_compute. exact I.
  - apply perm_swap.
Defined.

(** *** The pattern and the rewriting *)

Lemma stripPrefix_spec prefix s rest :
  stripPrefix prefix s = Some rest ↔ s = prefix +:+ rest.
Proof.
  revert s. induction prefix as [|a prefix IH]; intros s; simpl.
  - split; [by intros [= ->]|by intros ->].
  - destruct s as [|b s]; [done|].
    destruct (Ascii.eqb_spec a b) as [->|Hne].
    + rewrite IH. split; [by intros ->|by intros [= ->]].
    + split; [done|]. intros [= ? ?]. done.
Qed.

Lemma Cut_unfold s sep :
  Cut s sep =
  match stripPrefix sep s with
  | Some after => Some ("", after)
  | None =>
      match s with
      | EmptyString => None
      | String c s' =>
          match Cut s' sep with
          | Some (before, after) => Some (String c before, after)
          | None => None
          end
      end
  end.
Proof. by destruct s. Qed.

(** [Cut] cuts around an occurrence of [sep]. *)
Lemma Cut_spec s sep before after :
  Cut s sep = Some (before, after) → s = before +:+ sep +:+ after.
Proof.
  revert before. induction s as [|c s IH]; intros before; rewrite Cut_unfold.
  - destruct (stripPrefix sep "") as [r|] eqn:Hstrip; [|done].
    intros [= <- <-]. simpl. by apply stripPrefix_spec.
  - destruct (stripPrefix sep (String c s)) as [r|] eqn:Hstrip.
    + intros [= <- <-]. simpl. by apply stripPrefix_spec.
    + destruct (Cut s sep) as [[b a]|]; [|done].
      intros [= <- <-]. simpl. f_equal. by apply IH.
Qed.

(** ... and around the first one. *)
Lemma Cut_leftmost s sep before after before' after' :
  Cut s sep = Some (before, after) → s = before' +:+ sep +:+ after' →
  (String.length before ≤ String.length before')%nat.
Proof.
  revert before before'.
  induction s as [|c s IH]; intros before before'; rewrite Cut_unfold.
  - destruct (stripPrefix sep "") as [r|] eqn:Hstrip; [|done].
    intros [= <- <-] _. simpl. lia.
  - destruct (stripPrefix sep (String c s)) as [r|] eqn:Hstrip.
    { intros [= <- <-] _. simpl. lia. }
    destruct (Cut s sep) as [[b a]|] eqn:Hcut; [|done].
    intros [= <- <-] Hs. destruct before' as [|c' before'].
    + simpl in Hs. apply stripPrefix_spec in Hs. congruence.
    + simpl in Hs. injection Hs as _ Hs. simpl.
      apply le_n_S. by apply (IH b before').
Qed.

(** What a match is made of. *)
Lemma FindMatch_spec s before matched after :
  FindMatch s = Some (before, matched, after) →
  ∃ body,
    matched = functionHeader +:+ body +:+ functionEnd ∧
    s = before +:+ matched +:+ after ∧
    Cut s functionHeader = Some (before, body +:+ functionEnd +:+ after) ∧
    Cut (body +:+ functionEnd +:+ after) functionEnd = Some (body, after).
Proof.
  unfold FindMatch.
  destruct (Cut s functionHeader) as [[b rest]|] eqn:Hhead; [|done].
  destruct (Cut rest functionEnd) as [[body a]|] eqn:Hend; [|done].
  intros Hfound. exists body.
  assert (before = b ∧ matched = functionHeader +:+ body +:+ functionEnd ∧
          after = a) as (-> & -> & ->) by (repeat split; congruence).
  clear Hfound.
  pose proof (Cut_spec _ _ _ _ Hhead) as Hs.
  pose proof (Cut_spec _ _ _ _ Hend) as Hrest. subst rest.
  split; [done|]. split; [|done].
  by rewrite Hs, !QuotaFacts.append_assoc.
Qed.

Lemma FindMatch_shorter s before matched after :
  FindMatch s = Some (before, matched, after) →
  (String.length after < String.length s)%nat.
Proof.
  intros (body & -> & -> & _)%FindMatch_spec.
  rewrite !length_append. simpl. lia.
Qed.

Section Rewriting.
Context (expand : string → string → string).

Local Abbreviation replaceAll := (Updater.replaceAll expand).
Local Abbreviation ReplaceAllString := (Updater.ReplaceAllString expand).
Local Abbreviation updateModelDefinitions :=
  (Updater.updateModelDefinitions expand).

Lemma replaceAll_enough n n' src repl :
  (String.length src ≤ n)%nat → (String.length src ≤ n')%nat →
  replaceAll n src repl = replaceAll n' src repl.
Proof.
  revert n' src. induction n as [|n IH]; intros n' src Hn Hn'.
  - destruct src; [|simpl in Hn; lia]. by destruct n'.
  - destruct n' as [|n'].
    { destruct src; [done|simpl in Hn'; lia]. }
    simpl. destruct (FindMatch src) as [[[b m] a]|] eqn:Hmatch; [|done].
    apply FindMatch_shorter in Hmatch.
    f_equal. f_equal. apply IH; lia.
Qed.

(** [ReplaceAllString] replaces the leftmost match and goes on behind
    it. *)
Lemma ReplaceAllString_step src repl :
  ReplaceAllString src repl =
  match FindMatch src with
  | None => src
  | Some (before, matched, after) =>
      before +:+ expand repl matched +:+ ReplaceAllString after repl
  end.
Proof.
  unfold Updater.ReplaceAllString.
  destruct (String.length src) as [|n] eqn:Hlen.
  { destruct src; [done|discriminate Hlen]. }
  simpl. destruct (FindMatch src) as [[[b m] a]|] eqn:Hmatch; [|done].
  apply FindMatch_shorter in Hmatch.
  f_equal. f_equal. apply replaceAll_enough; lia.
Qed.

(** X22. For a file that can be read, [updateModelDefinitions] writes nothing
    and fails when the file has no match of the pattern. Otherwise it
    writes the file once, under the path it read: the text before the
    leftmost match is kept, the match (the header of
    [GetGitHubCopilotModels], the shortest text after it and a closing
    brace on a line of its own) gives way to the new code, and the text
    after the match is treated in the same way, so that every match is
    replaced, not the first alone. Its error is the one of the write. *)
Theorem update_rewrites_every_match (os : OS) (filePath newCode content : string) :
  ReadFile os filePath = Ok content →
  let out := updateModelDefinitions os filePath newCode in
  (FindMatch content = None →
     out = (Some "could not find GetGitHubCopilotModels function in file", [])) ∧
  (∀ before matched after,
     FindMatch content = Some (before, matched, after) →
     ∃ body,
       content = before +:+ functionHeader +:+ body +:+ functionEnd +:+ after ∧
       (∀ before' rest, content = before' +:+ functionHeader +:+ rest →
          (String.length before ≤ String.length before')%nat) ∧
       (∀ body' rest, body +:+ functionEnd +:+ after =
                      body' +:+ functionEnd +:+ rest →
          (String.length body ≤ String.length body')%nat) ∧
       let newContent :=
         before +:+ expand newCode (functionHeader +:+ body +:+ functionEnd)
         +:+ ReplaceAllString after newCode in
       out.2 = [(filePath, newContent)] ∧
       out.1 = (λ err, "failed to write file: " +:+ err) <$>
                 WriteFile os filePath newContent).
Proof.
  intros Hread out. subst out. unfold Updater.updateModelDefinitions.
  rewrite Hread. unfold MatchString. split.
  - by intros ->.
  - intros before matched after Hmatch.
    destruct (FindMatch_spec _ _ _ _ Hmatch) as (body & -> & Hs & Hhead & Hend).
    exists body. split; [by rewrite Hs, !QuotaFacts.append_assoc|].
    split; [intros before' rest Hc; exact (Cut_leftmost _ _ _ _ _ _ Hhead Hc)|].
    split; [intros body' rest Hc; exact (Cut_leftmost _ _ _ _ _ _ Hend Hc)|].
    rewrite Hmatch. cbv zeta. simpl negb. cbv iota.
    rewrite (ReplaceAllString_step content), Hmatch.
    by destruct (WriteFile os filePath _).
Qed.

End Rewriting.

Lemma update_rewrites_every_match_witness :
  (updateModelDefinitions plainExpand sampleFileOS "model_definitions.go"
     "func NEW").2 =
  [("model_definitions.go",
    "package registry" +:+ nl +:+ nl +:+ "func NEW"
    +:+ nl +:+ "func GetKiroModels() []*ModelInfo {" +:+ nl
    +:+ tab +:+ "return nil" +:+ nl +:+ "}" +:+ nl)].
Proof.
  destruct (proj2 (update_rewrites_every_match plainExpand sampleFileOS
                     "model_definitions.go" "func NEW" sampleFile eq_refl)
              _ _ _ eq_refl)
    as (body & _ & _ & _ & Hwrite & _).
  rewrite Hwrite. reflexivity.
Defined.

(** Both copies of the function are replaced. *)
Example every_copy_is_replaced :
  ReplaceAllString plainExpand twoCopies "func NEW" =
  "package registry" +:+ nl +:+ nl +:+ "func NEW"
  +:+ nl +:+ "func GetKiroModels() []*ModelInfo {" +:+ nl
  +:+ tab +:+ "return nil" +:+ nl +:+ "}" +:+ nl
  +:+ "package registry" +:+ nl +:+ nl +:+ "func NEW"
  +:+ nl +:+ "func GetKiroModels() []*ModelInfo {" +:+ nl
  +:+ tab +:+ "return nil" +:+ nl +:+ "}" +:+ nl.
Proof. reflexivity. Qed.

(** *** The generated code under the pattern *)

Lemma noNL_append a b : noNL (a +:+ b) = noNL a && noNL b.
Proof. induction a as [|c a IH]; simpl; [done|]. by rewrite IH, andb_assoc. Qed.

Lemma pretty_N_char_noNL n : Ascii.eqb (pretty_N_char n) "010" = false.
Proof.
  destruct n as [|p]; [done|].
  do 4 (try (destruct p as [p|p|]; try done)).
Qed.

Lemma noNL_pretty_N_go n s : noNL s = true → noNL (pretty_N_go n s) = true.
Proof.
  revert s. induction (N.lt_wf_0 n) as [n _ IH]. intros s Hs.
  destruct (decide (n = 0)%N) as [->|Hn]; [by rewrite pretty_N_go_0|].
  rewrite pretty_N_go_step by lia. apply IH.
  - apply N.div_lt; lia.
  - simpl. by rewrite pretty_N_char_noNL, Hs.
Qed.

Lemma noNL_fmt_d n : noNL (fmt_d n) = true.
Proof.
  unfold fmt_d, pretty, pretty_Z.
  destruct n as [|p|p]; [done| |].
  - unfold pretty_positive, pretty, pretty_N.
    case_decide; [done|]. by apply noNL_pretty_N_go.
  - rewrite noNL_append. unfold pretty_positive, pretty, pretty_N.
    case_decide; [done|]. by rewrite noNL_pretty_N_go.
Qed.

Lemma noNL_generateThinkingSupport m : noNL (generateThinkingSupport m) = true.
Proof.
  unfold generateThinkingSupport. cbv zeta.
  destruct (0 <? _)%Z.
  - by rewrite !noNL_append, !noNL_fmt_d.
  - by destruct (_ || _).
Qed.

Lemma wellTabbed_tab u : wellTabbed true (tab +:+ u) = wellTabbed false u.
Proof. done. Qed.

Lemma wellTabbed_nl u : wellTabbed false (nl +:+ u) = wellTabbed true u.
Proof. done. Qed.

Lemma wellTabbed_text x u :
  noNL x = true → wellTabbed false (x +:+ u) = wellTabbed false u.
Proof.
  induction x as [|c x IH]; simpl; [done|].
  intros [Hc Hx]%andb_true_iff. apply negb_true_iff in Hc. rewrite Hc. auto.
Qed.

Lemma stripPrefix_functionEnd_other c s :
  Ascii.eqb c "010" = false → stripPrefix functionEnd (String c s) = None.
Proof.
  intros Hc.
  change (stripPrefix functionEnd (String c s))
    with (if Ascii.eqb "010" c then stripPrefix ("}" +:+ nl) s else None).
  by rewrite Ascii.eqb_sym, Hc.
Qed.

(** Behind a line feed and lines that start with a tab, the first
    closing brace on a line of its own is the one that follows them. *)
Lemma Cut_functionEnd lineStart s :
  wellTabbed lineStart s = true →
  ∃ body,
    (if lineStart then nl else "") +:+ s = body +:+ nl ∧
    ∀ rest,
      Cut ((if lineStart then nl else "") +:+ s +:+ "}" +:+ nl +:+ rest)
        functionEnd = Some (body, rest).
Proof.
  revert lineStart. induction s as [|c s IH]; intros lineStart Hs.
  - destruct lineStart; [|done]. by exists "".
  - destruct lineStart; simpl in Hs.
    + apply andb_true_iff in Hs as [Hc Hs]. apply Ascii.eqb_eq in Hc as ->.
      destruct (IH false Hs) as (body & Hbody & Hcut).
      exists (nl +:+ tab +:+ body). simpl in Hbody. split.
      { simpl. by rewrite Hbody. }
      intros rest. specialize (Hcut rest).
      unfold functionEnd in Hcut |- *. simpl in Hcut |- *. by rewrite Hcut.
    + destruct (Ascii.eqb c "010") eqn:Hc.
      * apply Ascii.eqb_eq in Hc as ->.
        destruct (IH true Hs) as (body & Hbody & Hcut).
        by exists body.
      * destruct (IH false Hs) as (body & Hbody & Hcut).
        exists (String c body). simpl in Hbody. split.
        { simpl. by rewrite Hbody. }
        intros rest. specialize (Hcut rest).
        change (Cut (s +:+ "}" +:+ nl +:+ rest) functionEnd = Some (body, rest))
          in Hcut.
        change (Cut (String c (s +:+ "}" +:+ nl +:+ rest)) functionEnd =
                Some (String c body, rest)).
        by rewrite Cut_unfold, stripPrefix_functionEnd_other, Hcut.
Qed.

Lemma stripPrefix_ahead prefix u rest rest' :
  (String.length prefix ≤ String.length u)%nat →
  stripPrefix prefix (u +:+ rest) = None →
  stripPrefix prefix (u +:+ rest') = None.
Proof.
  revert u. induction prefix as [|a prefix IH]; intros u Hlen; [done|].
  destruct u as [|b u]; [simpl in Hlen; lia|]. simpl.
  destruct (Ascii.eqb a b); [|done]. apply IH. simpl in Hlen. lia.
Qed.

(** Where [sep] first occurs depends on the text up to its end only. *)
Lemma Cut_ahead before sep rest rest' :
  Cut (before +:+ sep +:+ rest) sep = Some (before, rest) →
  Cut (before +:+ sep +:+ rest') sep = Some (before, rest').
Proof.
  induction before as [|c before IH]; rewrite !Cut_unfold.
  - intros _. simpl.
    by rewrite (proj2 (stripPrefix_spec sep (sep +:+ rest') rest') eq_refl).
  - simpl. destruct (stripPrefix sep (String c (before +:+ sep +:+ rest)))
      as [r|] eqn:Hstrip; [done|].
    destruct (Cut (before +:+ sep +:+ rest) sep) as [[b a]|] eqn:Hcut; [|done].
    intros Heq. assert (b = before ∧ a = rest) as [-> ->]
      by (split; congruence).
    rewrite (IH eq_refl).
    change (String c (before +:+ sep +:+ rest))
      with (String c before +:+ sep +:+ rest) in Hstrip.
    change (String c (before +:+ sep +:+ rest'))
      with (String c before +:+ sep +:+ rest').
    rewrite <- QuotaFacts.append_assoc in Hstrip |- *.
    rewrite (stripPrefix_ahead sep _ rest rest'); [done| |done].
    rewrite length_append. lia.
Qed.

Section Generated.
Context (now : Z) (today : string) (quote : string → string)
  (expand : string → string → string).
Hypothesis quote_noNL : ∀ s, noNL (quote s) = true.
Hypothesis today_noNL : noNL today = true.

Local Abbreviation generateGoCode := (Updater.generateGoCode now today quote).
Local Abbreviation codeLines := (Updater.codeLines now today quote).
Local Abbreviation modelEntry := (Updater.modelEntry quote).
Local Abbreviation entries := (Updater.entries quote).
Local Abbreviation ReplaceAllString := (Updater.ReplaceAllString expand).
Local Abbreviation updateModelDefinitions :=
  (Updater.updateModelDefinitions expand).

Lemma noNL_Join (slice : list string) :
  noNL (strings_Join (quote <$> slice) ", ") = true.
Proof.
  induction slice as [|e slice IH]; [done|].
  destruct slice as [|e' slice]; [apply quote_noNL|].
  change (noNL (quote e +:+ ", " +:+ strings_Join (quote <$> e' :: slice) ", ")
          = true).
  by rewrite !noNL_append, quote_noNL, IH.
Qed.

Lemma noNL_formatStringSlice slice : noNL (formatStringSlice quote slice) = true.
Proof.
  unfold formatStringSlice. destruct (length slice =? 0)%nat; [done|].
  by rewrite !noNL_append, noNL_Join.
Qed.

Ltac lines :=
  repeat first
    [ rewrite wellTabbed_tab
    | rewrite wellTabbed_nl
    | rewrite wellTabbed_text
        by first [ reflexivity | apply quote_noNL | apply noNL_fmt_d
                 | apply noNL_formatStringSlice
                 | apply noNL_generateThinkingSupport | apply today_noNL ] ].

(** An entry is made of whole lines that start with a tab. *)
Lemma modelEntry_lines m u :
  wellTabbed true (modelEntry m +:+ u) = wellTabbed true u.
Proof.
  unfold Updater.modelEntry, writeModel.
  destruct (String.eqb (ID m) ""); [done|]. cbv zeta.
  destruct (0 <? length (determineSupportedEndpoints m))%nat;
    destruct (negb (String.eqb (generateThinkingSupport m) ""));
    change ("" +:+ ?x) with x; rewrite !QuotaFacts.append_assoc; by lines.
Qed.

Lemma entries_lines models u :
  wellTabbed true (entries models +:+ u) = wellTabbed true u.
Proof.
  induction models as [|m models IH]; [done|].
  change (wellTabbed true ((modelEntry m +:+ entries models) +:+ u) =
          wellTabbed true u).
  by rewrite QuotaFacts.append_assoc, modelEntry_lines.
Qed.

Lemma codeLines_tabbed models : wellTabbed true (codeLines models) = true.
Proof.
  unfold Updater.codeLines. fold (Updater.entries quote (GoSort.Slice lessID models)).
  lines. rewrite entries_lines. by lines.
Qed.

(** The code is the header, its lines and the closing brace. *)
Lemma generateGoCode_lines models :
  generateGoCode models =
  functionHeader +:+ nl +:+ codeLines models +:+ "}" +:+ nl.
Proof.
  rewrite generateGoCode_render.
  unfold Updater.codeHead, codeFoot, Updater.codeLines, functionHeader.
  fold (Updater.entries quote (GoSort.Slice lessID models)).
  by rewrite !QuotaFacts.append_assoc.
Qed.

(** Put where the function stood, the generated code is what the pattern
    matches there: all of it and nothing after it. *)
Lemma FindMatch_generated models before rest after :
  Cut (before +:+ functionHeader +:+ rest) functionHeader = Some (before, rest) →
  FindMatch (before +:+ generateGoCode models +:+ after) =
  Some (before, generateGoCode models, after).
Proof.
  intros Hhead.
  destruct (Cut_functionEnd true (codeLines models) (codeLines_tabbed models))
    as (body & Hbody & Hcut).
  assert (Hcode : generateGoCode models =
                  functionHeader +:+ body +:+ functionEnd).
  { rewrite generateGoCode_lines. unfold functionEnd.
    rewrite <- (QuotaFacts.append_assoc body), <- Hbody.
    by rewrite !QuotaFacts.append_assoc. }
  assert (Htext : before +:+ generateGoCode models +:+ after =
                  before +:+ functionHeader +:+
                  (nl +:+ codeLines models +:+ "}" +:+ nl +:+ after)).
  { rewrite generateGoCode_lines. by rewrite !QuotaFacts.append_assoc. }
  unfold FindMatch. rewrite Htext, (Cut_ahead _ _ _ _ Hhead), Hcut.
  by rewrite Hcode.
Qed.

Lemma ReplaceAllString_again models n content :
  (∀ matched, expand (generateGoCode models) matched = generateGoCode models) →
  (String.length content ≤ n)%nat →
  ReplaceAllString (ReplaceAllString content (generateGoCode models))
    (generateGoCode models) =
  ReplaceAllString content (generateGoCode models).
Proof.
  intros expand_plain.
  revert content. induction n as [|n IH]; intros content Hlen.
  - by destruct content; [|simpl in Hlen; lia].
  - rewrite (ReplaceAllString_step expand content).
    destruct (FindMatch content) as [[[b m] a]|] eqn:Hmatch.
    + pose proof (FindMatch_shorter _ _ _ _ Hmatch) as Hshorter.
      destruct (FindMatch_spec _ _ _ _ Hmatch) as (body & -> & Hs & Hhead & _).
      rewrite Hs, !QuotaFacts.append_assoc in Hhead.
      rewrite expand_plain, ReplaceAllString_step.
      rewrite (FindMatch_generated models b _ _ Hhead).
      rewrite expand_plain, IH by lia. done.
    + by rewrite ReplaceAllString_step, Hmatch.
Qed.

End Generated.

Lemma Cut_at_start sep rest : Cut (sep +:+ rest) sep = Some ("", rest).
Proof.
  rewrite Cut_unfold.
  by rewrite (proj2 (stripPrefix_spec sep (sep +:+ rest) rest) eq_refl).
Qed.

Lemma written_read os path content :
  ReadFile (written os [(path, content)]) path = Ok content.
Proof. simpl. by rewrite decide_True. Qed.

(** X23. The code [generateGoCode] writes is a text the pattern of
    [updateModelDefinitions] matches from its first byte to its last; so
    an update with it that succeeds leaves a file in which a second
    update with the same code finds the function again, and which it
    leaves as it is. This needs that [%q] and the date print no line
    feed, and that the code has no [$] for [ReplaceAllString] to expand. *)
Theorem generated_update_is_idempotent (now : Z) (today : string)
    (quote : string → string) (expand : string → string → string)
    (models : list CopilotModel) (os : OS) (filePath content : string) :
  (∀ s, noNL (quote s) = true) →
  noNL today = true →
  (∀ matched, expand (generateGoCode now today quote models) matched =
              generateGoCode now today quote models) →
  ReadFile os filePath = Ok content →
  MatchString content = true →
  WriteFile os filePath
    (ReplaceAllString expand content (generateGoCode now today quote models))
    = None →
  let code := generateGoCode now today quote models in
  let first := updateModelDefinitions expand os filePath code in
  let second :=
    updateModelDefinitions expand (written os first.2) filePath code in
  FindMatch code = Some ("", code, "") ∧
  first = (None, [(filePath, ReplaceAllString expand content code)]) ∧
  second = first.
Proof.
  intros Hquote Htoday Hexpand Hread Hmatch Hwrite code first second.
  subst first second. unfold code. clear code.
  set (code := generateGoCode now today quote models) in *.
  assert (Hself : FindMatch code = Some ("", code, "")).
  { pose proof (FindMatch_generated now today quote Hquote Htoday models
                  "" "" "" (Cut_at_start functionHeader "")) as Hfound.
    change ("" +:+ ?x) with x in Hfound.
    by rewrite QuotaFacts.append_empty_r in Hfound. }
  assert (Hfirst : updateModelDefinitions expand os filePath code =
            (None, [(filePath, ReplaceAllString expand content code)])).
  { unfold updateModelDefinitions.
    rewrite Hread, Hmatch. cbv zeta. simpl negb. cbv iota.
    by rewrite Hwrite. }
  split; [done|]. split; [done|].
  rewrite Hfirst. cbn [snd]. unfold updateModelDefinitions at 1.
  cbv zeta. rewrite written_read.
  assert (Hagain : MatchString (ReplaceAllString expand content code) = true).
  { unfold MatchString in Hmatch |- *.
    rewrite (ReplaceAllString_step expand content).
    destruct (FindMatch content) as [[[b m] a]|] eqn:Hfound; [|done].
    destruct (FindMatch_spec _ _ _ _ Hfound) as (body & -> & Hs & Hhead & _).
    rewrite Hs, !QuotaFacts.append_assoc in Hhead.
    rewrite Hexpand.
    by rewrite (FindMatch_generated now today quote Hquote Htoday models
                  b _ _ Hhead). }
  rewrite Hagain. simpl negb. cbv iota.
  pose proof (ReplaceAllString_again now today quote expand Hquote Htoday
                models (String.length content) content Hexpand (le_n _))
    as Hidem.
  fold code in Hidem. rewrite Hidem.
  change (WriteFile (written os _)) with (WriteFile os).
  by rewrite Hwrite.
Qed.

Lemma sampleQuote_noNL s : noNL (sampleQuote s) = true.
Proof.
  unfold sampleQuote. rewrite !noNL_append.
  assert (noNL (escape s) = true) as ->; [|done].
  induction s as [|c s IH]; [done|]. simpl.
  destruct (Ascii.eqb c "010") eqn:Hc; simpl; [done|]. by rewrite Hc.
Qed.

Lemma generated_update_is_idempotent_witness :
  FindMatch (generateGoCode 1768908139 "2026-01-20" sampleQuote sampleModels) =
    Some ("", generateGoCode 1768908139 "2026-01-20" sampleQuote sampleModels,
          "") ∧
  updateModelDefinitions plainExpand
    (written sampleFileOS
       (updateModelDefinitions plainExpand sampleFileOS "model_definitions.go"
          (generateGoCode 1768908139 "2026-01-20" sampleQuote sampleModels)).2)
    "model_definitions.go"
    (generateGoCode 1768908139 "2026-01-20" sampleQuote sampleModels) =
  updateModelDefinitions plainExpand sampleFileOS "model_definitions.go"
    (generateGoCode 1768908139 "2026-01-20" sampleQuote sampleModels).
Proof.
  destruct (generated_update_is_idempotent 1768908139 "2026-01-20" sampleQuote
              plainExpand sampleModels sampleFileOS "model_definitions.go"
              sampleFile sampleQuote_noNL eq_refl (λ _, eq_refl) eq_refl
              eq_refl eq_refl) as (Hself & _ & Hsecond).
  split; [exact Hself|exact Hsecond].
Defined.

End UpdaterFacts.

(** ** The two versions of [GetKiroQuota] *)
Module KiroAuthVersionFacts.
Import Quota QuotaWorlds KiroAuthVersion.

Section Package.
Context {Other Usage : Type} (pkg : Package Other Usage).

(** X24. Every answer of the [kiroauth] version is 200 with the usage or one
    of 400, 404 and 500 with an error message; it looks up at most one
    identifier and asks the package at most once, under a context that
    ends with the inbound request and after 30 seconds; and it answers
    200 exactly when it asked and the package returned a usage. *)
Theorem kiro_auth_version_outcomes (h : Handler) (c : GinContext) :
  let out := KiroAuthVersion.GetKiroQuota pkg h c in
  ((∃ usage, out.1 = {| status := StatusOK; body := UsageBody usage |}) ∨
   (∃ msg, status out.1 ∈ [StatusBadRequest; StatusNotFound;
                           StatusInternalServerError] ∧
           body out.1 = ErrorBody msg)) ∧
  (length (looked out.2) ≤ 1)%nat ∧
  (asked out.2 = [] ∨
   ∃ tokenData,
     asked out.2 = [(WithTimeout (RequestContext (requestID c)) 30, tokenData)] ∧
     derivedFrom (RequestContext (requestID c))
       (WithTimeout (RequestContext (requestID c)) 30) = true ∧
     match GetUsageLimits pkg (WithTimeout (RequestContext (requestID c)) 30)
             tokenData with
     | Ok usage => out.1 = {| status := StatusOK; body := UsageBody usage |}
     | Err err =>
         out.1 = failure StatusInternalServerError
                   ("failed to fetch usage: " +:+ err)
     end) ∧
  (status out.1 = StatusOK → asked out.2 ≠ []).
Proof.
  intros out. subst out. unfold KiroAuthVersion.GetKiroQuota. cbv zeta.
  assert (Hctx : ∀ n, derivedFrom (RequestContext n)
                        (WithTimeout (RequestContext n) 30) = true).
  { intros n. simpl.
    by rewrite (bool_decide_eq_true_2 (RequestContext _ = _)) by done. }
  case_decide.
  { split; [right; eexists; split; [|done]; by left|].
    split; [simpl; lia|]. split; [by left|done]. }
  destruct (authManager h) as [mgr|].
  2: { split; [right; eexists; split; [|done]; by do 2 right; left|].
       split; [simpl; lia|]. split; [by left|done]. }
  destruct (mgr _) as [[auth|] []].
  2-4: split; [right; eexists; split; [|done]; by right; left|];
       (split; [simpl; lia|]); (split; [by left|done]).
  destruct (marshalMetadata pkg _) as [metadataJSON|err].
  2: { split; [right; eexists; split; [|done]; by do 2 right; left|].
       split; [simpl; lia|]. split; [by left|done]. }
  destruct (unmarshalTokenData pkg _) as [tokenData|err].
  2: { split; [right; eexists; split; [|done]; by do 2 right; left|].
       split; [simpl; lia|]. split; [by left|done]. }
  destruct (ensureAccessToken auth tokenData) as [tokenData'|].
  2: { split; [right; eexists; split; [|done]; by left|].
       split; [simpl; lia|]. split; [by left|done]. }
  destruct (GetUsageLimits pkg _ _) as [usage|err] eqn:Hcall.
  - split; [left; by eexists|]. split; [simpl; lia|]. split; [|done].
    right. eexists. split; [done|]. split; [apply Hctx|]. by rewrite Hcall.
  - split; [right; eexists; split; [|done]; by do 2 right; left|].
    split; [simpl; lia|]. split; [|done].
    right. eexists. split; [done|]. split; [apply Hctx|]. by rewrite Hcall.
Qed.

(** X25. On a request that fails one of the first three checks (no [auth_id],
    no auth manager, no such credential) the two versions of
    [GetKiroQuota] give the same status and the same message, look up the
    same identifiers and ask nobody. *)
Theorem kiro_versions_agree_on_checks (codec : Codec) (net : Network)
    (h : Handler) (c : GinContext) :
  Query c "auth_id" = "" ∨ authManager h = None ∨
  (∃ mgr, authManager h = Some mgr ∧
          ((mgr (Query c "auth_id")).1 = None ∨
           (mgr (Query c "auth_id")).2 = false)) →
  let old := exec net (Quota.GetKiroQuota codec h c) in
  let new := KiroAuthVersion.GetKiroQuota pkg h c in
  ∃ code msg,
    code ≠ StatusOK ∧
    old.1 = JSON code (errorH msg) ∧ new.1 = failure code msg ∧
    lookups old.2 = looked new.2 ∧ calls old.2 = [] ∧ asked new.2 = [].
Proof.
  intros Hcase old new. subst old new.
  unfold KiroAuthVersion.GetKiroQuota, exec, Quota.GetKiroQuota. cbv zeta.
  case_decide as Hid.
  { by exists StatusBadRequest, "auth_id is required". }
  destruct Hcase as [?|Hcase]; [done|].
  destruct (authManager h) as [mgr|] eqn:Hmgr.
  2: { by exists StatusInternalServerError, "auth manager not available". }
  destruct Hcase as [?|(mgr' & [= <-] & Hmiss)]; [done|].
  unfold bind, GetByID.
  destruct (mgr _) as [[auth|] []]; simpl in Hmiss;
    try (by exists StatusNotFound, "auth not found").
  by destruct Hmiss.
Qed.

(** X26. A credential whose [access_token] is the empty string separates the
    two versions. The version that calls the endpoint itself answers 400
    and sends nothing. The [kiroauth] version, when the decoded token
    data has no token either, takes the empty string from the metadata
    for a token and asks the package with it; its answer is then the one
    of the package, 200 or 500, not 400. *)
Theorem kiro_versions_differ_on_empty_token (codec : Codec) (net : Network)
    (h : Handler) (c : GinContext) (mgr : AuthManager) (auth : Auth)
    (metadataJSON : string) (tokenData : KiroTokenData Other) :
  Query c "auth_id" ≠ "" →
  authManager h = Some mgr →
  mgr (Query c "auth_id") = (Some auth, true) →
  metadataIndex auth "access_token" = Some (VString "") →
  marshalMetadata pkg (Metadata auth) = Ok metadataJSON →
  unmarshalTokenData pkg metadataJSON = Ok tokenData →
  AccessToken tokenData = "" →
  let old := exec net (Quota.GetKiroQuota codec h c) in
  let new := KiroAuthVersion.GetKiroQuota pkg h c in
  old = (JSON StatusBadRequest (errorH "access_token not found in auth data"),
         afterLookup (Query c "auth_id")) ∧
  calls old.2 = [] ∧
  status new.1 ≠ StatusBadRequest ∧
  ∃ asking,
    AccessToken asking = "" ∧ otherFields asking = otherFields tokenData ∧
    asked new.2 = [(kiroContext c, asking)] ∧
    match GetUsageLimits pkg (kiroContext c) asking with
    | Ok usage => new.1 = {| status := StatusOK; body := UsageBody usage |}
    | Err err =>
        new.1 = failure StatusInternalServerError
                  ("failed to fetch usage: " +:+ err)
    end.
Proof.
  intros Hid Hmgr Hfound Hmeta Hmarshal Hdecode Hempty old new.
  assert (Hold : old = (JSON StatusBadRequest
                          (errorH "access_token not found in auth data"),
                        afterLookup (Query c "auth_id"))).
  { subst old. unfold exec, Quota.GetKiroQuota. cbv zeta.
    rewrite decide_False by done. rewrite Hmgr. unfold bind, GetByID.
    by rewrite Hfound, Hmeta. }
  split; [done|]. split; [by rewrite Hold|].
  subst new. unfold KiroAuthVersion.GetKiroQuota. cbv zeta.
  rewrite decide_False by done. rewrite Hmgr, Hfound, Hmarshal, Hdecode.
  unfold ensureAccessToken. rewrite decide_True by done. rewrite Hmeta.
  simpl assertString. cbv iota.
  set (asking := ensureRegion auth _).
  assert (Hasking : AccessToken asking = "" ∧
                    otherFields asking = otherFields tokenData).
  { subst asking. unfold ensureRegion. simpl.
    case_decide; [|done].
    by destruct (assertString (metadataIndex auth "region")) as [r []]. }
  fold (kiroContext c).
  destruct (GetUsageLimits pkg (kiroContext c) asking) as [usage|err] eqn:Hcall.
  - split; [done|]. exists asking. destruct Hasking. by rewrite Hcall.
  - split; [done|]. exists asking. destruct Hasking. by rewrite Hcall.
Qed.

End Package.

Lemma kiro_versions_agree_on_checks_witness :
  (exec sampleNet (Quota.GetKiroQuota sampleCodec sampleHandler
                     (requestFor "nobody"))).1 =
    JSON StatusNotFound (errorH "auth not found") ∧
  (KiroAuthVersion.GetKiroQuota samplePackage sampleHandler
     (requestFor "nobody")).1 = failure StatusNotFound "auth not found".
Proof.
  destruct (kiro_versions_agree_on_checks samplePackage sampleCodec sampleNet
              sampleHandler (requestFor "nobody"))
    as (code & msg & _ & Hold & Hnew & _).
  { right. right. exists sampleStore. split; [reflexivity|by left]. }
  rewrite Hold, Hnew.
  assert (code = StatusNotFound ∧ msg = "auth not found") as [-> ->];
    [|done].
  vm_compute in Hnew. by injection Hnew as <- <-.
Defined.

Lemma kiro_versions_differ_on_empty_token_witness :
  (exec sampleNet (Quota.GetKiroQuota sampleCodec oddHandler
                     (requestFor "empty"))).1 =
    JSON StatusBadRequest (errorH "access_token not found in auth data") ∧
  (KiroAuthVersion.GetKiroQuota samplePackage oddHandler
     (requestFor "empty")).1 =
    failure StatusInternalServerError
      "failed to fetch usage: 401 unauthorized".
Proof.
  destruct (kiro_versions_differ_on_empty_token samplePackage sampleCodec
              sampleNet oddHandler (requestFor "empty") oddStore emptyTokenAuth
              "" {| AccessToken := ""; Region := ""; otherFields := () |})
    as (Hold & _ & _ & asking & Htoken & _ & _ & Hnew);
    [done|reflexivity|reflexivity|reflexivity|reflexivity|reflexivity
    |reflexivity|].
  split; [by rewrite Hold|].
  cbn [GetUsageLimits samplePackage] in Hnew. rewrite Htoken in Hnew.
  exact Hnew.
Defined.

End KiroAuthVersionFacts.

(** ** The usage tool *)
Module UsageToolFacts.
Import Quota Tools UsageTool.

Lemma orEnvironment_spec env finalToken :
  orEnvironment env finalToken =
  if decide (finalToken ≠ "") then inr finalToken
  else if decide (env ≠ "") then inr env else inl NoTokenFound.
Proof.
  unfold orEnvironment.
  destruct (String.eqb_spec finalToken "") as [->|Hne].
  - rewrite decide_False by (by intros []).
    destruct (String.eqb_spec env "") as [->|Hne].
    + by rewrite decide_False by (by intros []).
    + by rewrite decide_True.
  - rewrite decide_True by done.
    by destruct (String.eqb_spec finalToken "").
Qed.

(** X27. Where the token of the usage tool comes from. A token it goes on
    with is never empty. [-token] wins over everything and nothing is
    read. Without [-token], a [-file] decides alone: a file that cannot
    be read or decoded, or that has no token, ends the run although the
    environment variable may hold a token. Without both flags, a
    configured [auth-dir] shuts out the default directories: when it has
    no token file, the token is the one of the environment or missing,
    whatever the default directories hold. *)
Theorem usage_tool_token_sources (os : OS) (decode : string → result TokenFile)
    (authDirFromConfig env tokenFlag fileFlag : string) :
  let resolved := resolveToken os decode authDirFromConfig env tokenFlag
                    fileFlag in
  (∀ token, resolved = inr token → token ≠ "") ∧
  (tokenFlag ≠ "" → resolved = inr tokenFlag) ∧
  (tokenFlag = "" → fileFlag ≠ "" →
     resolved =
     match ReadFile os fileFlag with
     | Err err => inl (ReadFailed fileFlag err)
     | Ok data =>
         match decode data with
         | Err err => inl (ParseFailed err)
         | Ok tf =>
             if decide (AccessToken tf = "") then inl NoAccessTokenField
             else inr (AccessToken tf)
         end
     end) ∧
  (tokenFlag = "" → fileFlag = "" → authDirFromConfig ≠ "" →
     findTokenFileInDir os authDirFromConfig = Ok "" ∨
     (∃ err, findTokenFileInDir os authDirFromConfig = Err err) →
     resolved = if decide (env ≠ "") then inr env else inl NoTokenFound).
Proof.
  intros resolved. subst resolved. unfold resolveToken. cbv zeta.
  split; [|split; [|split]].
  - intros token.
    destruct (String.eqb tokenFlag "" && negb (String.eqb (chooseFile _ _ _ _) "")).
    + destruct (ReadFile os _) as [data|err]; [|done].
      destruct (decode data) as [tf|err]; [|done].
      destruct (String.eqb_spec (AccessToken tf) "") as [|Hne]; [done|].
      rewrite orEnvironment_spec, decide_True by done. by intros [= <-].
    + rewrite orEnvironment_spec.
      case_decide; [by intros [= <-]|]. case_decide; [by intros [= <-]|done].
  - intros Hflag.
    destruct (String.eqb_spec tokenFlag "") as [|_]; [done|]. simpl.
    by rewrite orEnvironment_spec, decide_True.
  - intros -> Hfile. unfold chooseFile. simpl.
    destruct (String.eqb_spec fileFlag "") as [|_]; [done|]. simpl.
    destruct (String.eqb_spec fileFlag "") as [|_]; [done|]. simpl.
    destruct (ReadFile os fileFlag) as [data|err]; [|done].
    destruct (decode data) as [tf|err]; [|done].
    destruct (String.eqb_spec (AccessToken tf) "") as [Hempty|Hne].
    + by rewrite decide_True.
    + rewrite decide_False by done.
      by rewrite orEnvironment_spec, decide_True.
  - intros -> -> Hdir Hnone. unfold chooseFile. simpl.
    destruct (String.eqb_spec authDirFromConfig "") as [|_]; [done|]. simpl.
    assert (match findTokenFileInDir os authDirFromConfig with
            | Ok foundFile =>
                if negb (String.eqb foundFile "") then foundFile else ""
            | Err _ => ""
            end = "") as ->.
    { by destruct Hnone as [->|[err ->]]. }
    simpl. rewrite orEnvironment_spec. by rewrite decide_False by (by intros []).
Qed.

(** The default directories have a token file, the configured directory
    has none: the tool ends without a token. *)
Example configured_directory_shuts_out_defaults :
  findDefaultTokenFile emptyConfigured = Ok "auths/github-copilot-alice.json" ∧
  resolveToken emptyConfigured sampleTokenFile "" "" "" "" = inr "gho_alice" ∧
  resolveToken emptyConfigured sampleTokenFile "configured" "" "" "" =
    inl NoTokenFound.
Proof. by vm_compute. Qed.

End UsageToolFacts.
